(** * VL53L1X time-of-flight sensor driver: shallow embedding and properties

    The driver (class [VL53L1X]) talks to the sensor over a byte-oriented
    addressed bus.  The embedding keeps the C++ code's own shape:

    - fixed-width unsigned integers are [Z] with the wrap-around written
      out ([u8], [u16], [u32], [u64]);
    - the object's member variables are the record [VL53L1X];
    - every member function is a computation in a small state-and-error
      monad [M]; the error outcome [Undefined] stands for C++ undefined
      behaviour (integer division by zero, a shift by 32 or more), and
      [OutOfFuel] for a polling loop that has not finished yet;
    - the bus is an explicit history of operations kept in the state, and
      the sensor at the other end is a [Device]: a function from that
      history to what the bus returns next. *)

From Stdlib Require Import ZArith List Bool Lia.
From Stdlib Require String.
Import ListNotations.
Import String.StringSyntax.
Delimit Scope string_scope with string.
Local Open Scope Z_scope.

(** ** Fixed-width unsigned arithmetic *)

Definition u8 (x : Z) : Z := x mod 2 ^ 8.
Definition u16 (x : Z) : Z := x mod 2 ^ 16.
Definition u32 (x : Z) : Z := x mod 2 ^ 32.
Definition u64 (x : Z) : Z := x mod 2 ^ 64.

(** Unsigned 32-bit division; dividing by zero is undefined behaviour. *)
Definition udiv (a b : Z) : option Z :=
  if b =? 0 then None else Some (a / b).

(** ** Register names ([enum regAddr : uint16_t])

    Only the registers the driver code mentions are listed.  Their numeric
    values are declared in the header; no property below depends on them,
    so a register is identified by its name. *)

Inductive regAddr : Set :=
| SOFT_RESET
| I2C_SLAVE__DEVICE_ADDRESS
| OSC_MEASURED__FAST_OSC__FREQUENCY
| VHV_CONFIG__TIMEOUT_MACROP_LOOP_BOUND
| VHV_CONFIG__INIT
| ALGO__PART_TO_PART_RANGE_OFFSET_MM
| MM_CONFIG__OUTER_OFFSET_MM
| DSS_CONFIG__TARGET_TOTAL_RATE_MCPS
| PAD_I2C_HV__EXTSUP_CONFIG
| GPIO__TIO_HV_STATUS
| SIGMA_ESTIMATOR__EFFECTIVE_PULSE_WIDTH_NS
| SIGMA_ESTIMATOR__EFFECTIVE_AMBIENT_WIDTH_NS
| ALGO__CROSSTALK_COMPENSATION_VALID_HEIGHT_MM
| ALGO__RANGE_IGNORE_VALID_HEIGHT_MM
| ALGO__RANGE_MIN_CLIP
| ALGO__CONSISTENCY_CHECK__TOLERANCE
| CAL_CONFIG__VCSEL_START
| PHASECAL_CONFIG__TIMEOUT_MACROP
| PHASECAL_CONFIG__OVERRIDE
| DSS_CONFIG__ROI_MODE_CONTROL
| SYSTEM__THRESH_RATE_HIGH
| SYSTEM__THRESH_RATE_LOW
| DSS_CONFIG__MANUAL_EFFECTIVE_SPADS_SELECT
| DSS_CONFIG__APERTURE_ATTENUATION
| MM_CONFIG__TIMEOUT_MACROP_A
| MM_CONFIG__TIMEOUT_MACROP_B
| RANGE_CONFIG__TIMEOUT_MACROP_A
| RANGE_CONFIG__VCSEL_PERIOD_A
| RANGE_CONFIG__TIMEOUT_MACROP_B
| RANGE_CONFIG__VCSEL_PERIOD_B
| RANGE_CONFIG__SIGMA_THRESH
| RANGE_CONFIG__MIN_COUNT_RATE_RTN_LIMIT_MCPS
| RANGE_CONFIG__VALID_PHASE_HIGH
| SYSTEM__INTERMEASUREMENT_PERIOD
| SYSTEM__GROUPED_PARAMETER_HOLD_0
| SYSTEM__SEED_CONFIG
| SD_CONFIG__WOI_SD0
| SD_CONFIG__WOI_SD1
| SD_CONFIG__INITIAL_PHASE_SD0
| SD_CONFIG__INITIAL_PHASE_SD1
| SYSTEM__GROUPED_PARAMETER_HOLD_1
| SD_CONFIG__QUANTIFIER
| ROI_CONFIG__USER_ROI_CENTRE_SPAD
| ROI_CONFIG__USER_ROI_REQUESTED_GLOBAL_XY_SIZE
| SYSTEM__SEQUENCE_CONFIG
| SYSTEM__GROUPED_PARAMETER_HOLD
| SYSTEM__INTERRUPT_CLEAR
| SYSTEM__MODE_START
| RESULT__RANGE_STATUS
| PHASECAL_RESULT__VCSEL_START
| RESULT__OSC_CALIBRATE_VAL
| FIRMWARE__SYSTEM_STATUS
| IDENTIFICATION__MODEL_ID.

Scheme Equality for regAddr.

(** ** Enumerations *)

Inductive DistanceMode : Set := Short | Medium | Long | Unknown.

Module RangeStatus.
Inductive t : Set :=
| RangeValid
| SigmaFail
| SignalFail
| RangeValidMinRangeClipped
| OutOfBoundsFail
| HardwareFail
| RangeValidNoWrapCheckFail
| WrapTargetFail
| XtalkSignalFail
| SynchronizationInt
| MinRangeFail
| None.
End RangeStatus.

(** ** Constants of the header

    [TimingGuard], [TargetRate] and [AddressDefault] are static constants of
    the class whose values are given in the header only; the driver code
    uses them by name, and so does the embedding. *)

Class Header : Type := {
  AddressDefault : Z;
  TimingGuard : Z;
  TargetRate : Z;
  AddressDefault_u8 : 0 <= AddressDefault < 2 ^ 8;
  TimingGuard_u32 : 0 <= TimingGuard < 2 ^ 32;
  TargetRate_u16 : 0 <= TargetRate < 2 ^ 16
}.

(** ** The bus

    One entry per call sequence the driver makes on the bus object:
    [Transmit a r p] is [beginTransmission(a)], the two address bytes of
    register [r], the payload bytes [p], [endTransmission()];
    [Request a n] is [requestFrom(a, n)]; [Delay us] is a call of [delay] or
    [delayMicroseconds].  The newest entry is at the head. *)

Inductive BusOp : Type :=
| Transmit (dev_addr : Z) (reg : regAddr) (payload : list Z)
| Request (dev_addr : Z) (n : nat)
| Delay (us : Z).

(** The sensor and the clock, seen from the driver: what [endTransmission]
    returns for the transmission at the head of the history, what the
    [k]-th call of [read()] returns after the request at the head, and what
    [millis()] returns. *)

Record Device : Type := {
  endTransmission : list BusOp -> Z;
  wire_read : list BusOp -> nat -> Z;
  millis : list BusOp -> Z
}.

(** ** Member data *)

Module ResultBuffer.
Record t : Type := mk {
  range_status : Z;
  stream_count : Z;
  dss_actual_effective_spads_sd0 : Z;
  ambient_count_rate_mcps_sd0 : Z;
  final_crosstalk_corrected_range_mm_sd0 : Z;
  peak_signal_count_rate_crosstalk_corrected_mcps_sd0 : Z
}.
End ResultBuffer.

(** The two count rates of [RangingData] are floats in the code
    ([countRateFixedToFloat]); the embedding keeps the 9.7 fixed-point
    number they are converted from. *)

Module RangingData.
Record t : Type := mk {
  range_mm : Z;
  range_status : RangeStatus.t;
  peak_signal_count_rate_MCPS : Z;
  ambient_count_rate_MCPS : Z
}.
End RangingData.

Record VL53L1X : Type := mkVL53L1X {
  address : Z;
  io_timeout : Z;
  did_timeout : bool;
  timeout_start_ms : Z;
  calibrated : bool;
  saved_vhv_init : Z;
  saved_vhv_timeout : Z;
  distance_mode : DistanceMode;
  fast_osc_frequency : Z;
  osc_calibrate_val : Z;
  last_status : Z;
  results : ResultBuffer.t;
  ranging_data : RangingData.t;
  bus : list BusOp
}.

Definition set_address (v : Z) (s : VL53L1X) : VL53L1X :=
  mkVL53L1X v (io_timeout s) (did_timeout s) (timeout_start_ms s)
    (calibrated s) (saved_vhv_init s) (saved_vhv_timeout s) (distance_mode s)
    (fast_osc_frequency s) (osc_calibrate_val s) (last_status s) (results s)
    (ranging_data s) (bus s).

Definition set_io_timeout (v : Z) (s : VL53L1X) : VL53L1X :=
  mkVL53L1X (address s) v (did_timeout s) (timeout_start_ms s)
    (calibrated s) (saved_vhv_init s) (saved_vhv_timeout s) (distance_mode s)
    (fast_osc_frequency s) (osc_calibrate_val s) (last_status s) (results s)
    (ranging_data s) (bus s).

Definition set_did_timeout (v : bool) (s : VL53L1X) : VL53L1X :=
  mkVL53L1X (address s) (io_timeout s) v (timeout_start_ms s)
    (calibrated s) (saved_vhv_init s) (saved_vhv_timeout s) (distance_mode s)
    (fast_osc_frequency s) (osc_calibrate_val s) (last_status s) (results s)
    (ranging_data s) (bus s).

Definition set_timeout_start_ms (v : Z) (s : VL53L1X) : VL53L1X :=
  mkVL53L1X (address s) (io_timeout s) (did_timeout s) v
    (calibrated s) (saved_vhv_init s) (saved_vhv_timeout s) (distance_mode s)
    (fast_osc_frequency s) (osc_calibrate_val s) (last_status s) (results s)
    (ranging_data s) (bus s).

Definition set_calibrated (v : bool) (s : VL53L1X) : VL53L1X :=
  mkVL53L1X (address s) (io_timeout s) (did_timeout s) (timeout_start_ms s)
    v (saved_vhv_init s) (saved_vhv_timeout s) (distance_mode s)
    (fast_osc_frequency s) (osc_calibrate_val s) (last_status s) (results s)
    (ranging_data s) (bus s).

Definition set_saved_vhv_init (v : Z) (s : VL53L1X) : VL53L1X :=
  mkVL53L1X (address s) (io_timeout s) (did_timeout s) (timeout_start_ms s)
    (calibrated s) v (saved_vhv_timeout s) (distance_mode s)
    (fast_osc_frequency s) (osc_calibrate_val s) (last_status s) (results s)
    (ranging_data s) (bus s).

Definition set_saved_vhv_timeout (v : Z) (s : VL53L1X) : VL53L1X :=
  mkVL53L1X (address s) (io_timeout s) (did_timeout s) (timeout_start_ms s)
    (calibrated s) (saved_vhv_init s) v (distance_mode s)
    (fast_osc_frequency s) (osc_calibrate_val s) (last_status s) (results s)
    (ranging_data s) (bus s).

Definition set_distance_mode (v : DistanceMode) (s : VL53L1X) : VL53L1X :=
  mkVL53L1X (address s) (io_timeout s) (did_timeout s) (timeout_start_ms s)
    (calibrated s) (saved_vhv_init s) (saved_vhv_timeout s) v
    (fast_osc_frequency s) (osc_calibrate_val s) (last_status s) (results s)
    (ranging_data s) (bus s).

Definition set_fast_osc_frequency (v : Z) (s : VL53L1X) : VL53L1X :=
  mkVL53L1X (address s) (io_timeout s) (did_timeout s) (timeout_start_ms s)
    (calibrated s) (saved_vhv_init s) (saved_vhv_timeout s) (distance_mode s)
    v (osc_calibrate_val s) (last_status s) (results s)
    (ranging_data s) (bus s).

Definition set_osc_calibrate_val (v : Z) (s : VL53L1X) : VL53L1X :=
  mkVL53L1X (address s) (io_timeout s) (did_timeout s) (timeout_start_ms s)
    (calibrated s) (saved_vhv_init s) (saved_vhv_timeout s) (distance_mode s)
    (fast_osc_frequency s) v (last_status s) (results s)
    (ranging_data s) (bus s).

Definition set_results (v : ResultBuffer.t) (s : VL53L1X) : VL53L1X :=
  mkVL53L1X (address s) (io_timeout s) (did_timeout s) (timeout_start_ms s)
    (calibrated s) (saved_vhv_init s) (saved_vhv_timeout s) (distance_mode s)
    (fast_osc_frequency s) (osc_calibrate_val s) (last_status s) v
    (ranging_data s) (bus s).

Definition set_ranging_data (v : RangingData.t) (s : VL53L1X) : VL53L1X :=
  mkVL53L1X (address s) (io_timeout s) (did_timeout s) (timeout_start_ms s)
    (calibrated s) (saved_vhv_init s) (saved_vhv_timeout s) (distance_mode s)
    (fast_osc_frequency s) (osc_calibrate_val s) (last_status s) (results s)
    v (bus s).

(** A bus operation is appended to the history; a transmission also
    stores what [endTransmission] returned in [last_status]. *)

Definition log_op (op : BusOp) (s : VL53L1X) : VL53L1X :=
  mkVL53L1X (address s) (io_timeout s) (did_timeout s) (timeout_start_ms s)
    (calibrated s) (saved_vhv_init s) (saved_vhv_timeout s) (distance_mode s)
    (fast_osc_frequency s) (osc_calibrate_val s) (last_status s) (results s)
    (ranging_data s) (op :: bus s).

Definition set_last_status (v : Z) (s : VL53L1X) : VL53L1X :=
  mkVL53L1X (address s) (io_timeout s) (did_timeout s) (timeout_start_ms s)
    (calibrated s) (saved_vhv_init s) (saved_vhv_timeout s) (distance_mode s)
    (fast_osc_frequency s) (osc_calibrate_val s) v (results s)
    (ranging_data s) (bus s).

(** ** The monad of member functions *)

Inductive outcome (A : Type) : Type :=
| Ok (a : A) (s : VL53L1X)
| Undefined
| OutOfFuel.

Arguments Ok {A} a s.
Arguments Undefined {A}.
Arguments OutOfFuel {A}.

Definition M (A : Type) : Type := VL53L1X -> outcome A.

Definition ret {A} (a : A) : M A := fun s => Ok a s.

Definition bind {A B} (m : M A) (k : A -> M B) : M B :=
  fun s => match m s with
           | Ok a s' => k a s'
           | Undefined => Undefined
           | OutOfFuel => OutOfFuel
           end.

Notation "x <- m ;; k" := (bind m (fun x => k))
  (at level 61, m at next level, right associativity).
Notation "m ;;; k" := (bind m (fun _ => k))
  (at level 61, right associativity).

Definition get {A} (f : VL53L1X -> A) : M A := fun s => Ok (f s) s.
Definition modify (f : VL53L1X -> VL53L1X) : M unit := fun s => Ok tt (f s).
Definition defined {A} (o : option A) : M A :=
  fun s => match o with Some a => Ok a s | None => Undefined end.

(** ** Fixed-point timing arithmetic (private static helpers) *)

(** [decodeTimeout]: [((uint32_t)(reg_val & 0xFF) << (reg_val >> 8)) + 1].
    Shifting a 32-bit value by 32 or more is undefined. *)
Definition decodeTimeout (reg_val : Z) : option Z :=
  let e := Z.shiftr reg_val 8 in
  if e <? 32
  then Some (u32 (u32 (Z.shiftl (Z.land reg_val 0xFF) e) + 1))
  else None.

(** The [while] loop of [encodeTimeout].  [ls_byte] is a [uint32_t] and is
    halved by every iteration, so 32 iterations are always enough; see
    [encodeTimeout_loop_exits]. *)
Fixpoint encodeTimeout_loop (n : nat) (ls_byte ms_byte : Z) : Z * Z :=
  match n with
  | O => (ls_byte, ms_byte)
  | S n' =>
      if 0 <? Z.land ls_byte 0xFFFFFF00
      then encodeTimeout_loop n' (Z.shiftr ls_byte 1) (u16 (ms_byte + 1))
      else (ls_byte, ms_byte)
  end.

Definition encodeTimeout (timeout_mclks : Z) : Z :=
  if 0 <? timeout_mclks then
    let '(ls_byte, ms_byte) :=
      encodeTimeout_loop 32 (u32 (timeout_mclks - 1)) 0 in
    u16 (Z.lor (Z.shiftl ms_byte 8) (Z.land ls_byte 0xFF))
  else 0.

Definition timeoutMclksToMicroseconds (timeout_mclks macro_period_us : Z) : Z :=
  u32 (Z.shiftr (u64 (timeout_mclks * macro_period_us + 0x800)) 12).

Definition timeoutMicrosecondsToMclks (timeout_us macro_period_us : Z)
  : option Z :=
  udiv (u32 (u32 (Z.shiftl timeout_us 12) + Z.shiftr macro_period_us 1))
       macro_period_us.

(** The arithmetic of [calcMacroPeriod], with the member
    [fast_osc_frequency] as an argument. *)
Definition macroPeriod (fast_osc_freq vcsel_period : Z) : option Z :=
  match udiv (Z.shiftl 1 30) fast_osc_freq with
  | None => None
  | Some pll_period_us =>
      let vcsel_period_pclks := u8 (Z.shiftl (vcsel_period + 1) 1) in
      let macro_period_us := u32 (2304 * pll_period_us) in
      let macro_period_us := Z.shiftr macro_period_us 6 in
      let macro_period_us := u32 (macro_period_us * vcsel_period_pclks) in
      let macro_period_us := Z.shiftr macro_period_us 6 in
      Some macro_period_us
  end.

(** ** Result decoding that does not touch the bus *)

(** The [switch] of [getRangingData]. *)
Definition rangeStatusOf (range_status stream_count : Z) : RangeStatus.t :=
  match range_status with
  | 17 | 2 | 1 | 3 => RangeStatus.HardwareFail
  | 13 => RangeStatus.MinRangeFail
  | 18 => RangeStatus.SynchronizationInt
  | 5 => RangeStatus.OutOfBoundsFail
  | 4 => RangeStatus.SignalFail
  | 6 => RangeStatus.SigmaFail
  | 7 => RangeStatus.WrapTargetFail
  | 12 => RangeStatus.XtalkSignalFail
  | 8 => RangeStatus.RangeValidMinRangeClipped
  | 9 => if stream_count =? 0
         then RangeStatus.RangeValidNoWrapCheckFail
         else RangeStatus.RangeValid
  | _ => RangeStatus.None
  end.

Definition getRangingData (s : VL53L1X) : VL53L1X :=
  let r := results s in
  let range := ResultBuffer.final_crosstalk_corrected_range_mm_sd0 r in
  set_ranging_data
    (RangingData.mk
       (u16 (u32 (u32 (range * 2011) + 0x0400) / 0x0800))
       (rangeStatusOf (ResultBuffer.range_status r)
                      (ResultBuffer.stream_count r))
       (ResultBuffer.peak_signal_count_rate_crosstalk_corrected_mcps_sd0 r)
       (ResultBuffer.ambient_count_rate_mcps_sd0 r))
    s.

(** The byte pair [(uint16_t)read() << 8], then [|= read()]. *)
Definition be16 (hi lo : Z) : Z :=
  u16 (Z.lor (u16 (Z.shiftl (u16 hi) 8)) lo).

(** The four bytes of [readReg32Bit]: [(uint32_t)read() << 24], then
    [|= (uint32_t)read() << 16], [|= (uint16_t)read() << 8], [|= read()]. *)
Definition be32 (b3 b2 b1 b0 : Z) : Z :=
  let value := u32 (Z.shiftl (u32 b3) 24) in
  let value := u32 (Z.lor value (u32 (Z.shiftl (u32 b2) 16))) in
  let value := u32 (Z.lor value (Z.shiftl (u16 b1) 8)) in
  u32 (Z.lor value b0).

Section Driver.

Context {hdr : Header}.
Variable dev : Device.

(** ** Register transport *)

(** The object after one transmission: the operation is in the history and
    [last_status] holds what [endTransmission] returned. *)
Definition transmitted (reg : regAddr) (payload : list Z) (s : VL53L1X)
  : VL53L1X :=
  let op := Transmit (address s) reg payload in
  set_last_status (u8 (endTransmission dev (op :: bus s))) (log_op op s).

Definition transmit (reg : regAddr) (payload : list Z) : M unit :=
  fun s => Ok tt (transmitted reg payload s).

Definition requestFrom (n : nat) : M unit :=
  fun s => Ok tt (log_op (Request (address s) n) s).

Definition bus_read (k : nat) : M Z :=
  fun s => Ok (wire_read dev (bus s) k) s.

Definition delayMicroseconds (us : Z) : M unit := modify (log_op (Delay us)).
Definition delay (ms : Z) : M unit := modify (log_op (Delay (1000 * ms))).

Definition writeReg (reg : regAddr) (value : Z) : M unit :=
  transmit reg [u8 value].

Definition writeReg16Bit (reg : regAddr) (value : Z) : M unit :=
  let value := u16 value in
  transmit reg [u8 (Z.shiftr value 8); u8 value].

Definition writeReg32Bit (reg : regAddr) (value : Z) : M unit :=
  let value := u32 value in
  transmit reg [u8 (Z.shiftr value 24); u8 (Z.shiftr value 16);
                u8 (Z.shiftr value 8); u8 value].

Definition readReg (reg : regAddr) : M Z :=
  transmit reg [] ;;;
  requestFrom 1 ;;;
  value <- bus_read 0 ;;
  ret (u8 value).

Definition readReg16Bit (reg : regAddr) : M Z :=
  transmit reg [] ;;;
  requestFrom 2 ;;;
  hi <- bus_read 0 ;;
  lo <- bus_read 1 ;;
  ret (be16 hi lo).

Definition readReg32Bit (reg : regAddr) : M Z :=
  transmit reg [] ;;;
  requestFrom 4 ;;;
  b3 <- bus_read 0 ;;
  b2 <- bus_read 1 ;;
  b1 <- bus_read 2 ;;
  b0 <- bus_read 3 ;;
  ret (be32 b3 b2 b1 b0).

(** ** Timing budget *)

Definition calcMacroPeriod (vcsel_period : Z) : M Z :=
  f <- get fast_osc_frequency ;;
  defined (macroPeriod f vcsel_period).

Definition setMeasurementTimingBudget (budget_us : Z) : M bool :=
  if budget_us <=? TimingGuard then ret false else
  let budget_us := u32 (budget_us - TimingGuard) in
  let range_config_timeout_us := budget_us in
  if 1100000 <? range_config_timeout_us then ret false else
  let range_config_timeout_us := range_config_timeout_us / 2 in
  vcsel_a <- readReg RANGE_CONFIG__VCSEL_PERIOD_A ;;
  macro_period_us <- calcMacroPeriod vcsel_a ;;
  phasecal_timeout_mclks <-
    defined (timeoutMicrosecondsToMclks 1000 macro_period_us) ;;
  let phasecal_timeout_mclks :=
    if 0xFF <? phasecal_timeout_mclks then 0xFF else phasecal_timeout_mclks in
  writeReg PHASECAL_CONFIG__TIMEOUT_MACROP phasecal_timeout_mclks ;;;
  mm_a <- defined (timeoutMicrosecondsToMclks 1 macro_period_us) ;;
  writeReg16Bit MM_CONFIG__TIMEOUT_MACROP_A (encodeTimeout mm_a) ;;;
  range_a <-
    defined (timeoutMicrosecondsToMclks range_config_timeout_us
               macro_period_us) ;;
  writeReg16Bit RANGE_CONFIG__TIMEOUT_MACROP_A (encodeTimeout range_a) ;;;
  vcsel_b <- readReg RANGE_CONFIG__VCSEL_PERIOD_B ;;
  macro_period_us <- calcMacroPeriod vcsel_b ;;
  mm_b <- defined (timeoutMicrosecondsToMclks 1 macro_period_us) ;;
  writeReg16Bit MM_CONFIG__TIMEOUT_MACROP_B (encodeTimeout mm_b) ;;;
  range_b <-
    defined (timeoutMicrosecondsToMclks range_config_timeout_us
               macro_period_us) ;;
  writeReg16Bit RANGE_CONFIG__TIMEOUT_MACROP_B (encodeTimeout range_b) ;;;
  ret true.

Definition getMeasurementTimingBudget : M Z :=
  vcsel_a <- readReg RANGE_CONFIG__VCSEL_PERIOD_A ;;
  macro_period_us <- calcMacroPeriod vcsel_a ;;
  reg_val <- readReg16Bit RANGE_CONFIG__TIMEOUT_MACROP_A ;;
  mclks <- defined (decodeTimeout reg_val) ;;
  let range_config_timeout_us :=
    timeoutMclksToMicroseconds mclks macro_period_us in
  ret (u32 (2 * range_config_timeout_us + TimingGuard)).

(** ** Distance mode *)

Definition setDistanceMode (mode : DistanceMode) : M bool :=
  budget_us <- getMeasurementTimingBudget ;;
  let reapply : M bool :=
    setMeasurementTimingBudget budget_us ;;;
    modify (set_distance_mode mode) ;;;
    ret true in
  match mode with
  | Short =>
      writeReg RANGE_CONFIG__VCSEL_PERIOD_A 0x07 ;;;
      writeReg RANGE_CONFIG__VCSEL_PERIOD_B 0x05 ;;;
      writeReg RANGE_CONFIG__VALID_PHASE_HIGH 0x38 ;;;
      writeReg SD_CONFIG__WOI_SD0 0x07 ;;;
      writeReg SD_CONFIG__WOI_SD1 0x05 ;;;
      writeReg SD_CONFIG__INITIAL_PHASE_SD0 6 ;;;
      writeReg SD_CONFIG__INITIAL_PHASE_SD1 6 ;;;
      reapply
  | Medium =>
      writeReg RANGE_CONFIG__VCSEL_PERIOD_A 0x0B ;;;
      writeReg RANGE_CONFIG__VCSEL_PERIOD_B 0x09 ;;;
      writeReg RANGE_CONFIG__VALID_PHASE_HIGH 0x78 ;;;
      writeReg SD_CONFIG__WOI_SD0 0x0B ;;;
      writeReg SD_CONFIG__WOI_SD1 0x09 ;;;
      writeReg SD_CONFIG__INITIAL_PHASE_SD0 10 ;;;
      writeReg SD_CONFIG__INITIAL_PHASE_SD1 10 ;;;
      reapply
  | Long =>
      writeReg RANGE_CONFIG__VCSEL_PERIOD_A 0x0F ;;;
      writeReg RANGE_CONFIG__VCSEL_PERIOD_B 0x0D ;;;
      writeReg RANGE_CONFIG__VALID_PHASE_HIGH 0xB8 ;;;
      writeReg SD_CONFIG__WOI_SD0 0x0F ;;;
      writeReg SD_CONFIG__WOI_SD1 0x0D ;;;
      writeReg SD_CONFIG__INITIAL_PHASE_SD0 14 ;;;
      writeReg SD_CONFIG__INITIAL_PHASE_SD1 14 ;;;
      reapply
  | Unknown => ret false
  end.

(** ** Address and region of interest *)

Definition setAddress (new_addr : Z) : M unit :=
  writeReg I2C_SLAVE__DEVICE_ADDRESS (Z.land new_addr 0x7F) ;;;
  modify (set_address new_addr).

Definition setROISize (width height : Z) : M unit :=
  let width := if 16 <? width then 16 else width in
  let height := if 16 <? height then 16 else height in
  (if (10 <? width) || (10 <? height)
   then writeReg ROI_CONFIG__USER_ROI_CENTRE_SPAD 199
   else ret tt) ;;;
  writeReg ROI_CONFIG__USER_ROI_REQUESTED_GLOBAL_XY_SIZE
    (Z.lor (Z.shiftl (height - 1) 4) (width - 1)).

Definition getROISize : M (Z * Z) :=
  reg_val <- readReg ROI_CONFIG__USER_ROI_REQUESTED_GLOBAL_XY_SIZE ;;
  ret (u8 (Z.land reg_val 0xF + 1), u8 (Z.shiftr reg_val 4 + 1)).

Definition setROICenter (spadNumber : Z) : M unit :=
  writeReg ROI_CONFIG__USER_ROI_CENTRE_SPAD spadNumber.

Definition getROICenter : M Z :=
  readReg ROI_CONFIG__USER_ROI_CENTRE_SPAD.

(** ** Timeouts and data-ready polling *)

(** Modelled from the spec: [startTimeout], [checkTimeoutExpired],
    [dataReady], [setTimeout] and [getDistanceMode] are inline members of
    the header, which is not among the sources.  Per the spec a blocking
    poll records when it starts and has timed out once more than
    [io_timeout] milliseconds have passed, [io_timeout = 0] meaning that it
    never times out; measurement readiness is a data-ready bit that the
    driver polls, taken here to be bit 0 of [GPIO__TIO_HV_STATUS] reading
    0 (the register is set up active-low by [init]). *)
Definition startTimeout : M unit :=
  fun s => Ok tt (set_timeout_start_ms (millis dev (bus s)) s).

Definition checkTimeoutExpired : M bool :=
  fun s =>
    Ok ((0 <? io_timeout s)
        && (io_timeout s <? millis dev (bus s) - timeout_start_ms s)) s.

Definition dataReady : M bool :=
  v <- readReg GPIO__TIO_HV_STATUS ;;
  ret (Z.land v 0x01 =? 0).

Definition setTimeout (timeout : Z) : M unit := modify (set_io_timeout timeout).

Definition getDistanceMode : M DistanceMode := get distance_mode.

Definition timeoutOccurred : M bool :=
  tmp <- get did_timeout ;;
  modify (set_did_timeout false) ;;;
  ret tmp.

(** ** Initialization *)

(** The boot-completion poll of [init]: [true] when the firmware reports
    that it has booted, [false] when the poll timed out. *)
Fixpoint poll_for_boot_completion (fuel : nat) : M bool :=
  match fuel with
  | O => fun _ => OutOfFuel
  | S fuel' =>
      v <- readReg FIRMWARE__SYSTEM_STATUS ;;
      st <- get last_status ;;
      if (Z.land v 0x01 =? 0) || negb (st =? 0) then
        expired <- checkTimeoutExpired ;;
        if expired
        then modify (set_did_timeout true) ;;; ret false
        else poll_for_boot_completion fuel'
      else ret true
  end.

Definition init (fuel : nat) (io_2v8 : bool) : M Z :=
  res <- readReg16Bit IDENTIFICATION__MODEL_ID ;;
  if negb (res =? 0xEACC) then ret res else
  writeReg SOFT_RESET 0x00 ;;;
  delayMicroseconds 100 ;;;
  writeReg SOFT_RESET 0x01 ;;;
  delay 1 ;;;
  startTimeout ;;;
  booted <- poll_for_boot_completion fuel ;;
  if negb booted then ret 2 else
  (if io_2v8
   then v <- readReg PAD_I2C_HV__EXTSUP_CONFIG ;;
        writeReg PAD_I2C_HV__EXTSUP_CONFIG (Z.lor v 0x01)
   else ret tt) ;;;
  f <- readReg16Bit OSC_MEASURED__FAST_OSC__FREQUENCY ;;
  modify (set_fast_osc_frequency f) ;;;
  c <- readReg16Bit RESULT__OSC_CALIBRATE_VAL ;;
  modify (set_osc_calibrate_val c) ;;;
  writeReg16Bit DSS_CONFIG__TARGET_TOTAL_RATE_MCPS TargetRate ;;;
  writeReg GPIO__TIO_HV_STATUS 0x02 ;;;
  writeReg SIGMA_ESTIMATOR__EFFECTIVE_PULSE_WIDTH_NS 8 ;;;
  writeReg SIGMA_ESTIMATOR__EFFECTIVE_AMBIENT_WIDTH_NS 16 ;;;
  writeReg ALGO__CROSSTALK_COMPENSATION_VALID_HEIGHT_MM 0x01 ;;;
  writeReg ALGO__RANGE_IGNORE_VALID_HEIGHT_MM 0xFF ;;;
  writeReg ALGO__RANGE_MIN_CLIP 0 ;;;
  writeReg ALGO__CONSISTENCY_CHECK__TOLERANCE 2 ;;;
  writeReg16Bit SYSTEM__THRESH_RATE_HIGH 0x0000 ;;;
  writeReg16Bit SYSTEM__THRESH_RATE_LOW 0x0000 ;;;
  writeReg DSS_CONFIG__APERTURE_ATTENUATION 0x38 ;;;
  writeReg16Bit RANGE_CONFIG__SIGMA_THRESH 360 ;;;
  writeReg16Bit RANGE_CONFIG__MIN_COUNT_RATE_RTN_LIMIT_MCPS 192 ;;;
  writeReg SYSTEM__GROUPED_PARAMETER_HOLD_0 0x01 ;;;
  writeReg SYSTEM__GROUPED_PARAMETER_HOLD_1 0x01 ;;;
  writeReg SD_CONFIG__QUANTIFIER 2 ;;;
  writeReg SYSTEM__GROUPED_PARAMETER_HOLD 0x00 ;;;
  writeReg SYSTEM__SEED_CONFIG 1 ;;;
  writeReg SYSTEM__SEQUENCE_CONFIG 0x8B ;;;
  writeReg16Bit DSS_CONFIG__MANUAL_EFFECTIVE_SPADS_SELECT (Z.shiftl 200 8) ;;;
  writeReg DSS_CONFIG__ROI_MODE_CONTROL 2 ;;;
  setDistanceMode Long ;;;
  setMeasurementTimingBudget 50000 ;;;
  offset <- readReg16Bit MM_CONFIG__OUTER_OFFSET_MM ;;
  writeReg16Bit ALGO__PART_TO_PART_RANGE_OFFSET_MM (offset * 4) ;;;
  ret 0.

(** ** Measurement *)

Definition startContinuous (period_ms : Z) : M unit :=
  c <- get osc_calibrate_val ;;
  writeReg32Bit SYSTEM__INTERMEASUREMENT_PERIOD (period_ms * c) ;;;
  writeReg SYSTEM__INTERRUPT_CLEAR 0x01 ;;;
  writeReg SYSTEM__MODE_START 0x40.

Definition stopContinuous : M unit :=
  writeReg SYSTEM__MODE_START 0x80 ;;;
  modify (set_calibrated false) ;;;
  i <- get saved_vhv_init ;;
  (if negb (i =? 0) then writeReg VHV_CONFIG__INIT i else ret tt) ;;;
  t <- get saved_vhv_timeout ;;
  (if negb (t =? 0)
   then writeReg VHV_CONFIG__TIMEOUT_MACROP_LOOP_BOUND t
   else ret tt) ;;;
  writeReg PHASECAL_CONFIG__OVERRIDE 0x00.

Definition setupManualCalibration : M unit :=
  i <- readReg VHV_CONFIG__INIT ;;
  modify (set_saved_vhv_init i) ;;;
  t <- readReg VHV_CONFIG__TIMEOUT_MACROP_LOOP_BOUND ;;
  modify (set_saved_vhv_timeout t) ;;;
  i <- get saved_vhv_init ;;
  writeReg VHV_CONFIG__INIT (Z.land i 0x7F) ;;;
  t <- get saved_vhv_timeout ;;
  writeReg VHV_CONFIG__TIMEOUT_MACROP_LOOP_BOUND
    (Z.land t 0x03 + Z.shiftl 3 2) ;;;
  writeReg PHASECAL_CONFIG__OVERRIDE 0x01 ;;;
  v <- readReg PHASECAL_RESULT__VCSEL_START ;;
  writeReg CAL_CONFIG__VCSEL_START v.

(** The 17 bytes of the result block, in the order [readResults] reads
    them; bytes 1, 5, 6 and 9 to 12 are read and dropped. *)
Definition readResults : M unit :=
  transmit RESULT__RANGE_STATUS [] ;;;
  requestFrom 17 ;;;
  b0 <- bus_read 0 ;;
  _b1 <- bus_read 1 ;;
  b2 <- bus_read 2 ;;
  b3 <- bus_read 3 ;;
  b4 <- bus_read 4 ;;
  _b5 <- bus_read 5 ;;
  _b6 <- bus_read 6 ;;
  b7 <- bus_read 7 ;;
  b8 <- bus_read 8 ;;
  _b9 <- bus_read 9 ;;
  _b10 <- bus_read 10 ;;
  _b11 <- bus_read 11 ;;
  _b12 <- bus_read 12 ;;
  b13 <- bus_read 13 ;;
  b14 <- bus_read 14 ;;
  b15 <- bus_read 15 ;;
  b16 <- bus_read 16 ;;
  modify (set_results
            (ResultBuffer.mk (u8 b0) (u8 b2) (be16 b3 b4) (be16 b7 b8)
               (be16 b13 b14) (be16 b15 b16))).

Definition updateDSS : M unit :=
  r <- get results ;;
  let spadCount := ResultBuffer.dss_actual_effective_spads_sd0 r in
  let fallback := writeReg16Bit DSS_CONFIG__MANUAL_EFFECTIVE_SPADS_SELECT 0x8000 in
  if negb (spadCount =? 0) then
    let totalRatePerSpad :=
      u32 (ResultBuffer.peak_signal_count_rate_crosstalk_corrected_mcps_sd0 r
           + ResultBuffer.ambient_count_rate_mcps_sd0 r) in
    let totalRatePerSpad :=
      if 0xFFFF <? totalRatePerSpad then 0xFFFF else totalRatePerSpad in
    let totalRatePerSpad := u32 (Z.shiftl totalRatePerSpad 16) in
    totalRatePerSpad <- defined (udiv totalRatePerSpad spadCount) ;;
    if negb (totalRatePerSpad =? 0) then
      requiredSpads <-
        defined (udiv (u32 (Z.shiftl TargetRate 16)) totalRatePerSpad) ;;
      let requiredSpads :=
        if 0xFFFF <? requiredSpads then 0xFFFF else requiredSpads in
      writeReg16Bit DSS_CONFIG__MANUAL_EFFECTIVE_SPADS_SELECT requiredSpads
    else fallback
  else fallback.

(** The data-ready poll of a blocking [read]: [true] when data is ready,
    [false] when the poll timed out. *)
Fixpoint poll_data_ready (fuel : nat) : M bool :=
  match fuel with
  | O => fun _ => OutOfFuel
  | S fuel' =>
      ready <- dataReady ;;
      if ready then ret true else
      expired <- checkTimeoutExpired ;;
      if expired
      then modify (set_did_timeout true) ;;; ret false
      else poll_data_ready fuel'
  end.

Definition read (fuel : nat) (blocking : bool) : M Z :=
  go <- (if blocking
         then startTimeout ;;; poll_data_ready fuel
         else ret true) ;;
  if negb go then ret 0 else
  readResults ;;;
  c <- get calibrated ;;
  (if negb c
   then setupManualCalibration ;;; modify (set_calibrated true)
   else ret tt) ;;;
  updateDSS ;;;
  modify getRangingData ;;;
  writeReg SYSTEM__INTERRUPT_CLEAR 0x01 ;;;
  d <- get ranging_data ;;
  ret (RangingData.range_mm d).

Definition readSingle (fuel : nat) (blocking : bool) : M Z :=
  writeReg SYSTEM__INTERRUPT_CLEAR 0x01 ;;;
  writeReg SYSTEM__MODE_START 0x10 ;;;
  if blocking then read fuel true else ret 0.

End Driver.

(** [rangeStatusToString]; the [default] case of the switch is not
    reachable from a value of the enumeration. *)
Definition rangeStatusToString (status : RangeStatus.t) : String.string :=
  match status with
  | RangeStatus.RangeValid => "range valid"
  | RangeStatus.SigmaFail => "sigma fail"
  | RangeStatus.SignalFail => "signal fail"
  | RangeStatus.RangeValidMinRangeClipped => "range valid, min range clipped"
  | RangeStatus.OutOfBoundsFail => "out of bounds fail"
  | RangeStatus.HardwareFail => "hardware fail"
  | RangeStatus.RangeValidNoWrapCheckFail => "range valid, no wrap check fail"
  | RangeStatus.WrapTargetFail => "wrap target fail"
  | RangeStatus.XtalkSignalFail => "xtalk signal fail"
  | RangeStatus.SynchronizationInt => "synchronization int"
  | RangeStatus.MinRangeFail => "min range fail"
  | RangeStatus.None => "no update"
  end%string.

(** The constructor.  The members it leaves uninitialized are zero, as
    they are for the objects with static storage of the application. *)
Definition VL53L1X_new {hdr : Header} : VL53L1X :=
  mkVL53L1X AddressDefault 0 false 0 false 0 0 Unknown 0 0 0
    (ResultBuffer.mk 0 0 0 0 0 0)
    (RangingData.mk 0 RangeStatus.None 0 0)
    [].

(** ** A simulated sensor: a register file

    The transport simulation used for concrete runs.  A register holds the
    payload of the last write to it, or its reset content; a read returns
    the bytes of the register named by the preceding address-only
    transmission; every transmission succeeds; the clock advances by one
    millisecond per bus operation. *)

Fixpoint reg_content (reset : regAddr -> list Z) (r : regAddr)
    (h : list BusOp) : list Z :=
  match h with
  | [] => reset r
  | Transmit _ r' (b :: p) :: h' =>
      if regAddr_beq r r' then b :: p else reg_content reset r h'
  | _ :: h' => reg_content reset r h'
  end.

Definition register_file (reset : regAddr -> list Z) : Device :=
  {| endTransmission := fun _ => 0;
     wire_read := fun h k =>
       match h with
       | Request _ n :: Transmit _ r [] :: h' =>
           if (k <? n)%nat then nth k (reg_content reset r h') (-1) else -1
       | _ => -1
       end;
     millis := fun h => Z.of_nat (length h) |}.

(** The values the vendor library's header gives the three constants.  The
    theorems below hold for every [Header]; these values serve the
    concrete runs only. *)
#[export] Program Instance vendor_header : Header :=
  {| AddressDefault := 0x29; TimingGuard := 4528; TargetRate := 0x0A00 |}.
Next Obligation. lia. Qed.
Next Obligation. lia. Qed.
Next Obligation. lia. Qed.

(** Reset content of a sensor that identifies itself correctly and has
    booted; the measured oscillator frequency is 0xBCCC. *)
Definition booted_sensor (r : regAddr) : list Z :=
  match r with
  | IDENTIFICATION__MODEL_ID => [0xEA; 0xCC]
  | FIRMWARE__SYSTEM_STATUS => [0x01]
  | OSC_MEASURED__FAST_OSC__FREQUENCY => [0xBC; 0xCC]
  | RESULT__OSC_CALIBRATE_VAL => [0x00; 0x64]
  | _ => [0; 0]
  end.

(** ** What the specification says, for comparison with the code *)

(** The status lookup table as the specification lists it. *)
Definition spec_status_table : list (Z * RangeStatus.t) :=
  [ (1, RangeStatus.HardwareFail); (2, RangeStatus.HardwareFail);
    (3, RangeStatus.HardwareFail); (17, RangeStatus.HardwareFail);
    (13, RangeStatus.MinRangeFail);
    (18, RangeStatus.SynchronizationInt);
    (5, RangeStatus.OutOfBoundsFail);
    (4, RangeStatus.SignalFail);
    (6, RangeStatus.SigmaFail);
    (7, RangeStatus.WrapTargetFail);
    (12, RangeStatus.XtalkSignalFail);
    (8, RangeStatus.RangeValidMinRangeClipped) ].

Fixpoint spec_lookup (code : Z) (table : list (Z * RangeStatus.t))
  : RangeStatus.t :=
  match table with
  | [] => RangeStatus.None
  | (c, st) :: rest => if code =? c then st else spec_lookup code rest
  end.

Definition spec_range_status (code stream_count : Z) : RangeStatus.t :=
  if code =? 9 then
    if stream_count =? 0
    then RangeStatus.RangeValidNoWrapCheckFail
    else RangeStatus.RangeValid
  else spec_lookup code spec_status_table.

(** The value of the local variable [totalRatePerSpad] of [updateDSS] once
    it has been divided by a nonzero SPAD count: the sum of the two rates,
    clipped to 16 bits, shifted up by 16 and divided. *)
Definition totalRatePerSpad (r : ResultBuffer.t) : Z :=
  let sum :=
    u32 (ResultBuffer.peak_signal_count_rate_crosstalk_corrected_mcps_sd0 r
         + ResultBuffer.ambient_count_rate_mcps_sd0 r) in
  let clipped := if 0xFFFF <? sum then 0xFFFF else sum in
  u32 (Z.shiftl clipped 16)
  / ResultBuffer.dss_actual_effective_spads_sd0 r.

(** The VCSEL periods that [setDistanceMode] writes for each mode. *)
Definition vcsel_period_a (mode : DistanceMode) : Z :=
  match mode with
  | Short => 0x07 | Medium => 0x0B | Long => 0x0F | Unknown => 0
  end.

Definition vcsel_period_b (mode : DistanceMode) : Z :=
  match mode with
  | Short => 0x05 | Medium => 0x09 | Long => 0x0D | Unknown => 0
  end.

(** The region-of-interest size register as the specification describes
    it: width and height clamped to the range 1 to 16, then packed. *)
Definition spec_clamp_1_16 (x : Z) : Z := Z.max 1 (Z.min 16 x).

Definition spec_roi_size_reg (width height : Z) : Z :=
  Z.lor (Z.shiftl (spec_clamp_1_16 height - 1) 4) (spec_clamp_1_16 width - 1).

(** The rejection condition of the timing budget as the specification
    words it: the budget is at most the guard, or the budget minus the
    guard, then halved, exceeds 550000. *)
Definition spec_budget_rejected {hdr : Header} (budget_us : Z) : bool :=
  (budget_us <=? TimingGuard) || (550000 <? (budget_us - TimingGuard) / 2).

(** ** Concrete objects for the examples *)

(** A result buffer whose final range is 2000, in an otherwise fresh
    object. *)
Definition sample_2000 : VL53L1X :=
  set_results (ResultBuffer.mk 9 1 0 0 2000 0) VL53L1X_new.

(** The simulated sensor after power-up. *)
Definition sim : Device := register_file booted_sensor.

(** A sensor whose registers all read zero: its model ID is 0x0000, not
    0xEACC. *)
Definition zero_sensor (r : regAddr) : list Z := [0; 0].

(** A booted sensor with no measurement ready (bit 0 of
    [GPIO__TIO_HV_STATUS] is 1) whose result block still holds an earlier
    measurement with status 9, stream count 1 and a final range of 2000. *)
Definition idle_sensor (r : regAddr) : list Z :=
  match r with
  | GPIO__TIO_HV_STATUS => [0x03]
  | RESULT__RANGE_STATUS =>
      [9; 0; 1; 0x10; 0x00; 0; 0; 0x00; 0x20; 0; 0; 0; 0;
       0x07; 0xD0; 0x01; 0x00]
  | _ => booted_sensor r
  end.

(** The driver object after a successful [init] on the simulated sensor. *)
Definition after_init : VL53L1X :=
  match init sim 10 true VL53L1X_new with
  | Ok _ s => s
  | _ => VL53L1X_new
  end.

(** The same object after its timing budget has been read once. *)
Definition after_budget_read : VL53L1X :=
  match getMeasurementTimingBudget sim after_init with
  | Ok _ s => s
  | _ => after_init
  end.

(** A booted sensor with no measurement ready. *)
Definition idle : Device := register_file idle_sensor.

(** The same object after a change to the short distance mode. *)
Definition after_short : VL53L1X :=
  match setDistanceMode sim Short after_init with
  | Ok _ s => s
  | _ => after_init
  end.

(** A booted sensor whose two VHV registers hold 0x8A and 0x09. *)
Definition vhv_sensor (r : regAddr) : list Z :=
  match r with
  | VHV_CONFIG__INIT => [0x8A]
  | VHV_CONFIG__TIMEOUT_MACROP_LOOP_BOUND => [0x09]
  | _ => booted_sensor r
  end.

(** A sensor that identifies itself and has booted, but whose measured
    oscillator frequency reads 0. *)
Definition no_clock_sensor (r : regAddr) : list Z :=
  match r with
  | OSC_MEASURED__FAST_OSC__FREQUENCY => [0; 0]
  | _ => booted_sensor r
  end.

(** [n] consecutive non-blocking reads, as a polling loop makes them. *)
Fixpoint reads {hdr : Header} (dev : Device) (n : nat) : M unit :=
  match n with
  | O => ret tt
  | S n' => read dev 0 false ;;; reads dev n'
  end.

(** * Properties *)

(** ** Fixed-width arithmetic *)

(** Simplification steps through the monad and the record updates only;
    arithmetic is rewritten with lemmas. *)
#[local] Arguments u8 x : simpl never.
#[local] Arguments u16 x : simpl never.
#[local] Arguments u32 x : simpl never.
#[local] Arguments u64 x : simpl never.
#[local] Arguments be16 hi lo : simpl never.
#[local] Arguments udiv a b : simpl never.
#[local] Arguments Z.shiftl : simpl never.
#[local] Arguments Z.shiftr : simpl never.
#[local] Arguments Z.land : simpl never.
#[local] Arguments Z.lor : simpl never.
#[local] Arguments Z.add : simpl never.
#[local] Arguments Z.sub : simpl never.
#[local] Arguments Z.mul : simpl never.
#[local] Arguments Z.div : simpl never.
#[local] Arguments Z.modulo : simpl never.
#[local] Arguments Z.pow : simpl never.
#[local] Arguments Z.ltb : simpl never.
#[local] Arguments Z.leb : simpl never.
#[local] Arguments Z.eqb : simpl never.

Lemma u8_small x : 0 <= x < 2 ^ 8 -> u8 x = x.
Proof. intros; unfold u8; apply Z.mod_small; lia. Qed.

Lemma u16_small x : 0 <= x < 2 ^ 16 -> u16 x = x.
Proof. intros; unfold u16; apply Z.mod_small; lia. Qed.

Lemma u32_small x : 0 <= x < 2 ^ 32 -> u32 x = x.
Proof. intros; unfold u32; apply Z.mod_small; lia. Qed.

Lemma u64_small x : 0 <= x < 2 ^ 64 -> u64 x = x.
Proof. intros; unfold u64; apply Z.mod_small; lia. Qed.

Lemma u8_idem x : u8 (u8 x) = u8 x.
Proof. unfold u8. apply Z.mod_mod. lia. Qed.

Lemma u8_range x : 0 <= u8 x < 2 ^ 8.
Proof. unfold u8. apply Z.mod_pos_bound. lia. Qed.

Lemma u16_range x : 0 <= u16 x < 2 ^ 16.
Proof. unfold u16. apply Z.mod_pos_bound. lia. Qed.

Lemma u32_range x : 0 <= u32 x < 2 ^ 32.
Proof. unfold u32. apply Z.mod_pos_bound. lia. Qed.

Lemma land_high_mask x :
  0 <= x < 2 ^ 32 -> Z.land x 0xFFFFFF00 = Z.shiftl (Z.shiftr x 8) 8.
Proof.
  intros Hx.
  change 0xFFFFFF00 with (Z.ldiff (Z.ones 32) (Z.ones 8)).
  rewrite Z.ldiff_land, Z.land_assoc, Z.land_ones by lia.
  rewrite Z.mod_small by lia.
  rewrite <- Z.ldiff_land. apply Z.ldiff_ones_r. lia.
Qed.

Lemma lor_shiftl_low e q n :
  0 <= n -> 0 <= q < 2 ^ n -> Z.lor (Z.shiftl e n) q = e * 2 ^ n + q.
Proof.
  intros Hn Hq.
  rewrite <- (Z.shiftl_mul_pow2 e n Hn), <- Z.add_lor_land.
  replace (Z.land (Z.shiftl e n) q) with 0; [lia|].
  symmetry. apply Z.bits_inj'. intros i Hi.
  rewrite Z.land_spec, Z.bits_0.
  destruct (Z.lt_ge_cases i n).
  - rewrite Z.shiftl_spec_low by assumption. reflexivity.
  - rewrite <- (Z.mod_small q (2 ^ n)) by lia.
    rewrite Z.mod_pow2_bits_high by lia. apply andb_false_r.
Qed.

(** ** Stepping through a sequence of member-function calls *)

Lemma bind_Ok {A B} (m : M A) (k : A -> M B) (s s' : VL53L1X) (a : A) :
  m s = Ok a s' -> bind m k s = k a s'.
Proof. intros H. unfold bind. rewrite H. reflexivity. Qed.

Lemma bind_Undefined {A B} (m : M A) (k : A -> M B) (s : VL53L1X) :
  m s = Undefined -> bind m k s = Undefined.
Proof. intros H. unfold bind. rewrite H. reflexivity. Qed.

Lemma bind_OutOfFuel {A B} (m : M A) (k : A -> M B) (s : VL53L1X) :
  m s = OutOfFuel -> bind m k s = OutOfFuel.
Proof. intros H. unfold bind. rewrite H. reflexivity. Qed.

(** Stepping through writes to the sensor. *)
Lemma bind_writeReg {B} (dev : Device) (reg : regAddr) (value : Z)
    (k : unit -> M B) (s : VL53L1X) :
  bind (writeReg dev reg value) k s
  = k tt (transmitted dev reg [u8 value] s).
Proof. reflexivity. Qed.

Lemma bus_transmitted dev reg payload s :
  bus (transmitted dev reg payload s)
  = Transmit (address s) reg payload :: bus s.
Proof. reflexivity. Qed.

Lemma address_transmitted dev reg payload s :
  address (transmitted dev reg payload s) = address s.
Proof. reflexivity. Qed.

Lemma fast_osc_frequency_transmitted dev reg payload s :
  fast_osc_frequency (transmitted dev reg payload s) = fast_osc_frequency s.
Proof. reflexivity. Qed.

(** ** The timeout encoding *)

(** The loop test [(ls_byte & 0xFFFFFF00) > 0] on a 32-bit value. *)
Lemma encodeTimeout_loop_test x :
  0 <= x < 2 ^ 32 -> (0 <? Z.land x 0xFFFFFF00) = (256 <=? x).
Proof.
  intros Hx. rewrite land_high_mask by assumption.
  rewrite Z.shiftl_mul_pow2, Z.shiftr_div_pow2 by lia.
  change (2 ^ 8) with 256.
  destruct (Z.leb_spec 256 x);
    destruct (Z.ltb_spec 0 (x / 256 * 256)); try reflexivity.
  - assert (1 <= x / 256) by (apply Z.div_le_lower_bound; lia). lia.
  - assert (x / 256 = 0) by (apply Z.div_small; lia). lia.
Qed.

(** The loop leaves by its test, not by the iteration bound: after [k]
    halvings the value fits in eight bits, and [k] is the least such. *)
Lemma encodeTimeout_loop_exits (n : nat) :
  forall x ms,
    0 <= x < 2 ^ 32 -> x < 2 ^ (8 + Z.of_nat n) ->
    0 <= ms -> ms + Z.of_nat n < 2 ^ 16 ->
    exists k,
      0 <= k <= Z.of_nat n /\
      encodeTimeout_loop n x ms = (Z.shiftr x k, ms + k) /\
      Z.shiftr x k < 256 /\
      (k = 0 \/ 128 <= Z.shiftr x k).
Proof.
  induction n as [|n IH]; intros x ms Hx Hn Hms Hms'.
  - exists 0. cbn [encodeTimeout_loop]. rewrite Z.shiftr_0_r, Z.add_0_r.
    change (2 ^ (8 + Z.of_nat 0)) with 256 in Hn. repeat split; auto; lia.
  - cbn [encodeTimeout_loop]. rewrite encodeTimeout_loop_test by assumption.
    destruct (Z.leb_spec 256 x) as [Hbig|Hsmall].
    + assert (Hhalf : Z.shiftr x 1 = x / 2)
        by (rewrite Z.shiftr_div_pow2 by lia; reflexivity).
      assert (Hpow : 2 ^ (8 + Z.of_nat (S n)) = 2 * 2 ^ (8 + Z.of_nat n)).
      { replace (8 + Z.of_nat (S n)) with (Z.succ (8 + Z.of_nat n)) by lia.
        apply Z.pow_succ_r. lia. }
      rewrite (u16_small (ms + 1)) by lia.
      destruct (IH (Z.shiftr x 1) (ms + 1)) as (k & Hk & Hloop & Hlt & Hge).
      * rewrite Hhalf. split; [apply Z.div_pos; lia|].
        apply Z.div_lt_upper_bound; lia.
      * rewrite Hhalf. apply Z.div_lt_upper_bound; lia.
      * lia.
      * lia.
      * exists (1 + k). rewrite Z.shiftr_shiftr in Hloop, Hlt, Hge by lia.
        repeat split; try lia.
        -- rewrite Hloop. f_equal. lia.
        -- right. destruct Hge as [->|Hge]; [|exact Hge].
           rewrite Z.add_0_r, Hhalf.
           apply Z.div_le_lower_bound; lia.
    + exists 0. rewrite Z.shiftr_0_r, Z.add_0_r. repeat split; auto; lia.
Qed.


Lemma decodeTimeout_packed e q :
  0 <= e <= 24 -> 0 <= q < 256 -> q * 2 ^ e + 1 < 2 ^ 32 ->
  decodeTimeout (e * 256 + q) = Some (q * 2 ^ e + 1).
Proof.
  intros He Hq Hfit. unfold decodeTimeout.
  assert (Hhi : Z.shiftr (e * 256 + q) 8 = e).
  { rewrite Z.shiftr_div_pow2 by lia. change (2 ^ 8) with 256.
    rewrite Z.div_add_l by lia. rewrite (Z.div_small q 256) by lia. lia. }
  assert (Hlo : Z.land (e * 256 + q) 0xFF = q).
  { change 0xFF with (Z.ones 8). rewrite Z.land_ones by lia.
    change (2 ^ 8) with 256. rewrite Z.add_comm, Z.mod_add by lia.
    apply Z.mod_small; lia. }
  rewrite Hhi, Hlo. destruct (Z.ltb_spec e 32); [|lia].
  rewrite Z.shiftl_mul_pow2 by lia.
  assert (0 < 2 ^ e) by (apply Z.pow_pos_nonneg; lia).
  rewrite (u32_small (q * 2 ^ e)) by nia.
  rewrite u32_small by nia. reflexivity.
Qed.



Lemma encodeTimeout_u16 m : 0 <= encodeTimeout m < 2 ^ 16.
Proof.
  unfold encodeTimeout. destruct (0 <? m); [|lia].
  destruct (encodeTimeout_loop 32 (u32 (m - 1)) 0). apply u16_range.
Qed.

(** The encoding in full: the exponent is the least one for which
    [mclks - 1], shifted right by it, fits in eight bits. *)
Lemma encodeTimeout_top_bits m :
  1 <= m < 2 ^ 32 ->
  exists e,
    0 <= e <= 24 /\
    encodeTimeout m = e * 256 + (m - 1) / 2 ^ e /\
    0 <= (m - 1) / 2 ^ e < 256 /\
    (e = 0 \/ 128 <= (m - 1) / 2 ^ e).
Proof.
  intros Hm. unfold encodeTimeout.
  destruct (Z.ltb_spec 0 m); [|lia].
  rewrite u32_small by lia.
  destruct (encodeTimeout_loop_exits 32 (m - 1) 0)
    as (k & Hk & Hloop & Hlt & Hge); try lia.
  rewrite Hloop, Z.add_0_l.
  rewrite Z.shiftr_div_pow2 in * by lia.
  assert (Hpos : 0 < 2 ^ k) by (apply Z.pow_pos_nonneg; lia).
  assert (Hq : 0 <= (m - 1) / 2 ^ k) by (apply Z.div_pos; lia).
  assert (Hfloor : (m - 1) / 2 ^ k * 2 ^ k <= m - 1)
    by (rewrite Z.mul_comm; apply Z.mul_div_le; lia).
  assert (Hk24 : k <= 24).
  { destruct Hge as [->|Hge]; [lia|].
    destruct (Z.le_gt_cases k 24) as [|Hgt]; [assumption|exfalso].
    assert (2 ^ 25 <= 2 ^ k) by (apply Z.pow_le_mono_r; lia).
    nia. }
  exists k. split; [lia|]. split; [|split; [lia | exact Hge]].
  change 0xFF with (Z.ones 8). rewrite Z.land_ones by lia.
  rewrite Z.mod_small by (change (2 ^ 8) with 256; lia).
  rewrite lor_shiftl_low by (change (2 ^ 8) with 256; lia).
  change (2 ^ 8) with 256. apply u16_small. lia.
Qed.

(** C5 (amended).  On 32-bit inputs: 0 encodes to 0, which decodes to 1.
    For every [mclks >= 1] the high byte of the encoding is an exponent
    [e <= 24] and the low byte is [mclks - 1] shifted right by [e]; [e] is
    the smallest exponent for which that fits in eight bits ([e = 0], or
    the low byte is at least 128), so the low byte holds the top eight bits
    of [mclks - 1].  Decoding gives back [mclks - (mclks - 1) mod 2^e]: the
    round trip is exact for all [1 <= mclks <= 256], and in general exactly
    when the [e] low bits of [mclks - 1] are zero. *)
Theorem timeout_roundtrip :
  forall mclks,
    0 <= mclks < 2 ^ 32 ->
    (mclks = 0 ->
     encodeTimeout mclks = 0 /\ decodeTimeout (encodeTimeout mclks) = Some 1)
    /\
    (1 <= mclks ->
     exists e,
       0 <= e <= 24 /\
       Z.shiftr (encodeTimeout mclks) 8 = e /\
       Z.land (encodeTimeout mclks) 0xFF = (mclks - 1) / 2 ^ e /\
       (mclks - 1) / 2 ^ e < 256 /\
       (e = 0 \/ 128 <= (mclks - 1) / 2 ^ e) /\
       decodeTimeout (encodeTimeout mclks)
         = Some (mclks - (mclks - 1) mod 2 ^ e) /\
       (decodeTimeout (encodeTimeout mclks) = Some mclks
        <-> (mclks - 1) mod 2 ^ e = 0) /\
       (mclks <= 256 -> decodeTimeout (encodeTimeout mclks) = Some mclks)).
Proof.
  intros m Hm. split.
  - intros ->. split; reflexivity.
  - intros H1.
    destruct (encodeTimeout_top_bits m ltac:(lia))
      as (e & He & Henc & Hq & Hnorm).
    assert (Hpos : 0 < 2 ^ e) by (apply Z.pow_pos_nonneg; lia).
    pose proof (Z.div_mod (m - 1) (2 ^ e) ltac:(lia)) as Hdm.
    pose proof (Z.mod_pos_bound (m - 1) (2 ^ e) Hpos) as Hmod.
    assert (Hdec : decodeTimeout (encodeTimeout m)
                   = Some (m - (m - 1) mod 2 ^ e)).
    { rewrite Henc, decodeTimeout_packed by nia. f_equal. nia. }
    exists e.
    split; [exact He|].
    split.
    { rewrite Henc, Z.shiftr_div_pow2 by lia. change (2 ^ 8) with 256.
      rewrite Z.div_add_l by lia. rewrite Z.div_small by lia. lia. }
    split.
    { rewrite Henc. change 0xFF with (Z.ones 8).
      rewrite Z.land_ones by lia. change (2 ^ 8) with 256.
      rewrite Z.add_comm, Z.mod_add by lia. apply Z.mod_small. lia. }
    split; [lia|]. split; [exact Hnorm|]. split; [exact Hdec|].
    split.
    { rewrite Hdec. split.
      - intros [= Heq]. lia.
      - intros ->. f_equal. lia. }
    intros Hle. rewrite Hdec. f_equal.
    destruct (Z.eq_dec e 0) as [He0|He0].
    + rewrite He0. change (2 ^ 0) with 1. rewrite Z.mod_1_r. lia.
    + exfalso. destruct Hnorm as [He0'|Hbig]; [contradiction|].
      assert (H2 : 2 ^ 1 <= 2 ^ e) by (apply Z.pow_le_mono_r; lia).
      change (2 ^ 1) with 2 in H2. nia.
Qed.

Lemma roundtrip_at_200 :
  0 <= 200 < 2 ^ 32 /\
  ((200 = 0 ->
    encodeTimeout 200 = 0 /\ decodeTimeout (encodeTimeout 200) = Some 1)
   /\
   (1 <= 200 ->
    exists e,
      0 <= e <= 24 /\
      Z.shiftr (encodeTimeout 200) 8 = e /\
      Z.land (encodeTimeout 200) 0xFF = (200 - 1) / 2 ^ e /\
      (200 - 1) / 2 ^ e < 256 /\
      (e = 0 \/ 128 <= (200 - 1) / 2 ^ e) /\
      decodeTimeout (encodeTimeout 200) = Some (200 - (200 - 1) mod 2 ^ e) /\
      (decodeTimeout (encodeTimeout 200) = Some 200
       <-> (200 - 1) mod 2 ^ e = 0) /\
      (200 <= 256 -> decodeTimeout (encodeTimeout 200) = Some 200))).
Proof.
  split; [lia | apply (timeout_roundtrip 200); lia].
Defined.

(** C5, as stated, fails: 258 is not 0, yet it encodes to 0x0180, which
    decodes to 257. *)
Lemma mclks_258_decodes_to_257 :
  encodeTimeout 258 = 0x0180 /\
  decodeTimeout (encodeTimeout 258) = Some 257 /\
  decodeTimeout (encodeTimeout 258) <> Some 258.
Proof.
  repeat split; try reflexivity. vm_compute. discriminate.
Qed.

(** ** Result decoding *)

Lemma rangeStatusOf_table code stream_count :
  rangeStatusOf code stream_count = spec_range_status code stream_count.
Proof.
  destruct code as [|p|p]; try reflexivity.
  do 6 (try (destruct p as [p|p|])); reflexivity.
Qed.

(** C1.  Whatever 17 bytes the sensor returns for the result block, the
    status that [getRangingData] stores is the one the specification's
    table gives for the range-status byte (byte 0) and the stream count
    (byte 2); and this holds of any content of the result buffer. *)
Theorem getRangingData_range_status :
  forall (dev : Device) (s : VL53L1X),
    (exists s1,
        readResults dev s = Ok tt s1 /\
        RangingData.range_status (ranging_data (getRangingData s1))
        = spec_range_status (u8 (wire_read dev (bus s1) 0))
                            (u8 (wire_read dev (bus s1) 2)))
    /\
    RangingData.range_status (ranging_data (getRangingData s))
    = spec_range_status (ResultBuffer.range_status (results s))
                        (ResultBuffer.stream_count (results s)).
Proof.
  intros dev s. split.
  - eexists. split; [reflexivity|]. cbn. apply rangeStatusOf_table.
  - cbn. apply rangeStatusOf_table.
Qed.

Lemma range_gain_no_overflow raw :
  0 <= raw < 2 ^ 16 ->
  u16 (u32 (u32 (raw * 2011) + 0x0400) / 0x0800) = (raw * 2011 + 1024) / 2048.
Proof.
  intros Hraw. rewrite (u32_small (raw * 2011)) by lia.
  rewrite u32_small by lia. apply u16_small. split.
  - apply Z.div_pos; lia.
  - apply Z.div_lt_upper_bound; lia.
Qed.

(** C2 (amended).  For every 16-bit raw range the corrected distance is
    [(raw * 2011 + 1024) / 2048], with no overflow or truncation; for a raw
    range of 2000 it is 1964. *)
Theorem range_mm_gain_correction :
  forall (s : VL53L1X) (raw : Z),
    ResultBuffer.final_crosstalk_corrected_range_mm_sd0 (results s) = raw ->
    0 <= raw < 2 ^ 16 ->
    RangingData.range_mm (ranging_data (getRangingData s))
    = (raw * 2011 + 1024) / 2048
    /\ (raw = 2000 ->
        RangingData.range_mm (ranging_data (getRangingData s)) = 1964).
Proof.
  intros s raw Hs Hraw. cbn. rewrite Hs, range_gain_no_overflow by assumption.
  split; [reflexivity|]. intros ->. reflexivity.
Qed.

Lemma gain_at_raw_2000 :
  ResultBuffer.final_crosstalk_corrected_range_mm_sd0 (results sample_2000)
  = 2000 /\
  0 <= 2000 < 2 ^ 16 /\
  (RangingData.range_mm (ranging_data (getRangingData sample_2000))
   = (2000 * 2011 + 1024) / 2048
   /\ (2000 = 2000 ->
       RangingData.range_mm (ranging_data (getRangingData sample_2000))
       = 1964)).
Proof.
  split; [reflexivity|]. split; [lia|].
  apply (range_mm_gain_correction sample_2000 2000); [reflexivity | lia].
Defined.

(** C2, as stated, fails: for a raw range of 2000 the code computes
    [(2000 * 2011 + 1024) / 2048], which is 1964 and not 1965. *)
Lemma raw_2000_corrects_to_1964 :
  RangingData.range_mm (ranging_data (getRangingData sample_2000)) = 1964 /\
  (2000 * 2011 + 1024) / 2048 <> 1965.
Proof.
  split; [reflexivity | vm_compute; discriminate].
Qed.

(** ** Device address *)

Lemma land_7F x : Z.land x 0x7F = x mod 128.
Proof. change 0x7F with (Z.ones 7). apply Z.land_ones. lia. Qed.

(** C10.  [setAddress] sends the low seven bits of the new address to the
    address register, in a transmission still addressed to the old
    address, and stores the unmasked value, which every later transmission
    uses; the stored and the programmed address differ for every new
    address from 0x80 up and agree below. *)
Theorem setAddress_stores_unmasked :
  forall (dev : Device) (s : VL53L1X) (new_addr : Z),
    0 <= new_addr < 2 ^ 8 ->
    exists s',
      setAddress dev new_addr s = Ok tt s' /\
      bus s' = Transmit (address s) I2C_SLAVE__DEVICE_ADDRESS
                 [Z.land new_addr 0x7F] :: bus s /\
      address s' = new_addr /\
      (forall reg value,
          exists s'',
            writeReg dev reg value s' = Ok tt s'' /\
            bus s'' = Transmit new_addr reg [u8 value] :: bus s') /\
      (0x80 <= new_addr -> address s' <> Z.land new_addr 0x7F) /\
      (new_addr < 0x80 -> address s' = Z.land new_addr 0x7F).
Proof.
  intros dev s new_addr Hrange.
  pose proof (Z.mod_pos_bound new_addr 128 ltac:(lia)) as Hmod.
  eexists. split; [reflexivity|]. cbn.
  rewrite land_7F. repeat split.
  - rewrite u8_small by lia. reflexivity.
  - intros reg value. eexists. split; reflexivity.
  - intros Hhigh. lia.
  - intros Hlow. rewrite Z.mod_small by lia. reflexivity.
Qed.

Lemma address_0x90_stored_unmasked :
  0 <= 0x90 < 2 ^ 8 /\
  exists s',
    setAddress sim 0x90 VL53L1X_new = Ok tt s' /\
    bus s' = Transmit (address VL53L1X_new) I2C_SLAVE__DEVICE_ADDRESS
               [Z.land 0x90 0x7F] :: bus VL53L1X_new /\
    address s' = 0x90 /\
    (forall reg value,
        exists s'',
          writeReg sim reg value s' = Ok tt s'' /\
          bus s'' = Transmit 0x90 reg [u8 value] :: bus s') /\
    (0x80 <= 0x90 -> address s' <> Z.land 0x90 0x7F) /\
    (0x90 < 0x80 -> address s' = Z.land 0x90 0x7F).
Proof.
  split; [lia | apply (setAddress_stores_unmasked sim VL53L1X_new 0x90); lia].
Defined.

(** ** Region of interest *)

Lemma roi_size_pack w h :
  1 <= w <= 16 -> 1 <= h <= 16 ->
  Z.lor (Z.shiftl (h - 1) 4) (w - 1) = (h - 1) * 16 + (w - 1).
Proof.
  intros Hw Hh. rewrite lor_shiftl_low by (change (2 ^ 4) with 16; lia).
  reflexivity.
Qed.

Lemma roi_size_unpack w h :
  1 <= w <= 16 -> 1 <= h <= 16 ->
  let reg_val := u8 ((h - 1) * 16 + (w - 1)) in
  u8 (Z.land reg_val 0xF + 1) = w /\ u8 (Z.shiftr reg_val 4 + 1) = h.
Proof.
  intros Hw Hh reg_val. subst reg_val.
  rewrite (u8_small ((h - 1) * 16 + (w - 1))) by lia.
  change 0xF with (Z.ones 4). rewrite Z.land_ones, Z.shiftr_div_pow2 by lia.
  change (2 ^ 4) with 16.
  replace ((h - 1) * 16 + (w - 1)) with ((w - 1) + (h - 1) * 16) by lia.
  rewrite Z.mod_add, Z.div_add by lia.
  rewrite Z.mod_small, Z.div_small by lia.
  split; rewrite u8_small by lia; lia.
Qed.

(** C9 (amended).  For width and height from 1 to 255, [setROISize] caps
    each at 16 (there is no lower clamp); when the capped width or height
    exceeds 10 it first writes the center SPAD 199; it then writes
    [(height-1) << 4 | (width-1)] of the capped values to the size register,
    which is what the specification's packing gives, and which
    [getROISize] reads back from a register file as the capped width and
    height.  [setROISize(20, 3)] writes center 199, then size 0x2F, that is
    (16, 3). *)
Theorem setROISize_caps_at_16 :
  forall (dev : Device) (s : VL53L1X) (width height : Z),
    1 <= width < 2 ^ 8 -> 1 <= height < 2 ^ 8 ->
    let w := Z.min width 16 in
    let h := Z.min height 16 in
    exists s',
      setROISize dev width height s = Ok tt s' /\
      bus s' =
        Transmit (address s) ROI_CONFIG__USER_ROI_REQUESTED_GLOBAL_XY_SIZE
          [Z.lor (Z.shiftl (h - 1) 4) (w - 1)]
        :: (if (10 <? w) || (10 <? h)
            then [Transmit (address s) ROI_CONFIG__USER_ROI_CENTRE_SPAD [199]]
            else [])
        ++ bus s /\
      Z.lor (Z.shiftl (h - 1) 4) (w - 1) = spec_roi_size_reg width height /\
      (forall reset s0,
          exists s1 s2,
            setROISize (register_file reset) width height s0 = Ok tt s1 /\
            getROISize (register_file reset) s1 = Ok (w, h) s2) /\
      (width = 20 -> height = 3 ->
       bus s' =
         Transmit (address s) ROI_CONFIG__USER_ROI_REQUESTED_GLOBAL_XY_SIZE
           [0x2F]
         :: Transmit (address s) ROI_CONFIG__USER_ROI_CENTRE_SPAD [199]
         :: bus s).
Proof.
  intros dev s width height Hw Hh w h.
  assert (Hwdef : w = Z.min width 16) by reflexivity.
  assert (Hhdef : h = Z.min height 16) by reflexivity.
  clearbody w h.
  assert (Hcw : (if 16 <? width then 16 else width) = w).
  { subst w. destruct (Z.ltb_spec 16 width); lia. }
  assert (Hch : (if 16 <? height then 16 else height) = h).
  { subst h. destruct (Z.ltb_spec 16 height); lia. }
  assert (Hwr : 1 <= w <= 16) by (subst w; lia).
  assert (Hhr : 1 <= h <= 16) by (subst h; lia).
  assert (Hpay : u8 (Z.lor (Z.shiftl (h - 1) 4) (w - 1))
                 = Z.lor (Z.shiftl (h - 1) 4) (w - 1)).
  { rewrite roi_size_pack by assumption. apply u8_small. lia. }
  assert (Hrun : forall d s0,
             setROISize d width height s0 =
             (((if (10 <? w) || (10 <? h)
                then writeReg d ROI_CONFIG__USER_ROI_CENTRE_SPAD 199
                else ret tt) ;;;
               writeReg d ROI_CONFIG__USER_ROI_REQUESTED_GLOBAL_XY_SIZE
                 (Z.lor (Z.shiftl (h - 1) 4) (w - 1))) s0)).
  { intros d s0. unfold setROISize. rewrite Hcw, Hch. reflexivity. }
  destruct ((10 <? w) || (10 <? h)) eqn:Hb;
    (eexists; split; [rewrite Hrun; reflexivity|];
     split; [cbn; rewrite Hpay; reflexivity|]; split; [|split]).
  all: try (unfold spec_roi_size_reg, spec_clamp_1_16;
            replace (Z.max 1 (Z.min 16 height)) with h by (subst h; lia);
            replace (Z.max 1 (Z.min 16 width)) with w by (subst w; lia);
            reflexivity).
  all: try (intros reset s0;
            destruct (roi_size_unpack w h Hwr Hhr) as [Huw Huh];
            rewrite <- roi_size_pack in Huw, Huh by assumption;
            eexists; eexists; split; [rewrite Hrun; reflexivity|];
            cbn; rewrite u8_idem, Huw, Huh; reflexivity).
  - intros Hw20 Hh3. subst w h. rewrite Hw20, Hh3. reflexivity.
  - intros Hw20 Hh3. subst w h. rewrite Hw20, Hh3 in Hb. discriminate Hb.
Qed.

Lemma roi_20_3_programs_16_3 :
  1 <= 20 < 2 ^ 8 /\ 1 <= 3 < 2 ^ 8 /\
  exists s',
    setROISize sim 20 3 VL53L1X_new = Ok tt s' /\
    bus s' =
      Transmit (address VL53L1X_new)
        ROI_CONFIG__USER_ROI_REQUESTED_GLOBAL_XY_SIZE
        [Z.lor (Z.shiftl (Z.min 3 16 - 1) 4) (Z.min 20 16 - 1)]
      :: (if (10 <? Z.min 20 16) || (10 <? Z.min 3 16)
          then [Transmit (address VL53L1X_new)
                  ROI_CONFIG__USER_ROI_CENTRE_SPAD [199]]
          else [])
      ++ bus VL53L1X_new /\
    Z.lor (Z.shiftl (Z.min 3 16 - 1) 4) (Z.min 20 16 - 1)
    = spec_roi_size_reg 20 3 /\
    (forall reset s0,
        exists s1 s2,
          setROISize (register_file reset) 20 3 s0 = Ok tt s1 /\
          getROISize (register_file reset) s1
          = Ok (Z.min 20 16, Z.min 3 16) s2) /\
    (20 = 20 -> 3 = 3 ->
     bus s' =
       Transmit (address VL53L1X_new)
         ROI_CONFIG__USER_ROI_REQUESTED_GLOBAL_XY_SIZE [0x2F]
       :: Transmit (address VL53L1X_new) ROI_CONFIG__USER_ROI_CENTRE_SPAD [199]
       :: bus VL53L1X_new).
Proof.
  split; [lia|]. split; [lia|].
  apply (setROISize_caps_at_16 sim VL53L1X_new 20 3); lia.
Defined.

(** C9, as stated, fails at width 0: clamping to the range 1 to 16 would
    program [(3-1) << 4 | (1-1)], which is 0x20, but the code writes 0xFF,
    which [getROISize] reads back as a 16 by 16 region. *)
Lemma setROISize_0_3_not_clamped :
  spec_roi_size_reg 0 3 = 0x20 /\
  exists s1 s2,
    setROISize sim 0 3 VL53L1X_new = Ok tt s1 /\
    bus s1 = [Transmit 0x29 ROI_CONFIG__USER_ROI_REQUESTED_GLOBAL_XY_SIZE
                [0xFF]] /\
    bus s1 <> [Transmit 0x29 ROI_CONFIG__USER_ROI_REQUESTED_GLOBAL_XY_SIZE
                 [spec_roi_size_reg 0 3]] /\
    getROISize sim s1 = Ok (16, 16) s2.
Proof.
  split; [reflexivity|].
  eexists. eexists. split; [reflexivity|].
  split; [reflexivity|]. split; [|reflexivity].
  vm_compute. discriminate.
Qed.

(** ** Dynamic SPAD selection *)

(** [updateDSS] is one 16-bit write, whatever the result buffer holds. *)
Lemma updateDSS_one_write {hdr : Header} (dev : Device) (s : VL53L1X) :
  let spadCount := ResultBuffer.dss_actual_effective_spads_sd0 (results s) in
  let total := totalRatePerSpad (results s) in
  let required := u32 (Z.shiftl TargetRate 16) / total in
  updateDSS dev s =
  writeReg16Bit dev DSS_CONFIG__MANUAL_EFFECTIVE_SPADS_SELECT
    (if (spadCount =? 0) || (total =? 0) then 0x8000
     else if 0xFFFF <? required then 0xFFFF else required) s.
Proof.
  intros spadCount total required. subst required total spadCount.
  unfold updateDSS, totalRatePerSpad, bind, get. cbv zeta.
  set (spadCount := ResultBuffer.dss_actual_effective_spads_sd0 (results s)).
  destruct (spadCount =? 0) eqn:Hspad; [reflexivity|].
  cbn [negb orb]. unfold udiv at 1. rewrite Hspad. unfold defined at 1.
  match goal with |- context [negb (?t =? 0)] => set (total := t) end.
  destruct (total =? 0) eqn:Htotal; [reflexivity|].
  cbn [negb]. unfold udiv. rewrite Htotal. reflexivity.
Qed.

(** C8.  For every content of the result buffer [updateDSS] completes (no
    division by zero is ever performed) and makes exactly one write, to the
    manual effective-SPADs register; when the SPAD count is 0, or the
    computed total rate per SPAD is 0, the value written is the midpoint
    0x8000 (bytes 0x80, 0x00); otherwise it is the target rate shifted up
    by 16, divided by the total rate per SPAD and clipped to 16 bits. *)
Theorem updateDSS_never_divides_by_zero :
  forall (hdr : Header) (dev : Device) (s : VL53L1X),
    let spadCount := ResultBuffer.dss_actual_effective_spads_sd0 (results s) in
    let total := totalRatePerSpad (results s) in
    exists v s',
      updateDSS dev s = Ok tt s' /\
      bus s' = Transmit (address s) DSS_CONFIG__MANUAL_EFFECTIVE_SPADS_SELECT
                 [u8 (Z.shiftr (u16 v) 8); u8 (u16 v)] :: bus s /\
      (spadCount = 0 \/ total = 0 ->
       v = 0x8000 /\
       bus s' = Transmit (address s) DSS_CONFIG__MANUAL_EFFECTIVE_SPADS_SELECT
                  [0x80; 0x00] :: bus s) /\
      (spadCount <> 0 -> total <> 0 ->
       v = Z.min 0xFFFF (u32 (Z.shiftl TargetRate 16) / total)).
Proof.
  intros hdr dev s spadCount total.
  pose proof (updateDSS_one_write dev s) as Hrun. cbv zeta in Hrun.
  fold spadCount total in Hrun.
  eexists. eexists. split; [rewrite Hrun; reflexivity|].
  split; [reflexivity|]. split.
  - intros Hzero.
    assert (Hb : (spadCount =? 0) || (total =? 0) = true).
    { destruct Hzero as [-> | ->]; [reflexivity|]. apply orb_true_r. }
    rewrite Hb. split; reflexivity.
  - intros Hs Ht.
    apply Z.eqb_neq in Hs, Ht. rewrite Hs, Ht. cbn [orb].
    destruct (Z.ltb_spec 0xFFFF (u32 (Z.shiftl TargetRate 16) / total)); lia.
Qed.

Lemma fallback_at_zero_spads :
  exists s',
    updateDSS sim VL53L1X_new = Ok tt s' /\
    bus s' = [Transmit 0x29 DSS_CONFIG__MANUAL_EFFECTIVE_SPADS_SELECT
                [0x80; 0x00]].
Proof.
  destruct (updateDSS_never_divides_by_zero vendor_header sim VL53L1X_new)
    as (v & s' & Hrun & _ & Hzero & _).
  exists s'. split; [exact Hrun|].
  apply Hzero. left. reflexivity.
Defined.

(** The total rate per SPAD is 0 exactly when both rates are 0, for a
    result buffer with 16-bit fields and a nonzero SPAD count. *)
Lemma totalRatePerSpad_zero (r : ResultBuffer.t) :
  let peak :=
    ResultBuffer.peak_signal_count_rate_crosstalk_corrected_mcps_sd0 r in
  let ambient := ResultBuffer.ambient_count_rate_mcps_sd0 r in
  let spadCount := ResultBuffer.dss_actual_effective_spads_sd0 r in
  0 <= peak < 2 ^ 16 -> 0 <= ambient < 2 ^ 16 -> 0 < spadCount < 2 ^ 16 ->
  (totalRatePerSpad r = 0 <-> peak + ambient = 0).
Proof.
  intros peak ambient spadCount Hp Ha Hs. unfold totalRatePerSpad.
  fold peak ambient spadCount. rewrite (u32_small (peak + ambient)) by lia.
  set (clipped := if 0xFFFF <? peak + ambient then 0xFFFF else peak + ambient).
  assert (Hc : 0 <= clipped <= 0xFFFF /\ (clipped = 0 <-> peak + ambient = 0)).
  { subst clipped. destruct (Z.ltb_spec 0xFFFF (peak + ambient)); lia. }
  rewrite Z.shiftl_mul_pow2 by lia. rewrite u32_small by lia.
  destruct Hc as [Hc Hiff]. rewrite <- Hiff. split.
  - intros Hdiv. apply Z.div_small_iff in Hdiv; lia.
  - intros ->. reflexivity.
Qed.

(** ** Timing budget *)

(** The two early returns of [setMeasurementTimingBudget]. *)
Lemma setMeasurementTimingBudget_rejects {hdr : Header} (dev : Device)
    (s : VL53L1X) (budget_us : Z) :
  0 <= budget_us < 2 ^ 32 ->
  budget_us <= TimingGuard \/ 1100000 < budget_us - TimingGuard ->
  setMeasurementTimingBudget dev budget_us s = Ok false s.
Proof.
  intros Hb Hrej. pose proof TimingGuard_u32 as Hg.
  unfold setMeasurementTimingBudget.
  destruct (Z.leb_spec budget_us TimingGuard) as [Hle|Hgt]; [reflexivity|].
  rewrite u32_small by lia.
  destruct (Z.ltb_spec 1100000 (budget_us - TimingGuard)); [reflexivity|lia].
Qed.

(** Past the early returns every step either completes or is undefined (a
    division by zero in the macro-period arithmetic); when all complete the
    function has made two register reads and five writes and returns
    [true]. *)
Lemma setMeasurementTimingBudget_accepts {hdr : Header} (dev : Device)
    (s : VL53L1X) (budget_us : Z) :
  0 <= budget_us < 2 ^ 32 ->
  TimingGuard < budget_us -> budget_us - TimingGuard <= 1100000 ->
  setMeasurementTimingBudget dev budget_us s <> Undefined ->
  exists s',
    setMeasurementTimingBudget dev budget_us s = Ok true s' /\
    length (bus s') = (9 + length (bus s))%nat.
Proof.
  intros Hb Hgt Hle. pose proof TimingGuard_u32 as Hg.
  unfold setMeasurementTimingBudget.
  destruct (Z.leb_spec budget_us TimingGuard); [lia|].
  rewrite u32_small by lia.
  destruct (Z.ltb_spec 1100000 (budget_us - TimingGuard)); [lia|].
  unfold calcMacroPeriod, bind. cbn.
  repeat match goal with
         | |- context [defined ?o _] =>
             destruct o; cbn; [|intros Hdef; now elim Hdef]
         end.
  intros _. eexists. split; reflexivity.
Qed.

(** C4 (amended).  For every 32-bit [budget_us], [setMeasurementTimingBudget]
    returns [false] and leaves the object and the bus history untouched
    exactly when [budget_us <= TimingGuard] or the budget minus the guard
    exceeds 1100000 (the test is made before the halving, so an excess of
    1100001, whose half is 550000, is rejected as well); for all other
    budgets, unless the macro-period arithmetic divides by zero, it
    returns [true] after writing the timeout registers. *)
Theorem timing_budget_rejection :
  forall (hdr : Header) (dev : Device) (s : VL53L1X) (budget_us : Z),
    0 <= budget_us < 2 ^ 32 ->
    (budget_us <= TimingGuard \/ 1100000 < budget_us - TimingGuard ->
     setMeasurementTimingBudget dev budget_us s = Ok false s)
    /\
    (~ (budget_us <= TimingGuard \/ 1100000 < budget_us - TimingGuard) ->
     setMeasurementTimingBudget dev budget_us s <> Undefined ->
     exists s',
       setMeasurementTimingBudget dev budget_us s = Ok true s' /\
       length (bus s') = (9 + length (bus s))%nat).
Proof.
  intros hdr dev s budget_us Hb. split.
  - apply setMeasurementTimingBudget_rejects; assumption.
  - intros Hacc. apply setMeasurementTimingBudget_accepts; lia.
Qed.

Lemma budget_50000_accepted :
  0 <= 50000 < 2 ^ 32 /\
  exists s',
    setMeasurementTimingBudget sim 50000 after_init = Ok true s' /\
    length (bus s') = (9 + length (bus after_init))%nat.
Proof.
  split; [lia|].
  apply (timing_budget_rejection
           vendor_header sim after_init 50000); [lia | | ].
  - cbn. lia.
  - vm_compute. discriminate.
Defined.

(** Whatever the value of [TimingGuard], the budget [TimingGuard + 1100001]
    is rejected by the code although the specification's condition does
    not hold of it. *)
Lemma setMeasurementTimingBudget_odd_excess {hdr : Header} (dev : Device)
    (s : VL53L1X) :
  TimingGuard + 1100001 < 2 ^ 32 ->
  spec_budget_rejected (TimingGuard + 1100001) = false /\
  setMeasurementTimingBudget dev (TimingGuard + 1100001) s = Ok false s.
Proof.
  intros Hfit. pose proof TimingGuard_u32 as Hg. split.
  - unfold spec_budget_rejected.
    replace (TimingGuard + 1100001 - TimingGuard) with 1100001 by lia.
    destruct (Z.leb_spec (TimingGuard + 1100001) TimingGuard); [lia|].
    reflexivity.
  - apply setMeasurementTimingBudget_rejects; lia.
Qed.

(** C4, as stated, fails at the budget 1104529 = 4528 + 1100001: the
    budget exceeds the guard and its excess, halved, is 550000, which
    does not exceed 550000, yet the code returns [false]. *)
Lemma budget_1104529_rejected :
  (1104529 <=? TimingGuard) = false /\
  (1104529 - TimingGuard) / 2 = 550000 /\
  spec_budget_rejected 1104529 = false /\
  setMeasurementTimingBudget sim 1104529 after_init = Ok false after_init.
Proof.
  repeat split; vm_compute; reflexivity.
Qed.

(** ** Initialization *)

(** When the model ID read differs from 0xEACC, [init] returns that
    value after the one read. *)
Lemma init_returns_model_id {hdr : Header} (dev : Device) (fuel : nat)
    (io_2v8 : bool) (s : VL53L1X) :
  let h := Request (address s) 2
           :: Transmit (address s) IDENTIFICATION__MODEL_ID [] :: bus s in
  let res := be16 (wire_read dev h 0) (wire_read dev h 1) in
  res <> 0xEACC ->
  exists s',
    init dev fuel io_2v8 s = Ok res s' /\ bus s' = h.
Proof.
  intros h res Hres. apply Z.eqb_neq in Hres.
  unfold init, bind at 1. cbn. fold h. fold res. rewrite Hres. cbn.
  eexists. split; reflexivity.
Qed.

(** [init] returns 0 only when the model ID read is 0xEACC and the boot
    poll ended with the firmware booted, or when the model ID read is 0. *)
Lemma init_returns_0_only_if {hdr : Header} (dev : Device) (fuel : nat)
    (io_2v8 : bool) (s s' : VL53L1X) :
  let h := Request (address s) 2
           :: Transmit (address s) IDENTIFICATION__MODEL_ID [] :: bus s in
  let res := be16 (wire_read dev h 0) (wire_read dev h 1) in
  init dev fuel io_2v8 s = Ok 0 s' ->
  res = 0 \/
  (res = 0xEACC /\
   exists s1 s2, poll_for_boot_completion dev fuel s1 = Ok true s2).
Proof.
  intros h res. unfold init.
  rewrite (bind_Ok (readReg16Bit dev IDENTIFICATION__MODEL_ID) _ s
             (log_op (Request (address s) 2)
                (transmitted dev IDENTIFICATION__MODEL_ID [] s)) res)
    by reflexivity.
  cbv beta. destruct (Z.eqb_spec res 0xEACC) as [Heq|Hne]; cbv beta iota delta [negb].
  - repeat (rewrite bind_writeReg; cbv beta).
    unfold delayMicroseconds, delay, startTimeout.
    repeat (erewrite bind_Ok by reflexivity; cbv beta;
            try (rewrite bind_writeReg; cbv beta)).
    match goal with
    | |- context [bind (poll_for_boot_completion dev fuel) _ ?st] =>
        destruct (poll_for_boot_completion dev fuel st) as [[|] s2| |] eqn:Hpoll
    end.
    + intros _. right. split; [exact Heq|]. eexists. eexists. exact Hpoll.
    + rewrite (bind_Ok _ _ _ _ _ Hpoll). cbv beta iota delta [negb].
      unfold ret. discriminate.
    + rewrite (bind_Undefined _ _ _ Hpoll). discriminate.
    + rewrite (bind_OutOfFuel _ _ _ Hpoll). discriminate.
  - unfold ret. intros [= Hres _]. left. exact Hres.
Qed.

(** C3 fails on the code at model ID 0x0000: the value differs from
    0xEACC, and [init] returns it, which is 0, the value it returns
    after a complete initialization; the only bus traffic is the read of
    the model ID (no reset, no configuration). *)
Theorem init_model_id_zero_returns_0 :
  forall (fuel : nat) (io_2v8 : bool),
    let unidentified := register_file zero_sensor in
    exists s',
      be16 (wire_read unidentified
              [Request 0x29 2; Transmit 0x29 IDENTIFICATION__MODEL_ID []] 0)
           (wire_read unidentified
              [Request 0x29 2; Transmit 0x29 IDENTIFICATION__MODEL_ID []] 1)
      = 0x0000 /\
      init unidentified fuel io_2v8 VL53L1X_new = Ok 0 s' /\
      bus s' = [Request 0x29 2; Transmit 0x29 IDENTIFICATION__MODEL_ID []] /\
      (exists s'', init sim 10 io_2v8 VL53L1X_new = Ok 0 s'').
Proof.
  intros fuel io_2v8 unidentified.
  destruct (init_returns_model_id unidentified fuel io_2v8 VL53L1X_new)
    as (s' & Hrun & Hbus).
  - vm_compute. discriminate.
  - exists s'. split; [reflexivity|]. split; [exact Hrun|].
    split; [exact Hbus|].
    destruct io_2v8; eexists; vm_compute; reflexivity.
Qed.

(** ** Reading a measurement *)

#[local] Arguments updateDSS {hdr} dev s : simpl never.

(** C7 (amended).  [read] with [blocking = false] makes no data-ready
    check at all: whatever the sensor's state, and with no polling (any
    fuel), it fetches the 17-byte result block, performs the first-time
    calibration setup when the object is not yet calibrated, writes the new
    SPAD target, decodes the ranging data, clears the interrupt, and
    returns the corrected distance of the block just fetched;
    [GPIO__TIO_HV_STATUS] is never addressed. *)
Theorem read_nonblocking_fetches_unconditionally :
  forall (hdr : Header) (dev : Device) (fuel : nat) (s : VL53L1X),
    exists s1 s' ops,
      readResults dev s = Ok tt s1 /\
      bus s1 = Request (address s) 17
               :: Transmit (address s) RESULT__RANGE_STATUS [] :: bus s /\
      read dev fuel false s
      = Ok (RangingData.range_mm (ranging_data (getRangingData s1))) s' /\
      bus s' = Transmit (address s) SYSTEM__INTERRUPT_CLEAR [0x01]
               :: ops ++ bus s1 /\
      (exists hi lo rest,
          ops = Transmit (address s) DSS_CONFIG__MANUAL_EFFECTIVE_SPADS_SELECT
                  [hi; lo] :: rest /\
          (calibrated s = true -> rest = []) /\
          (calibrated s = false ->
           In (Transmit (address s) PHASECAL_CONFIG__OVERRIDE [0x01]) rest)) /\
      calibrated s' = true /\
      (forall a p,
          ~ In (Transmit a GPIO__TIO_HV_STATUS p)
               (Transmit (address s) SYSTEM__INTERRUPT_CLEAR [0x01]
                :: ops ++ [Request (address s) 17;
                           Transmit (address s) RESULT__RANGE_STATUS []])).
Proof.
  intros hdr dev fuel s.
  destruct (calibrated s) eqn:Hcal.
  - eexists. eexists. eexists [_].
    split; [reflexivity|]. split; [reflexivity|].
    split.
    { unfold read, bind. cbn. rewrite Hcal. cbn.
      rewrite updateDSS_one_write. cbn. reflexivity. }
    cbn. split; [reflexivity|].
    split; [eexists; eexists; eexists; split; [reflexivity|];
            split; [reflexivity | discriminate]|].
    split; [exact Hcal|].
    intros a p Hin. cbn in Hin. intuition discriminate.
  - eexists. eexists. eexists [_; _; _; _; _; _; _; _; _; _; _].
    split; [reflexivity|]. split; [reflexivity|].
    split.
    { unfold read, bind. cbn. rewrite Hcal. cbn.
      rewrite updateDSS_one_write. cbn. reflexivity. }
    cbn. split; [reflexivity|].
    split; [eexists; eexists; eexists; split; [reflexivity|];
            split; [discriminate | intros _; cbn; tauto]|].
    split; [reflexivity|].
    intros a p Hin. cbn in Hin. intuition discriminate.
Qed.

(** C7, as stated, fails: on a sensor with no measurement ready a
    non-blocking [read] returns 1964, not 0, after fetching the result
    block, setting up the calibration, writing the SPAD target and
    clearing the interrupt. *)
Lemma read_nonblocking_not_ready :
  (exists s0, dataReady idle VL53L1X_new = Ok false s0) /\
  exists s',
    read idle 0 false VL53L1X_new = Ok 1964 s' /\
    1964 <> 0 /\
    calibrated VL53L1X_new = false /\ calibrated s' = true /\
    bus s' =
      [Transmit 41 SYSTEM__INTERRUPT_CLEAR [1];
       Transmit 41 DSS_CONFIG__MANUAL_EFFECTIVE_SPADS_SELECT [142; 56];
       Transmit 41 CAL_CONFIG__VCSEL_START [0];
       Request 41 1; Transmit 41 PHASECAL_RESULT__VCSEL_START [];
       Transmit 41 PHASECAL_CONFIG__OVERRIDE [1];
       Transmit 41 VHV_CONFIG__TIMEOUT_MACROP_LOOP_BOUND [12];
       Transmit 41 VHV_CONFIG__INIT [0]; Request 41 1;
       Transmit 41 VHV_CONFIG__TIMEOUT_MACROP_LOOP_BOUND [];
       Request 41 1; Transmit 41 VHV_CONFIG__INIT [];
       Request 41 17; Transmit 41 RESULT__RANGE_STATUS []].
Proof.
  split.
  - eexists. vm_compute. reflexivity.
  - eexists. split; [vm_compute; reflexivity|].
    split; [discriminate|]. split; [reflexivity|]. split; reflexivity.
Qed.

(** ** Distance mode and timing budget on a register file *)

#[local] Arguments macroPeriod : simpl never.
#[local] Arguments timeoutMicrosecondsToMclks : simpl never.
#[local] Arguments encodeTimeout : simpl never.
#[local] Arguments decodeTimeout : simpl never.
#[local] Arguments timeoutMclksToMicroseconds : simpl never.

(** The two bytes of a 16-bit register write are read back as the value
    written. *)
Lemma be16_bytes e : 0 <= e < 2 ^ 16 -> be16 (u8 (Z.shiftr e 8)) (u8 e) = e.
Proof.
  intros He. unfold be16.
  assert (Hq : 0 <= e / 256 < 256).
  { split; [apply Z.div_pos; lia | apply Z.div_lt_upper_bound; lia]. }
  assert (Hhi : u8 (Z.shiftr e 8) = e / 256).
  { rewrite Z.shiftr_div_pow2 by lia. change (2 ^ 8) with 256.
    apply u8_small. lia. }
  rewrite Hhi, (u16_small (e / 256)) by lia.
  rewrite Z.shiftl_mul_pow2 by lia. change (2 ^ 8) with 256.
  rewrite (u16_small (e / 256 * 256)) by lia.
  rewrite <- (Z.shiftl_mul_pow2 _ 8) by lia.
  rewrite lor_shiftl_low by (try lia; apply u8_range).
  change (2 ^ 8) with 256. unfold u8. change (2 ^ 8) with 256.
  pose proof (Z.div_mod e 256 ltac:(lia)).
  rewrite u16_small by lia. lia.
Qed.

Lemma timeoutMicrosecondsToMclks_defined us mp :
  mp <> 0 ->
  timeoutMicrosecondsToMclks us mp
  = Some (u32 (u32 (Z.shiftl us 12) + Z.shiftr mp 1) / mp).
Proof.
  intros Hmp. unfold timeoutMicrosecondsToMclks, udiv.
  apply Z.eqb_neq in Hmp. rewrite Hmp. reflexivity.
Qed.

Lemma macroPeriod_nonneg f v mp : macroPeriod f v = Some mp -> 0 <= mp.
Proof.
  unfold macroPeriod. destruct (udiv (Z.shiftl 1 30) f); [|discriminate].
  intros [= <-]. apply Z.shiftr_nonneg. apply u32_range.
Qed.

(** Reading the budget changes nothing but the bus history and
    [last_status]. *)
Lemma getMeasurementTimingBudget_frame {hdr : Header} (dev : Device)
    (s s0 : VL53L1X) (b : Z) :
  getMeasurementTimingBudget dev s = Ok b s0 ->
  address s0 = address s /\
  fast_osc_frequency s0 = fast_osc_frequency s /\
  0 <= b < 2 ^ 32.
Proof.
  unfold getMeasurementTimingBudget, calcMacroPeriod, bind. cbn.
  repeat match goal with
         | |- context [defined ?o _] => destruct o; cbn; [|discriminate]
         end.
  intros [= <- <-]. cbn. repeat split; apply u32_range.
Qed.

(** An accepted budget on a register file whose VCSEL period registers
    hold [va] and [vb]: the range timeout register A ends up holding the
    encoded number of macro clocks, the VCSEL period is untouched. *)
Lemma setMeasurementTimingBudget_register_file {hdr : Header}
    (reset : regAddr -> list Z) (s : VL53L1X) (b va vb mpA mpB : Z) :
  0 <= b < 2 ^ 32 -> TimingGuard < b -> b - TimingGuard <= 1100000 ->
  reg_content reset RANGE_CONFIG__VCSEL_PERIOD_A (bus s) = [va] ->
  reg_content reset RANGE_CONFIG__VCSEL_PERIOD_B (bus s) = [vb] ->
  macroPeriod (fast_osc_frequency s) (u8 va) = Some mpA -> mpA <> 0 ->
  macroPeriod (fast_osc_frequency s) (u8 vb) = Some mpB -> mpB <> 0 ->
  exists s' mclks,
    setMeasurementTimingBudget (register_file reset) b s = Ok true s' /\
    timeoutMicrosecondsToMclks ((b - TimingGuard) / 2) mpA = Some mclks /\
    0 <= mclks < 2 ^ 32 /\
    address s' = address s /\
    fast_osc_frequency s' = fast_osc_frequency s /\
    reg_content reset RANGE_CONFIG__VCSEL_PERIOD_A (bus s') = [va] /\
    reg_content reset RANGE_CONFIG__TIMEOUT_MACROP_A (bus s')
    = [u8 (Z.shiftr (encodeTimeout mclks) 8); u8 (encodeTimeout mclks)].
Proof.
  intros Hb Hgt Hle Ha Hbb HmA HmA0 HmB HmB0.
  pose proof TimingGuard_u32 as Hg.
  pose proof (macroPeriod_nonneg _ _ _ HmA) as HmApos.
  unfold setMeasurementTimingBudget.
  destruct (Z.leb_spec b TimingGuard); [lia|].
  rewrite u32_small by lia.
  destruct (Z.ltb_spec 1100000 (b - TimingGuard)); [lia|].
  unfold calcMacroPeriod, bind. cbn. rewrite Ha. cbn. rewrite HmA. cbn.
  rewrite !timeoutMicrosecondsToMclks_defined by assumption. cbn.
  rewrite Hbb. cbn. rewrite HmB. cbn.
  rewrite !timeoutMicrosecondsToMclks_defined by assumption. cbn.
  eexists. eexists. split; [reflexivity|]. split; [reflexivity|].
  split.
  { pose proof (u32_range (u32 (Z.shiftl ((b - TimingGuard) / 2) 12)
                           + Z.shiftr mpA 1)) as Hn.
    split; [apply Z.div_pos; lia|].
    apply Z.div_lt_upper_bound; nia. }
  cbn. rewrite Ha.
  rewrite (u16_small (encodeTimeout _)) by apply encodeTimeout_u16.
  repeat split.
Qed.

(** Reading the budget from a register file. *)
Lemma getMeasurementTimingBudget_register_file {hdr : Header}
    (reset : regAddr -> list Z) (s : VL53L1X) (va hi lo mp mclks : Z) :
  reg_content reset RANGE_CONFIG__VCSEL_PERIOD_A (bus s) = [va] ->
  reg_content reset RANGE_CONFIG__TIMEOUT_MACROP_A (bus s) = [hi; lo] ->
  macroPeriod (fast_osc_frequency s) (u8 va) = Some mp ->
  decodeTimeout (be16 hi lo) = Some mclks ->
  exists s',
    getMeasurementTimingBudget (register_file reset) s
    = Ok (u32 (2 * timeoutMclksToMicroseconds mclks mp + TimingGuard)) s'.
Proof.
  intros Ha Ht Hmp Hdec.
  unfold getMeasurementTimingBudget, calcMacroPeriod, bind. cbn.
  rewrite Ha. cbn. rewrite Hmp. cbn. rewrite Ht. cbn. rewrite Hdec. cbn.
  eexists. reflexivity.
Qed.

#[local] Arguments setMeasurementTimingBudget {hdr} dev budget_us s : simpl never.
#[local] Arguments getMeasurementTimingBudget {hdr} dev s : simpl never.




(** * Further properties of the driver *)

(** ** Precision of the timeout encoding *)

(** The encoded form is normalized: either the exponent is 0, or the top
    bit of the mantissa is set. *)
Lemma encodeTimeout_normal_form m :
  1 <= m < 2 ^ 32 ->
  exists e q,
    0 <= e <= 24 /\ 0 <= q < 256 /\ (e = 0 \/ 128 <= q) /\
    q = (m - 1) / 2 ^ e /\
    encodeTimeout m = e * 256 + q.
Proof.
  intros Hm. unfold encodeTimeout.
  destruct (Z.ltb_spec 0 m); [|lia].
  rewrite u32_small by lia.
  destruct (encodeTimeout_loop_exits 32 (m - 1) 0)
    as (k & Hk & Hloop & Hlt & Hge); try lia.
  rewrite Hloop, Z.add_0_l.
  rewrite Z.shiftr_div_pow2 in * by lia.
  assert (Hpos : 0 < 2 ^ k) by (apply Z.pow_pos_nonneg; lia).
  assert (Hq : 0 <= (m - 1) / 2 ^ k) by (apply Z.div_pos; lia).
  assert (Hfloor : (m - 1) / 2 ^ k * 2 ^ k <= m - 1)
    by (rewrite Z.mul_comm; apply Z.mul_div_le; lia).
  assert (Hk24 : k <= 24).
  { destruct Hge as [->|Hge]; [lia|].
    destruct (Z.le_gt_cases k 24) as [|Hgt]; [assumption|exfalso].
    assert (2 ^ 25 <= 2 ^ k) by (apply Z.pow_le_mono_r; lia).
    nia. }
  exists k, ((m - 1) / 2 ^ k). repeat split; try lia.
  change 0xFF with (Z.ones 8). rewrite Z.land_ones by lia.
  rewrite Z.mod_small by (change (2 ^ 8) with 256; lia).
  rewrite lor_shiftl_low by (change (2 ^ 8) with 256; lia).
  change (2 ^ 8) with 256. apply u16_small. lia.
Qed.

(** X1.  Encoding a timeout of at least one macro clock and decoding it
    again never gives more than the original and loses less than one part
    in 128 of it. *)
Theorem decodeTimeout_encodeTimeout_precision :
  forall mclks,
    1 <= mclks < 2 ^ 32 ->
    exists mclks',
      decodeTimeout (encodeTimeout mclks) = Some mclks' /\
      1 <= mclks' <= mclks /\
      128 * (mclks - mclks') <= mclks - 1.
Proof.
  intros m Hm.
  destruct (encodeTimeout_normal_form m Hm)
    as (e & q & He & Hq & Hnorm & Hqdef & Henc).
  assert (Hpos : 0 < 2 ^ e) by (apply Z.pow_pos_nonneg; lia).
  pose proof (Z.div_mod (m - 1) (2 ^ e) ltac:(lia)) as Hdm.
  pose proof (Z.mod_pos_bound (m - 1) (2 ^ e) Hpos) as Hmod.
  rewrite <- Hqdef in Hdm.
  exists (q * 2 ^ e + 1). split; [|split].
  - rewrite Henc. apply decodeTimeout_packed; nia.
  - nia.
  - destruct Hnorm as [->|Hbig].
    + change (2 ^ 0) with 1 in *. lia.
    + nia.
Qed.

Lemma decodeTimeout_encodeTimeout_precision_at_1000 :
  1 <= 1000 < 2 ^ 32 /\
  exists mclks',
    decodeTimeout (encodeTimeout 1000) = Some mclks' /\
    1 <= mclks' <= 1000 /\
    128 * (1000 - mclks') <= 1000 - 1.
Proof.
  split; [lia | apply (decodeTimeout_encodeTimeout_precision 1000); lia].
Defined.

(** Halving [q * 2^e] fewer or more than [e] times. *)
Lemma div_pow2_fewer q e k :
  0 <= k <= e -> (q * 2 ^ e) / 2 ^ k = q * 2 ^ (e - k).
Proof.
  intros Hk. replace e with ((e - k) + k) at 1 by lia.
  rewrite Z.pow_add_r by lia. rewrite Z.mul_assoc.
  apply Z.div_mul. apply Z.pow_nonzero; lia.
Qed.

Lemma div_pow2_more q e k :
  0 <= e <= k -> (q * 2 ^ e) / 2 ^ k = q / 2 ^ (k - e).
Proof.
  intros Hk. replace k with ((k - e) + e) at 1 by lia.
  rewrite Z.pow_add_r by lia.
  apply Z.div_mul_cancel_r; apply Z.pow_nonzero; lia.
Qed.

(** A normalized register value (exponent at most 24, and either exponent
    0 or mantissa at least 128) decodes to a timeout that encodes back to
    the same register value. *)
Lemma encodeTimeout_decodeTimeout_normalized e q :
  0 <= e <= 24 -> 0 <= q < 256 -> (e = 0 \/ 128 <= q) ->
  decodeTimeout (e * 256 + q) = Some (q * 2 ^ e + 1) /\
  encodeTimeout (q * 2 ^ e + 1) = e * 256 + q.
Proof.
  intros He Hq Hnorm.
  assert (Hpos : 0 < 2 ^ e) by (apply Z.pow_pos_nonneg; lia).
  assert (Hle : 2 ^ e <= 2 ^ 24) by (apply Z.pow_le_mono_r; lia).
  assert (Hfit : q * 2 ^ e + 1 < 2 ^ 32) by nia.
  split; [apply decodeTimeout_packed; assumption|].
  destruct (encodeTimeout_normal_form (q * 2 ^ e + 1) ltac:(nia))
    as (e' & q' & He' & Hq' & Hnorm' & Hqdef & Henc).
  rewrite Henc. replace (q * 2 ^ e + 1 - 1) with (q * 2 ^ e) in Hqdef by lia.
  assert (Hee : e' = e).
  { destruct (Z.lt_trichotomy e' e) as [Hlt|[Heq|Hgt]];
      [exfalso|exact Heq|exfalso].
    - rewrite div_pow2_fewer in Hqdef by lia.
      assert (2 ^ 1 <= 2 ^ (e - e')) by (apply Z.pow_le_mono_r; lia).
      change (2 ^ 1) with 2 in *. destruct Hnorm as [->|Hbig]; nia.
    - rewrite div_pow2_more in Hqdef by lia.
      assert (2 ^ 1 <= 2 ^ (e' - e)) by (apply Z.pow_le_mono_r; lia).
      change (2 ^ 1) with 2 in *.
      assert (q' <= q / 2).
      { rewrite Hqdef. apply Z.div_le_compat_l; lia. }
      assert (q / 2 < 128) by (apply Z.div_lt_upper_bound; lia).
      destruct Hnorm' as [->|Hbig']; lia. }
  subst e'. rewrite Z.div_mul in Hqdef by lia. subst q'. reflexivity.
Qed.

(** X2.  Decoding then re-encoding is the identity on every register value
    that [encodeTimeout] produces: what a timeout register holds after a
    write survives a read-modify-write cycle unchanged, although the timeout
    itself may have been rounded by the first encoding. *)
Theorem encodeTimeout_decodeTimeout_encodeTimeout :
  forall mclks,
    0 <= mclks < 2 ^ 32 ->
    exists decoded,
      decodeTimeout (encodeTimeout mclks) = Some decoded /\
      encodeTimeout decoded = encodeTimeout mclks.
Proof.
  intros m Hm. destruct (Z.eq_dec m 0) as [->|Hnz].
  - exists 1. split; reflexivity.
  - destruct (encodeTimeout_normal_form m ltac:(lia))
      as (e & q & He & Hq & Hnorm & _ & Henc).
    destruct (encodeTimeout_decodeTimeout_normalized e q He Hq Hnorm)
      as [Hdec Hre].
    exists (q * 2 ^ e + 1). rewrite Henc. split; assumption.
Qed.

Lemma encodeTimeout_decodeTimeout_encodeTimeout_at_466 :
  0 <= 466 < 2 ^ 32 /\
  exists decoded,
    decodeTimeout (encodeTimeout 466) = Some decoded /\
    encodeTimeout decoded = encodeTimeout 466.
Proof.
  split; [lia | apply (encodeTimeout_decodeTimeout_encodeTimeout 466); lia].
Defined.

(** ** Conversions between macro clocks and microseconds *)

Lemma mclks_us_mclks m mp :
  0 <= m -> 4096 < mp -> (m + 1) * mp < 2 ^ 32 ->
  timeoutMicrosecondsToMclks (timeoutMclksToMicroseconds m mp) mp = Some m.
Proof.
  intros Hm Hmp Hfit.
  unfold timeoutMclksToMicroseconds, timeoutMicrosecondsToMclks, udiv.
  destruct (Z.eqb_spec mp 0); [lia|].
  rewrite u64_small by nia.
  rewrite Z.shiftr_div_pow2, !Z.shiftl_mul_pow2, Z.shiftr_div_pow2 by lia.
  change (2 ^ 12) with 4096. change (2 ^ 1) with 2.
  set (us := (m * mp + 2048) / 4096).
  pose proof (Z.div_mod (m * mp + 2048) 4096 ltac:(lia)) as Hus.
  pose proof (Z.mod_pos_bound (m * mp + 2048) 4096 ltac:(lia)) as Hr.
  fold us in Hus.
  pose proof (Z.div_mod mp 2 ltac:(lia)) as Hh.
  pose proof (Z.mod_pos_bound mp 2 ltac:(lia)) as Hhr.
  assert (Hus0 : 0 <= us) by (subst us; apply Z.div_pos; nia).
  rewrite (u32_small us) by nia.
  rewrite (u32_small (us * 4096)) by nia.
  rewrite u32_small by nia.
  f_equal. symmetry. apply (Z.div_unique_pos _ _ _ (us * 4096 + mp / 2 - m * mp)); nia.
Qed.

Lemma timeoutMclksToMicroseconds_no_wrap m mp :
  0 <= m -> 0 <= mp -> m * mp + 0x800 < 2 ^ 32 ->
  timeoutMclksToMicroseconds m mp = (m * mp + 2048) / 4096.
Proof.
  intros Hm Hmp Hfit. unfold timeoutMclksToMicroseconds.
  rewrite u64_small by nia. rewrite Z.shiftr_div_pow2 by lia.
  change (2 ^ 12) with 4096. apply u32_small. split.
  - apply Z.div_pos; nia.
  - apply Z.div_lt_upper_bound; lia.
Qed.

(** X3.  For a macro period above one microsecond (4096 in 12.12 format)
    and as long as the products fit in 32 bits, the conversion of a number
    of macro clocks to microseconds is [(mclks * period + 2048) / 4096]
    without truncation, it is within half a microsecond of the exact value,
    and converting it back gives the same number of macro clocks. *)
Theorem timeoutMicrosecondsToMclks_timeoutMclksToMicroseconds :
  forall mclks macro_period_us,
    0 <= mclks ->
    4096 < macro_period_us ->
    (mclks + 1) * macro_period_us < 2 ^ 32 ->
    let us := timeoutMclksToMicroseconds mclks macro_period_us in
    us = (mclks * macro_period_us + 2048) / 4096 /\
    - 2048 <= mclks * macro_period_us - us * 4096 < 2048 /\
    timeoutMicrosecondsToMclks us macro_period_us = Some mclks.
Proof.
  intros m mp Hm Hmp Hfit us.
  assert (Hus : us = (m * mp + 2048) / 4096)
    by (apply timeoutMclksToMicroseconds_no_wrap; nia).
  split; [exact Hus|]. split.
  - pose proof (Z.div_mod (m * mp + 2048) 4096 ltac:(lia)) as Hdm.
    pose proof (Z.mod_pos_bound (m * mp + 2048) 4096 ltac:(lia)) as Hr.
    rewrite <- Hus in Hdm. lia.
  - apply mclks_us_mclks; assumption.
Qed.

Lemma timeoutMicrosecondsToMclks_timeoutMclksToMicroseconds_at_233 :
  0 <= 233 /\ 4096 < 399870 /\ (233 + 1) * 399870 < 2 ^ 32 /\
  (let us := timeoutMclksToMicroseconds 233 399870 in
   us = (233 * 399870 + 2048) / 4096 /\
   - 2048 <= 233 * 399870 - us * 4096 < 2048 /\
   timeoutMicrosecondsToMclks us 399870 = Some 233).
Proof.
  split; [lia|]. split; [lia|]. split; [lia|].
  apply (timeoutMicrosecondsToMclks_timeoutMclksToMicroseconds 233 399870); lia.
Defined.

(** ** The macro period *)

Lemma macroPeriod_no_wrap f v :
  576 <= f < 2 ^ 16 -> 0 <= v <= 31 ->
  macroPeriod f v = Some (9 * (2 ^ 30 / f) * (v + 1) / 8)
  /\ 4096 < 9 * (2 ^ 30 / f) * (v + 1) / 8 < 2 ^ 26.
Proof.
  intros Hf Hv. unfold macroPeriod, udiv.
  destruct (Z.eqb_spec f 0); [lia|].
  rewrite !Z.shiftl_mul_pow2, !Z.shiftr_div_pow2 by lia.
  change (2 ^ 6) with 64. change (2 ^ 1) with 2. rewrite Z.mul_1_l.
  set (pll := 2 ^ 30 / f).
  assert (Hpll : 16384 <= pll <= 1864135).
  { subst pll. split.
    - apply Z.div_le_lower_bound; lia.
    - apply Z.lt_succ_r. apply Z.div_lt_upper_bound; lia. }
  rewrite (u32_small (2304 * pll)) by lia.
  rewrite (u8_small ((v + 1) * 2)) by lia.
  replace (2304 * pll) with (36 * pll * 64) by lia.
  rewrite Z.div_mul by lia.
  rewrite u32_small by nia.
  replace (36 * pll * ((v + 1) * 2)) with ((9 * pll * (v + 1)) * 8) by lia.
  replace 64 with (8 * 8) by reflexivity.
  rewrite Z.div_mul_cancel_r by lia.
  split; [reflexivity|]. split.
  - assert (4097 <= 9 * pll * (v + 1) / 8)
      by (apply Z.div_le_lower_bound; nia).
    lia.
  - apply Z.div_lt_upper_bound; nia.
Qed.

(** X4.  For a measured oscillator frequency from 576 up (16 bits) and a
    VCSEL period register of at most 31, no step of the macro-period
    computation wraps around: the result is
    [9 * (2^30 / f) * (vcsel_period + 1) / 8].  In particular, for each of
    the three distance modes both macro periods are defined, above 4096
    (one microsecond) and below 2^26, and period B is shorter than
    period A. *)
Theorem macroPeriod_closed_form :
  forall fast_osc_freq vcsel_period,
    576 <= fast_osc_freq < 2 ^ 16 ->
    0 <= vcsel_period <= 31 ->
    macroPeriod fast_osc_freq vcsel_period
    = Some (9 * (2 ^ 30 / fast_osc_freq) * (vcsel_period + 1) / 8)
    /\
    (forall mode,
        mode <> Unknown ->
        exists mpA mpB,
          macroPeriod fast_osc_freq (vcsel_period_a mode) = Some mpA /\
          macroPeriod fast_osc_freq (vcsel_period_b mode) = Some mpB /\
          4096 < mpB /\ mpB < mpA /\ mpA < 2 ^ 26).
Proof.
  intros f v Hf Hv. split; [apply macroPeriod_no_wrap; assumption|].
  intros mode Hmode.
  assert (Ha : 0 <= vcsel_period_a mode <= 31) by (destruct mode; cbn; lia).
  assert (Hb : 0 <= vcsel_period_b mode <= 31) by (destruct mode; cbn; lia).
  assert (Hab : vcsel_period_b mode + 2 = vcsel_period_a mode)
    by (destruct mode; [reflexivity .. | contradiction]).
  destruct (macroPeriod_no_wrap f _ Hf Ha) as (HmA & _ & HA).
  destruct (macroPeriod_no_wrap f _ Hf Hb) as (HmB & HB & _).
  eexists. eexists. split; [exact HmA|]. split; [exact HmB|].
  split; [exact HB|]. split; [|exact HA].
  assert (Hpll : 16384 <= 2 ^ 30 / f) by (apply Z.div_le_lower_bound; lia).
  rewrite <- Hab.
  apply Z.lt_le_trans with (9 * (2 ^ 30 / f) * (vcsel_period_b mode + 1) / 8 + 1);
    [lia|].
  apply Z.div_le_lower_bound; [lia|].
  pose proof (Z.mul_div_le (9 * (2 ^ 30 / f) * (vcsel_period_b mode + 1)) 8
                ltac:(lia)).
  nia.
Qed.

Lemma macroPeriod_closed_form_at_0xBCCC_Long :
  576 <= 0xBCCC < 2 ^ 16 /\ 0 <= 0x0F <= 31 /\
  (macroPeriod 0xBCCC 0x0F = Some (9 * (2 ^ 30 / 0xBCCC) * (0x0F + 1) / 8)
   /\
   (forall mode,
       mode <> Unknown ->
       exists mpA mpB,
         macroPeriod 0xBCCC (vcsel_period_a mode) = Some mpA /\
         macroPeriod 0xBCCC (vcsel_period_b mode) = Some mpB /\
         4096 < mpB /\ mpB < mpA /\ mpA < 2 ^ 26)).
Proof.
  split; [lia|]. split; [lia|].
  apply (macroPeriod_closed_form 0xBCCC 0x0F); lia.
Defined.

(** ** Re-applying the timing budget *)

Lemma be16_small hi lo :
  0 <= hi < 256 -> 0 <= lo < 256 -> be16 hi lo = hi * 256 + lo.
Proof.
  intros Hhi Hlo. unfold be16.
  rewrite (u16_small hi) by lia.
  assert (Hs : u16 (Z.shiftl hi 8) = Z.shiftl hi 8).
  { apply u16_small. rewrite Z.shiftl_mul_pow2 by lia.
    change (2 ^ 8) with 256. lia. }
  rewrite Hs, lor_shiftl_low by (change (2 ^ 8) with 256; lia).
  change (2 ^ 8) with 256. apply u16_small. lia.
Qed.

Lemma packed_bytes e q :
  0 <= e < 256 -> 0 <= q < 256 ->
  u8 (Z.shiftr (e * 256 + q) 8) = e /\ u8 (e * 256 + q) = q.
Proof.
  intros He Hq. rewrite Z.shiftr_div_pow2 by lia. change (2 ^ 8) with 256.
  rewrite Z.div_add_l, (Z.div_small q 256), Z.add_0_r by lia.
  split; [apply u8_small; lia|].
  unfold u8. change (2 ^ 8) with 256.
  rewrite Z.add_comm, Z.mod_add by lia. apply Z.mod_small. lia.
Qed.

(** Reading the budget makes two register reads and nothing else. *)
Lemma getMeasurementTimingBudget_bus {hdr : Header} (dev : Device)
    (s s0 : VL53L1X) (b : Z) :
  getMeasurementTimingBudget dev s = Ok b s0 ->
  bus s0 = Request (address s) 2
           :: Transmit (address s) RANGE_CONFIG__TIMEOUT_MACROP_A []
           :: Request (address s) 1
           :: Transmit (address s) RANGE_CONFIG__VCSEL_PERIOD_A []
           :: bus s
  /\ distance_mode s0 = distance_mode s.
Proof.
  unfold getMeasurementTimingBudget, calcMacroPeriod, bind. cbn.
  repeat match goal with
         | |- context [defined ?o _] => destruct o; cbn; [|discriminate]
         end.
  intros [= <- <-]. split; reflexivity.
Qed.

(** Applying, on a register file, a budget of the form that
    [getMeasurementTimingBudget] computes from a normalized register value
    [e * 256 + q]: the range timeout register A ends up holding exactly that
    value, and the budget reads back unchanged. *)
Lemma set_budget_of_normalized {hdr : Header} (reset : regAddr -> list Z)
    (s : VL53L1X) (va vb e q mpA mpB b : Z) :
  reg_content reset RANGE_CONFIG__VCSEL_PERIOD_A (bus s) = [va] ->
  reg_content reset RANGE_CONFIG__VCSEL_PERIOD_B (bus s) = [vb] ->
  0 <= e <= 24 -> 0 <= q < 256 -> (e = 0 \/ 128 <= q) ->
  macroPeriod (fast_osc_frequency s) (u8 va) = Some mpA ->
  4096 < mpA -> (q * 2 ^ e + 2) * mpA < 2 ^ 32 ->
  macroPeriod (fast_osc_frequency s) (u8 vb) = Some mpB -> mpB <> 0 ->
  b = u32 (2 * timeoutMclksToMicroseconds (q * 2 ^ e + 1) mpA + TimingGuard) ->
  TimingGuard < b <= TimingGuard + 1100000 ->
  exists s2 s3,
    setMeasurementTimingBudget (register_file reset) b s = Ok true s2 /\
    reg_content reset RANGE_CONFIG__VCSEL_PERIOD_A (bus s2) = [va] /\
    reg_content reset RANGE_CONFIG__TIMEOUT_MACROP_A (bus s2) = [e; q] /\
    fast_osc_frequency s2 = fast_osc_frequency s /\
    getMeasurementTimingBudget (register_file reset) s2 = Ok b s3.
Proof.
  intros Hva Hvb He Hq Hnorm HmA HmA1 Hfit HmB HmB0 Hb Hacc.
  pose proof TimingGuard_u32 as Hg.
  destruct (encodeTimeout_decodeTimeout_normalized e q He Hq Hnorm)
    as [Hdec Henc].
  assert (Hpos : 0 < 2 ^ e) by (apply Z.pow_pos_nonneg; lia).
  set (d := q * 2 ^ e + 1) in *.
  assert (Hd : 1 <= d) by (subst d; nia).
  set (us := timeoutMclksToMicroseconds d mpA) in *.
  assert (Hus : us = (d * mpA + 2048) / 4096)
    by (apply timeoutMclksToMicroseconds_no_wrap; nia).
  assert (Hus0 : 0 <= us < 2 ^ 20).
  { rewrite Hus. split; [apply Z.div_pos; nia|].
    apply Z.div_lt_upper_bound; nia. }
  assert (Hnowrap : b = 2 * us + TimingGuard).
  { rewrite Hb. unfold u32.
    destruct (Z_lt_ge_dec (2 * us + TimingGuard) (2 ^ 32)) as [Hlt|Hge].
    - apply Z.mod_small. lia.
    - exfalso.
      assert (Hw : (2 * us + TimingGuard) mod 2 ^ 32
                   = 2 * us + TimingGuard - 2 ^ 32).
      { symmetry. apply Z.mod_unique_pos with 1; lia. }
      unfold u32 in Hb. rewrite Hw in Hb. lia. }
  assert (Hhalf : (b - TimingGuard) / 2 = us).
  { rewrite Hnowrap. replace (2 * us + TimingGuard - TimingGuard) with (us * 2)
      by lia. apply Z.div_mul. lia. }
  assert (Hb32 : 0 <= b < 2 ^ 32) by (rewrite Hb; apply u32_range).
  destruct (setMeasurementTimingBudget_register_file reset s b va vb mpA mpB)
    as (s2 & mclks & Hrun & Hmclks & _ & _ & Hf2 & Hva2 & Hta2);
    try assumption; try lia.
  rewrite Hhalf in Hmclks. unfold us in Hmclks.
  rewrite mclks_us_mclks in Hmclks by (subst d; nia).
  injection Hmclks as <-.
  rewrite Henc in Hta2.
  destruct (packed_bytes e q ltac:(lia) Hq) as [Hbe Hbq].
  rewrite Hbe, Hbq in Hta2.
  destruct (getMeasurementTimingBudget_register_file reset s2 va e q mpA d
              Hva2 Hta2) as (s3 & Hget3).
  { rewrite Hf2. exact HmA. }
  { rewrite be16_small by lia. exact Hdec. }
  fold us in Hget3. rewrite <- Hb in Hget3.
  exists s2, s3. repeat split; assumption.
Qed.

(** X5.  On a sensor whose registers read back what was written: if the
    range timeout register A holds a normalized value (as after any earlier
    [setMeasurementTimingBudget]), the macro period is above one
    microsecond and the products fit in 32 bits, then writing back the
    budget that [getMeasurementTimingBudget] has just returned is accepted,
    leaves that register as it was, and the budget reads back exactly the
    same. *)
Theorem setMeasurementTimingBudget_of_getMeasurementTimingBudget :
  forall (hdr : Header) (reset : regAddr -> list Z) (s s1 : VL53L1X)
         (va vb e q mpA mpB b : Z),
    reg_content reset RANGE_CONFIG__VCSEL_PERIOD_A (bus s) = [va] ->
    reg_content reset RANGE_CONFIG__VCSEL_PERIOD_B (bus s) = [vb] ->
    reg_content reset RANGE_CONFIG__TIMEOUT_MACROP_A (bus s) = [e; q] ->
    0 <= e <= 24 -> 0 <= q < 256 -> (e = 0 \/ 128 <= q) ->
    macroPeriod (fast_osc_frequency s) (u8 va) = Some mpA ->
    4096 < mpA -> (q * 2 ^ e + 2) * mpA < 2 ^ 32 ->
    macroPeriod (fast_osc_frequency s) (u8 vb) = Some mpB -> mpB <> 0 ->
    getMeasurementTimingBudget (register_file reset) s = Ok b s1 ->
    TimingGuard < b <= TimingGuard + 1100000 ->
    exists s2 s3,
      setMeasurementTimingBudget (register_file reset) b s1 = Ok true s2 /\
      reg_content reset RANGE_CONFIG__TIMEOUT_MACROP_A (bus s2) = [e; q] /\
      getMeasurementTimingBudget (register_file reset) s2 = Ok b s3.
Proof.
  intros hdr reset s s1 va vb e q mpA mpB b
         Hva Hvb Hta He Hq Hnorm HmA HmA1 Hfit HmB HmB0 Hget Hacc.
  destruct (encodeTimeout_decodeTimeout_normalized e q He Hq Hnorm)
    as [Hdec _].
  destruct (getMeasurementTimingBudget_register_file reset s va e q mpA
              (q * 2 ^ e + 1) Hva Hta HmA) as (s1' & Hget').
  { rewrite be16_small by lia. exact Hdec. }
  rewrite Hget in Hget'. injection Hget' as Hb _.
  destruct (getMeasurementTimingBudget_frame _ _ _ _ Hget) as (_ & Hf1 & _).
  destruct (getMeasurementTimingBudget_bus _ _ _ _ Hget) as (Hbus1 & _).
  destruct (set_budget_of_normalized reset s1 va vb e q mpA mpB b)
    as (s2 & s3 & Hrun & _ & Hta2 & _ & Hget3); try assumption.
  - rewrite Hbus1. exact Hva.
  - rewrite Hbus1. exact Hvb.
  - rewrite Hf1. exact HmA.
  - rewrite Hf1. exact HmB.
  - exists s2, s3. repeat split; assumption.
Qed.

Lemma setMeasurementTimingBudget_of_getMeasurementTimingBudget_after_init :
  reg_content booted_sensor RANGE_CONFIG__VCSEL_PERIOD_A (bus after_init)
  = [15] /\
  reg_content booted_sensor RANGE_CONFIG__VCSEL_PERIOD_B (bus after_init)
  = [13] /\
  reg_content booted_sensor RANGE_CONFIG__TIMEOUT_MACROP_A (bus after_init)
  = [0; 232] /\
  0 <= 0 <= 24 /\ 0 <= 232 < 256 /\ (0 = 0 \/ 128 <= 232) /\
  macroPeriod (fast_osc_frequency after_init) (u8 15) = Some 399870 /\
  4096 < 399870 /\ (232 * 2 ^ 0 + 2) * 399870 < 2 ^ 32 /\
  macroPeriod (fast_osc_frequency after_init) (u8 13) = Some 349886 /\
  349886 <> 0 /\
  getMeasurementTimingBudget (register_file booted_sensor) after_init
  = Ok 50022 after_budget_read /\
  TimingGuard < 50022 <= TimingGuard + 1100000 /\
  exists s2 s3,
    setMeasurementTimingBudget (register_file booted_sensor) 50022
      after_budget_read = Ok true s2 /\
    reg_content booted_sensor RANGE_CONFIG__TIMEOUT_MACROP_A (bus s2)
    = [0; 232] /\
    getMeasurementTimingBudget (register_file booted_sensor) s2
    = Ok 50022 s3.
Proof.
  assert (H1 : reg_content booted_sensor RANGE_CONFIG__VCSEL_PERIOD_A
                 (bus after_init) = [15]) by (vm_compute; reflexivity).
  assert (H2 : reg_content booted_sensor RANGE_CONFIG__VCSEL_PERIOD_B
                 (bus after_init) = [13]) by (vm_compute; reflexivity).
  assert (H3 : reg_content booted_sensor RANGE_CONFIG__TIMEOUT_MACROP_A
                 (bus after_init) = [0; 232]) by (vm_compute; reflexivity).
  assert (H4 : macroPeriod (fast_osc_frequency after_init) (u8 15)
               = Some 399870) by (vm_compute; reflexivity).
  assert (H5 : macroPeriod (fast_osc_frequency after_init) (u8 13)
               = Some 349886) by (vm_compute; reflexivity).
  assert (H6 : getMeasurementTimingBudget (register_file booted_sensor)
                 after_init = Ok 50022 after_budget_read)
    by (vm_compute; reflexivity).
  assert (H7 : TimingGuard < 50022 <= TimingGuard + 1100000) by (cbn; lia).
  repeat (split; [first [assumption | lia | (left; reflexivity)]|]).
  apply (setMeasurementTimingBudget_of_getMeasurementTimingBudget
           vendor_header booted_sensor after_init after_budget_read
           15 13 0 232 399870 349886 50022);
    first [assumption | lia | (left; reflexivity)].
Defined.

(** ** Setting the distance mode again *)

(** X6.  On a sensor whose registers read back what was written: when the
    VCSEL period A register already holds the value of the requested mode
    (the sensor is in that mode, or in one with the same period A), the
    range timeout register A is normalized, the macro period is above one
    microsecond and the products fit in 32 bits, [setDistanceMode]
    preserves the timing budget exactly. *)
Theorem setDistanceMode_same_period_keeps_budget :
  forall (hdr : Header) (reset : regAddr -> list Z) (s s0 : VL53L1X)
         (mode : DistanceMode) (e q mpA mpB b : Z),
    mode <> Unknown ->
    reg_content reset RANGE_CONFIG__VCSEL_PERIOD_A (bus s)
    = [vcsel_period_a mode] ->
    reg_content reset RANGE_CONFIG__TIMEOUT_MACROP_A (bus s) = [e; q] ->
    0 <= e <= 24 -> 0 <= q < 256 -> (e = 0 \/ 128 <= q) ->
    macroPeriod (fast_osc_frequency s) (vcsel_period_a mode) = Some mpA ->
    4096 < mpA -> (q * 2 ^ e + 2) * mpA < 2 ^ 32 ->
    macroPeriod (fast_osc_frequency s) (vcsel_period_b mode) = Some mpB ->
    mpB <> 0 ->
    getMeasurementTimingBudget (register_file reset) s = Ok b s0 ->
    TimingGuard < b <= TimingGuard + 1100000 ->
    exists s2 s3,
      setDistanceMode (register_file reset) mode s = Ok true s2 /\
      distance_mode s2 = mode /\
      getMeasurementTimingBudget (register_file reset) s2 = Ok b s3.
Proof.
  intros hdr reset s s0 mode e q mpA mpB b
         Hmode Hva Hta He Hq Hnorm HmA HmA1 Hfit HmB HmB0 Hget Hacc.
  destruct (encodeTimeout_decodeTimeout_normalized e q He Hq Hnorm)
    as [Hdec _].
  destruct (getMeasurementTimingBudget_frame _ _ _ _ Hget)
    as (_ & Hf & _).
  assert (Hu8 : u8 (vcsel_period_a mode) = vcsel_period_a mode)
    by (destruct mode; reflexivity).
  destruct (getMeasurementTimingBudget_register_file reset s
              (vcsel_period_a mode) e q mpA (q * 2 ^ e + 1) Hva Hta)
    as (s0' & Hget').
  { rewrite Hu8. exact HmA. }
  { rewrite be16_small by lia. exact Hdec. }
  rewrite Hget in Hget'. injection Hget' as Hb _.
  unfold setDistanceMode. rewrite (bind_Ok _ _ _ _ _ Hget).
  destruct mode; [| | |contradiction]; cbv beta iota zeta;
    repeat (rewrite bind_writeReg; cbv beta);
    match type of Hmode with
    | ?m <> Unknown =>
        match goal with
        | |- context [bind (setMeasurementTimingBudget _ b) _ ?st] =>
            destruct (set_budget_of_normalized reset st
                        (u8 (vcsel_period_a m)) (u8 (vcsel_period_b m))
                        e q mpA mpB b)
              as (s2 & s3 & Hrun & Hva2 & Hta2 & Hf2 & _);
            [ rewrite !bus_transmitted; reflexivity
            | rewrite !bus_transmitted; reflexivity
            | exact He | exact Hq | exact Hnorm
            | rewrite !fast_osc_frequency_transmitted, Hf; exact HmA
            | exact HmA1 | exact Hfit
            | rewrite !fast_osc_frequency_transmitted, Hf; exact HmB
            | exact HmB0 | exact Hb | exact Hacc | ];
            rewrite !fast_osc_frequency_transmitted, Hf in Hf2
        end;
        rewrite (bind_Ok _ _ _ _ _ Hrun);
        (destruct (getMeasurementTimingBudget_register_file reset
                     (set_distance_mode m s2) _ _ _ mpA (q * 2 ^ e + 1)
                     Hva2 Hta2)
          as (s4 & Hget4);
         [ change (fast_osc_frequency (set_distance_mode m s2))
             with (fast_osc_frequency s2);
           rewrite Hf2; exact HmA
         | rewrite be16_small by lia; exact Hdec | ]);
        rewrite <- Hb in Hget4;
        exists (set_distance_mode m s2), s4
    end;
    repeat split; assumption.
Qed.

Lemma setDistanceMode_same_period_keeps_budget_Long :
  Long <> Unknown /\
  reg_content booted_sensor RANGE_CONFIG__VCSEL_PERIOD_A (bus after_init)
  = [vcsel_period_a Long] /\
  reg_content booted_sensor RANGE_CONFIG__TIMEOUT_MACROP_A (bus after_init)
  = [0; 232] /\
  0 <= 0 <= 24 /\ 0 <= 232 < 256 /\ (0 = 0 \/ 128 <= 232) /\
  macroPeriod (fast_osc_frequency after_init) (vcsel_period_a Long)
  = Some 399870 /\
  4096 < 399870 /\ (232 * 2 ^ 0 + 2) * 399870 < 2 ^ 32 /\
  macroPeriod (fast_osc_frequency after_init) (vcsel_period_b Long)
  = Some 349886 /\
  349886 <> 0 /\
  getMeasurementTimingBudget (register_file booted_sensor) after_init
  = Ok 50022 after_budget_read /\
  TimingGuard < 50022 <= TimingGuard + 1100000 /\
  exists s2 s3,
    setDistanceMode (register_file booted_sensor) Long after_init
    = Ok true s2 /\
    distance_mode s2 = Long /\
    getMeasurementTimingBudget (register_file booted_sensor) s2
    = Ok 50022 s3.
Proof.
  assert (H1 : reg_content booted_sensor RANGE_CONFIG__VCSEL_PERIOD_A
                 (bus after_init) = [vcsel_period_a Long])
    by (vm_compute; reflexivity).
  assert (H3 : reg_content booted_sensor RANGE_CONFIG__TIMEOUT_MACROP_A
                 (bus after_init) = [0; 232]) by (vm_compute; reflexivity).
  assert (H4 : macroPeriod (fast_osc_frequency after_init)
                 (vcsel_period_a Long) = Some 399870)
    by (vm_compute; reflexivity).
  assert (H5 : macroPeriod (fast_osc_frequency after_init)
                 (vcsel_period_b Long) = Some 349886)
    by (vm_compute; reflexivity).
  assert (H6 : getMeasurementTimingBudget (register_file booted_sensor)
                 after_init = Ok 50022 after_budget_read)
    by (vm_compute; reflexivity).
  assert (H7 : TimingGuard < 50022 <= TimingGuard + 1100000) by (cbn; lia).
  assert (H8 : Long <> Unknown) by discriminate.
  repeat (split; [first [assumption | lia | (left; reflexivity)]|]).
  apply (setDistanceMode_same_period_keeps_budget
           vendor_header booted_sensor after_init after_budget_read
           Long 0 232 399870 349886 50022);
    first [assumption | lia | (left; reflexivity)].
Defined.

(** ** An unrecognized distance mode *)

(** X7.  [setDistanceMode] reads the timing budget before it looks at the
    mode: for an unrecognized mode it returns [false] having made the two
    register reads of [getMeasurementTimingBudget] and no write, and the
    recorded mode is unchanged; and when the budget read is undefined (the
    stored oscillator frequency is 0, or the timeout register holds an
    exponent of 32 or more) so is the call. *)
Theorem setDistanceMode_Unknown :
  forall (hdr : Header) (dev : Device) (s : VL53L1X),
    (forall b s0,
        getMeasurementTimingBudget dev s = Ok b s0 ->
        setDistanceMode dev Unknown s = Ok false s0 /\
        distance_mode s0 = distance_mode s /\
        bus s0 = Request (address s) 2
                 :: Transmit (address s) RANGE_CONFIG__TIMEOUT_MACROP_A []
                 :: Request (address s) 1
                 :: Transmit (address s) RANGE_CONFIG__VCSEL_PERIOD_A []
                 :: bus s)
    /\
    (getMeasurementTimingBudget dev s = Undefined ->
     setDistanceMode dev Unknown s = Undefined).
Proof.
  intros hdr dev s. split.
  - intros b s0 Hget.
    destruct (getMeasurementTimingBudget_bus _ _ _ _ Hget) as (Hbus & Hmode).
    unfold setDistanceMode. rewrite (bind_Ok _ _ _ _ _ Hget).
    repeat split; assumption.
  - intros Hget. unfold setDistanceMode.
    apply bind_Undefined. exact Hget.
Qed.

Lemma setDistanceMode_Unknown_after_init :
  setDistanceMode sim Unknown after_init = Ok false after_budget_read /\
  distance_mode after_budget_read = Long /\
  setDistanceMode sim Unknown VL53L1X_new = Undefined.
Proof.
  destruct (setDistanceMode_Unknown vendor_header sim after_init)
    as [Hok _].
  destruct (Hok 50022 after_budget_read) as (Hrun & _ & _);
    [vm_compute; reflexivity|].
  destruct (setDistanceMode_Unknown vendor_header sim VL53L1X_new)
    as [_ Hundef].
  split; [exact Hrun|]. split; [vm_compute; reflexivity|].
  apply Hundef. vm_compute. reflexivity.
Defined.

(** ** The timing budget after a mode has been set *)

(** Whatever it returns, [setMeasurementTimingBudget] leaves the VCSEL
    period registers of a register file and the stored oscillator frequency
    as they were. *)
Lemma setMeasurementTimingBudget_keeps_vcsel {hdr : Header}
    (reset : regAddr -> list Z) (s s' : VL53L1X) (b : Z) (r : bool) :
  setMeasurementTimingBudget (register_file reset) b s = Ok r s' ->
  reg_content reset RANGE_CONFIG__VCSEL_PERIOD_A (bus s')
  = reg_content reset RANGE_CONFIG__VCSEL_PERIOD_A (bus s) /\
  reg_content reset RANGE_CONFIG__VCSEL_PERIOD_B (bus s')
  = reg_content reset RANGE_CONFIG__VCSEL_PERIOD_B (bus s) /\
  fast_osc_frequency s' = fast_osc_frequency s.
Proof.
  unfold setMeasurementTimingBudget.
  destruct (b <=? TimingGuard);
    [intros [= <- <-]; repeat split|].
  destruct (1100000 <? u32 (b - TimingGuard));
    [intros [= <- <-]; repeat split|].
  unfold calcMacroPeriod, bind. cbn.
  repeat match goal with
         | |- context [defined ?o _] => destruct o; cbn; [|discriminate]
         end.
  intros [= <- <-]. repeat split.
Qed.

(** What a successful [setDistanceMode] leaves behind on a register file. *)
Lemma setDistanceMode_leaves {hdr : Header} (reset : regAddr -> list Z)
    (s s1 : VL53L1X) (mode : DistanceMode) :
  setDistanceMode (register_file reset) mode s = Ok true s1 ->
  mode <> Unknown /\
  reg_content reset RANGE_CONFIG__VCSEL_PERIOD_A (bus s1)
  = [vcsel_period_a mode] /\
  reg_content reset RANGE_CONFIG__VCSEL_PERIOD_B (bus s1)
  = [vcsel_period_b mode] /\
  fast_osc_frequency s1 = fast_osc_frequency s /\
  distance_mode s1 = mode.
Proof.
  unfold setDistanceMode.
  destruct (getMeasurementTimingBudget (register_file reset) s)
    as [b s0| |] eqn:Hget;
    [ rewrite (bind_Ok _ _ _ _ _ Hget)
    | rewrite (bind_Undefined _ _ _ Hget); discriminate
    | rewrite (bind_OutOfFuel _ _ _ Hget); discriminate ].
  destruct (getMeasurementTimingBudget_frame _ _ _ _ Hget) as (_ & Hf & _).
  destruct mode; cbv beta iota zeta; [| | |discriminate];
    repeat (rewrite bind_writeReg; cbv beta);
    match goal with
    | |- bind (setMeasurementTimingBudget _ b) _ ?st = _ -> _ =>
        destruct (setMeasurementTimingBudget (register_file reset) b st)
          as [r s'| |] eqn:Hset;
        [ rewrite (bind_Ok _ _ _ _ _ Hset)
        | rewrite (bind_Undefined _ _ _ Hset); discriminate
        | rewrite (bind_OutOfFuel _ _ _ Hset); discriminate ];
        destruct (setMeasurementTimingBudget_keeps_vcsel _ _ _ _ _ Hset)
          as (Ha & Hb & Hf');
        rewrite !bus_transmitted in Ha, Hb;
        rewrite !fast_osc_frequency_transmitted, Hf in Hf'
    end;
    intros [= <-];
    (split; [discriminate|]);
    (split; [exact Ha|]); (split; [exact Hb|]);
    (split; [exact Hf' | reflexivity]).
Qed.

(** X8.  On a sensor whose registers read back what was written and
    whose measured oscillator frequency is at least 576: once
    [setDistanceMode] has succeeded, [setMeasurementTimingBudget] is
    defined for every 32-bit budget (no division by zero can occur) and
    returns [true] exactly for the budgets above the guard by at most
    1100000. *)
Theorem setMeasurementTimingBudget_after_setDistanceMode :
  forall (hdr : Header) (reset : regAddr -> list Z) (s s1 : VL53L1X)
         (mode : DistanceMode) (budget_us : Z),
    setDistanceMode (register_file reset) mode s = Ok true s1 ->
    576 <= fast_osc_frequency s < 2 ^ 16 ->
    0 <= budget_us < 2 ^ 32 ->
    exists s2,
      setMeasurementTimingBudget (register_file reset) budget_us s1
      = Ok (negb ((budget_us <=? TimingGuard)
                  || (1100000 <? budget_us - TimingGuard))) s2.
Proof.
  intros hdr reset s s1 mode b Hmode Hf Hb.
  destruct (setDistanceMode_leaves _ _ _ _ Hmode)
    as (Hrec & Hva & Hvb & Hf1 & _).
  assert (Ha31 : 0 <= vcsel_period_a mode <= 31) by (destruct mode; cbn; lia).
  assert (Hb31 : 0 <= vcsel_period_b mode <= 31) by (destruct mode; cbn; lia).
  destruct (macroPeriod_no_wrap _ _ Hf Ha31) as (HmA & HA & _).
  destruct (macroPeriod_no_wrap _ _ Hf Hb31) as (HmB & HB & _).
  destruct (Z.leb_spec b TimingGuard) as [Hle|Hgt]; cbn [orb negb].
  - exists s1. apply setMeasurementTimingBudget_rejects; [exact Hb | left; exact Hle].
  - destruct (Z.ltb_spec 1100000 (b - TimingGuard)) as [Hbig|Hok]; cbn [negb].
    + exists s1. apply setMeasurementTimingBudget_rejects;
        [exact Hb | right; exact Hbig].
    + destruct (setMeasurementTimingBudget_register_file reset s1 b
                  (vcsel_period_a mode) (vcsel_period_b mode)
                  (9 * (2 ^ 30 / fast_osc_frequency s)
                   * (vcsel_period_a mode + 1) / 8)
                  (9 * (2 ^ 30 / fast_osc_frequency s)
                   * (vcsel_period_b mode + 1) / 8)
                  Hb Hgt Hok Hva Hvb)
        as (s2 & _ & Hrun & _).
      * rewrite Hf1, u8_small by lia. exact HmA.
      * lia.
      * rewrite Hf1, u8_small by lia. exact HmB.
      * lia.
      * exists s2. exact Hrun.
Qed.

Lemma setMeasurementTimingBudget_after_setDistanceMode_Short_20000 :
  setDistanceMode (register_file booted_sensor) Short after_init
  = Ok true after_short /\
  576 <= fast_osc_frequency after_init < 2 ^ 16 /\
  0 <= 20000 < 2 ^ 32 /\
  exists s2,
    setMeasurementTimingBudget (register_file booted_sensor) 20000 after_short
    = Ok (negb ((20000 <=? TimingGuard) || (1100000 <? 20000 - TimingGuard)))
        s2.
Proof.
  assert (H1 : setDistanceMode (register_file booted_sensor) Short after_init
               = Ok true after_short) by (vm_compute; reflexivity).
  assert (H2 : 576 <= fast_osc_frequency after_init < 2 ^ 16)
    by (vm_compute; split; [discriminate | reflexivity]).
  split; [exact H1|]. split; [exact H2|]. split; [lia|].
  apply (setMeasurementTimingBudget_after_setDistanceMode
           vendor_header booted_sensor after_init after_short Short 20000
           H1 H2).
  lia.
Defined.

(** ** Region of interest: center and size *)

(** X9.  On a sensor whose registers read back what was written, a
    center SPAD set with [setROICenter] survives a following [setROISize]
    exactly when neither the width nor the height exceeds 10; otherwise
    [getROICenter] returns 199 afterwards. *)
Theorem setROISize_overrides_center :
  forall (reset : regAddr -> list Z) (s : VL53L1X) (spadNumber width height : Z),
    0 <= spadNumber < 2 ^ 8 -> 0 <= width < 2 ^ 8 -> 0 <= height < 2 ^ 8 ->
    exists s',
      (setROICenter (register_file reset) spadNumber ;;;
       setROISize (register_file reset) width height ;;;
       getROICenter (register_file reset)) s
      = Ok (if (10 <? width) || (10 <? height) then 199 else spadNumber) s'.
Proof.
  intros reset s c w h Hc Hw Hh.
  assert (Hcw : (10 <? (if 16 <? w then 16 else w)) = (10 <? w)).
  { destruct (Z.ltb_spec 16 w); [|reflexivity].
    symmetry. apply Z.ltb_lt. lia. }
  assert (Hch : (10 <? (if 16 <? h then 16 else h)) = (10 <? h)).
  { destruct (Z.ltb_spec 16 h); [|reflexivity].
    symmetry. apply Z.ltb_lt. lia. }
  unfold setROISize. rewrite Hcw, Hch.
  destruct ((10 <? w) || (10 <? h)); cbn; rewrite u8_idem.
  - eexists. reflexivity.
  - rewrite (u8_small c) by lia. eexists. reflexivity.
Qed.

Lemma setROISize_overrides_center_at_42_12_4 :
  0 <= 42 < 2 ^ 8 /\ 0 <= 12 < 2 ^ 8 /\ 0 <= 4 < 2 ^ 8 /\
  exists s',
    (setROICenter (register_file booted_sensor) 42 ;;;
     setROISize (register_file booted_sensor) 12 4 ;;;
     getROICenter (register_file booted_sensor)) VL53L1X_new
    = Ok (if (10 <? 12) || (10 <? 4) then 199 else 42) s'.
Proof.
  split; [lia|]. split; [lia|]. split; [lia|].
  apply (setROISize_overrides_center booted_sensor VL53L1X_new 42 12 4); lia.
Defined.

(** ** Status strings *)

(** X10.  The display strings of the range statuses are pairwise
    distinct: a status can be recovered from its string. *)
Theorem rangeStatusToString_injective :
  forall a b : RangeStatus.t,
    rangeStatusToString a = rangeStatusToString b -> a = b.
Proof.
  intros a b H. destruct a; destruct b; try reflexivity; discriminate H.
Qed.

Lemma rangeStatusToString_injective_at_status_of_9 :
  rangeStatusToString (rangeStatusOf 9 1)
  = rangeStatusToString RangeStatus.RangeValid /\
  rangeStatusOf 9 1 = RangeStatus.RangeValid.
Proof.
  split; [reflexivity|].
  apply (rangeStatusToString_injective (rangeStatusOf 9 1)
           RangeStatus.RangeValid).
  reflexivity.
Defined.

(** ** Register transport *)

Lemma lor_high_low a b n :
  0 <= n -> 0 <= b < 2 ^ n -> Z.lor (a * 2 ^ n) b = a * 2 ^ n + b.
Proof.
  intros Hn Hb. rewrite <- (Z.shiftl_mul_pow2 a n) by assumption.
  rewrite lor_shiftl_low by assumption.
  rewrite Z.shiftl_mul_pow2 by assumption. reflexivity.
Qed.

Lemma lor_scaled a b n :
  0 <= n -> Z.lor (a * 2 ^ n) (b * 2 ^ n) = Z.lor a b * 2 ^ n.
Proof.
  intros Hn. rewrite <- !Z.shiftl_mul_pow2 by assumption.
  symmetry. apply Z.shiftl_lor.
Qed.

(** Four bytes read most significant first. *)
Lemma be32_small b3 b2 b1 b0 :
  0 <= b3 < 256 -> 0 <= b2 < 256 -> 0 <= b1 < 256 -> 0 <= b0 < 256 ->
  be32 b3 b2 b1 b0 = b3 * 2 ^ 24 + b2 * 2 ^ 16 + b1 * 2 ^ 8 + b0.
Proof.
  intros H3 H2 H1 H0. unfold be32.
  rewrite (u32_small b3), (u32_small b2), (u16_small b1) by lia.
  rewrite !Z.shiftl_mul_pow2 by lia.
  rewrite (u32_small (b3 * 2 ^ 24)), (u32_small (b2 * 2 ^ 16)) by lia.
  replace (b3 * 2 ^ 24) with ((b3 * 2 ^ 8) * 2 ^ 16) by lia.
  rewrite lor_scaled by lia.
  rewrite (lor_high_low b3 b2 8) by lia.
  rewrite (u32_small ((b3 * 2 ^ 8 + b2) * 2 ^ 16)) by lia.
  replace ((b3 * 2 ^ 8 + b2) * 2 ^ 16)
    with (((b3 * 2 ^ 8 + b2) * 2 ^ 8) * 2 ^ 8) by lia.
  rewrite lor_scaled by lia.
  rewrite (lor_high_low (b3 * 2 ^ 8 + b2) b1 8) by lia.
  rewrite (u32_small (((b3 * 2 ^ 8 + b2) * 2 ^ 8 + b1) * 2 ^ 8)) by lia.
  rewrite (lor_high_low ((b3 * 2 ^ 8 + b2) * 2 ^ 8 + b1) b0 8) by lia.
  rewrite u32_small by lia. lia.
Qed.

Lemma be32_bytes v :
  0 <= v < 2 ^ 32 ->
  be32 (u8 (Z.shiftr v 24)) (u8 (Z.shiftr v 16)) (u8 (Z.shiftr v 8)) (u8 v)
  = v.
Proof.
  intros Hv. rewrite be32_small by apply u8_range.
  unfold u8. rewrite !Z.shiftr_div_pow2 by lia.
  change (2 ^ 24) with (256 * (256 * 256)).
  change (2 ^ 16) with (256 * 256). change (2 ^ 8) with 256.
  rewrite <- !Z.div_div by lia.
  pose proof (Z.div_mod v 256 ltac:(lia)).
  pose proof (Z.mod_pos_bound v 256 ltac:(lia)).
  pose proof (Z.div_mod (v / 256) 256 ltac:(lia)).
  pose proof (Z.mod_pos_bound (v / 256) 256 ltac:(lia)).
  pose proof (Z.div_mod (v / 256 / 256) 256 ltac:(lia)).
  pose proof (Z.mod_pos_bound (v / 256 / 256) 256 ltac:(lia)).
  assert (v / 256 / 256 / 256 < 256).
  { rewrite !Z.div_div by lia. apply Z.div_lt_upper_bound; lia. }
  assert (0 <= v / 256 / 256 / 256).
  { rewrite !Z.div_div by lia. apply Z.div_pos; lia. }
  rewrite (Z.mod_small (v / 256 / 256 / 256)) by lia.
  lia.
Qed.

(** X11.  On a sensor whose registers read back what was written, a
    register read after a write of the same width returns the value
    written, reduced to that width: 8, 16 and 32 bits. *)
Theorem write_then_read :
  forall (reset : regAddr -> list Z) (s : VL53L1X) (reg : regAddr)
         (value : Z),
    (exists s',
        (writeReg (register_file reset) reg value ;;;
         readReg (register_file reset) reg) s = Ok (u8 value) s')
    /\
    (exists s',
        (writeReg16Bit (register_file reset) reg value ;;;
         readReg16Bit (register_file reset) reg) s = Ok (u16 value) s')
    /\
    (exists s',
        (writeReg32Bit (register_file reset) reg value ;;;
         readReg32Bit (register_file reset) reg) s = Ok (u32 value) s').
Proof.
  intros reset s reg value.
  assert (Hself : regAddr_beq reg reg = true) by (destruct reg; reflexivity).
  split; [|split].
  - eexists. unfold bind, writeReg, readReg, bind. cbn.
    rewrite Hself. cbn. rewrite u8_idem. reflexivity.
  - eexists. unfold bind, writeReg16Bit, readReg16Bit, bind. cbn.
    rewrite Hself. cbn. rewrite be16_bytes by apply u16_range. reflexivity.
  - eexists. unfold bind, writeReg32Bit, readReg32Bit, bind. cbn.
    rewrite Hself. cbn. rewrite be32_bytes by apply u32_range. reflexivity.
Qed.

(** ** Fetching the result block *)

Lemma be16_range hi lo : 0 <= be16 hi lo < 2 ^ 16.
Proof. unfold be16. apply u16_range. Qed.

(** X12.  [readResults] makes one 17-byte read at [RESULT__RANGE_STATUS]
    and changes nothing but the result buffer (and the bus history and
    status).  Every field it stores fits its width, whatever the bus
    returns; when the 17 values are bytes, the 16-bit fields are the
    big-endian pairs at offsets 3, 7, 13 and 15 and the status and stream
    count are the bytes at offsets 0 and 2; and when the bus has nothing to
    return (every [read()] gives -1) the buffer holds 255 and 65535, which
    [getRangingData] turns into a range of 64351 with status [None]. *)
Theorem readResults_fields :
  forall (dev : Device) (s : VL53L1X),
    let h := Request (address s) 17
             :: Transmit (address s) RESULT__RANGE_STATUS [] :: bus s in
    let byte := wire_read dev h in
    exists s1,
      readResults dev s = Ok tt s1 /\
      bus s1 = h /\
      ranging_data s1 = ranging_data s /\
      calibrated s1 = calibrated s /\
      (0 <= ResultBuffer.range_status (results s1) < 2 ^ 8 /\
       0 <= ResultBuffer.stream_count (results s1) < 2 ^ 8 /\
       0 <= ResultBuffer.dss_actual_effective_spads_sd0 (results s1) < 2 ^ 16 /\
       0 <= ResultBuffer.ambient_count_rate_mcps_sd0 (results s1) < 2 ^ 16 /\
       0 <= ResultBuffer.final_crosstalk_corrected_range_mm_sd0 (results s1)
         < 2 ^ 16 /\
       0 <= ResultBuffer.peak_signal_count_rate_crosstalk_corrected_mcps_sd0
              (results s1) < 2 ^ 16) /\
      ((forall k, (k < 17)%nat -> 0 <= byte k < 256) ->
       results s1 =
       ResultBuffer.mk (byte 0%nat) (byte 2%nat)
         (byte 3%nat * 256 + byte 4%nat)
         (byte 7%nat * 256 + byte 8%nat)
         (byte 13%nat * 256 + byte 14%nat)
         (byte 15%nat * 256 + byte 16%nat)) /\
      ((forall k, byte k = -1) ->
       results s1 = ResultBuffer.mk 255 255 65535 65535 65535 65535 /\
       RangingData.range_mm (ranging_data (getRangingData s1)) = 64351 /\
       RangingData.range_status (ranging_data (getRangingData s1))
       = RangeStatus.None).
Proof.
  intros dev s h byte. eexists. split; [reflexivity|].
  split; [reflexivity|]. split; [reflexivity|]. split; [reflexivity|].
  cbn. fold h. fold byte. split; [|split].
  - repeat split; first [apply u8_range | apply be16_range].
  - intros Hbytes.
    rewrite !u8_small by (apply Hbytes; repeat constructor).
    rewrite !be16_small by (apply Hbytes; repeat constructor).
    reflexivity.
  - intros Hnone. rewrite !Hnone. split; [reflexivity|].
    split; reflexivity.
Qed.

(** ** Calibration set-up and its undoing *)

Lemma land_3 x : Z.land x 0x03 = x mod 4.
Proof. change 0x03 with (Z.ones 2). apply Z.land_ones. lia. Qed.

Lemma setupManualCalibration_register_file reset s i t :
  nth 0 (reg_content reset VHV_CONFIG__INIT (bus s)) (-1) = i ->
  nth 0 (reg_content reset VHV_CONFIG__TIMEOUT_MACROP_LOOP_BOUND (bus s)) (-1)
  = t ->
  0 <= i < 2 ^ 8 -> 0 <= t < 2 ^ 8 ->
  exists s1,
    setupManualCalibration (register_file reset) s = Ok tt s1 /\
    saved_vhv_init s1 = i /\
    saved_vhv_timeout s1 = t /\
    reg_content reset VHV_CONFIG__INIT (bus s1) = [i mod 128] /\
    reg_content reset VHV_CONFIG__TIMEOUT_MACROP_LOOP_BOUND (bus s1)
    = [t mod 4 + 12] /\
    reg_content reset PHASECAL_CONFIG__OVERRIDE (bus s1) = [1].
Proof.
  intros Hi Ht Hir Htr.
  pose proof (Z.mod_pos_bound i 128 ltac:(lia)) as Hi7.
  pose proof (Z.mod_pos_bound t 4 ltac:(lia)) as Ht3.
  assert (Hp1 : u8 (Z.land i 0x7F) = i mod 128).
  { rewrite land_7F. apply u8_small. lia. }
  assert (Hp2 : u8 (Z.land t 0x03 + Z.shiftl 3 2) = t mod 4 + 12).
  { rewrite land_3. change (Z.shiftl 3 2) with 12. apply u8_small. lia. }
  unfold setupManualCalibration.
  assert (Hr1 : readReg (register_file reset) VHV_CONFIG__INIT s
                = Ok i (log_op (Request (address s) 1)
                          (transmitted (register_file reset)
                             VHV_CONFIG__INIT [] s))).
  { unfold readReg, bind, transmit, requestFrom, bus_read, ret.
    f_equal.
    change (u8 (nth 0 (reg_content reset VHV_CONFIG__INIT (bus s)) (-1))
            = i).
    rewrite Hi. apply u8_small. lia. }
  rewrite (bind_Ok _ _ _ _ _ Hr1).
  set (sa := log_op _ _).
  change (bind (modify (set_saved_vhv_init i)) ?k sa)
    with (k tt (set_saved_vhv_init i sa)).
  cbv beta.
  set (sb := set_saved_vhv_init i sa).
  assert (Hr2 : readReg (register_file reset)
                  VHV_CONFIG__TIMEOUT_MACROP_LOOP_BOUND sb
                = Ok t (log_op (Request (address sb) 1)
                          (transmitted (register_file reset)
                             VHV_CONFIG__TIMEOUT_MACROP_LOOP_BOUND [] sb))).
  { unfold readReg, bind, transmit, requestFrom, bus_read, ret.
    f_equal.
    change (u8 (nth 0 (reg_content reset
                         VHV_CONFIG__TIMEOUT_MACROP_LOOP_BOUND (bus s)) (-1))
            = t).
    rewrite Ht. apply u8_small. lia. }
  rewrite (bind_Ok _ _ _ _ _ Hr2).
  set (sc := log_op _ _).
  change (bind (modify (set_saved_vhv_timeout t)) ?k sc)
    with (k tt (set_saved_vhv_timeout t sc)).
  cbv beta.
  set (sd := set_saved_vhv_timeout t sc).
  change (bind (get saved_vhv_init) ?k sd) with (k i sd).
  cbv beta.
  rewrite bind_writeReg, Hp1.
  set (se := transmitted _ _ _ sd).
  change (bind (get saved_vhv_timeout) ?k se) with (k t se).
  cbv beta.
  rewrite bind_writeReg, Hp2.
  set (sf := transmitted _ _ _ se).
  rewrite bind_writeReg.
  set (sg := transmitted _ _ _ sf).
  unfold bind at 1.
  destruct (readReg (register_file reset) PHASECAL_RESULT__VCSEL_START sg)
    as [v sh| |] eqn:Hr3;
    [| unfold readReg, bind, transmit, requestFrom, bus_read, ret in Hr3;
       discriminate Hr3 ..].
  assert (Hsh : sh = log_op (Request (address sg) 1)
                       (transmitted (register_file reset)
                          PHASECAL_RESULT__VCSEL_START [] sg)).
  { unfold readReg, bind, transmit, requestFrom, bus_read, ret in Hr3.
    injection Hr3 as _ <-. reflexivity. }
  exists (transmitted (register_file reset) CAL_CONFIG__VCSEL_START
            [u8 v] sh).
  split; [reflexivity|].
  subst sh.
  repeat split.
Qed.

Lemma stopContinuous_register_file reset s1 i t :
  saved_vhv_init s1 = i -> saved_vhv_timeout s1 = t ->
  0 <= i < 2 ^ 8 -> 0 <= t < 2 ^ 8 ->
  exists s2,
    stopContinuous (register_file reset) s1 = Ok tt s2 /\
    calibrated s2 = false /\
    reg_content reset SYSTEM__MODE_START (bus s2) = [0x80] /\
    reg_content reset PHASECAL_CONFIG__OVERRIDE (bus s2) = [0] /\
    reg_content reset VHV_CONFIG__INIT (bus s2)
    = (if i =? 0 then reg_content reset VHV_CONFIG__INIT (bus s1) else [i]) /\
    reg_content reset VHV_CONFIG__TIMEOUT_MACROP_LOOP_BOUND (bus s2)
    = (if t =? 0
       then reg_content reset VHV_CONFIG__TIMEOUT_MACROP_LOOP_BOUND (bus s1)
       else [t]).
Proof.
  intros Hi Ht Hir Htr.
  unfold stopContinuous.
  rewrite bind_writeReg.
  set (sa := transmitted _ _ _ s1).
  change (bind (modify (set_calibrated false)) ?k sa)
    with (k tt (set_calibrated false sa)).
  cbv beta.
  set (sb := set_calibrated false sa).
  change (bind (get saved_vhv_init) ?k sb) with (k (saved_vhv_init s1) sb).
  cbv beta. rewrite Hi.
  destruct (i =? 0); cbn [negb].
  - change (bind (ret tt) ?k sb) with (k tt sb). cbv beta.
    change (bind (get saved_vhv_timeout) ?k sb)
      with (k (saved_vhv_timeout s1) sb).
    cbv beta. rewrite Ht.
    destruct (t =? 0); cbn [negb].
    + change (bind (ret tt) ?k sb) with (k tt sb). cbv beta.
      eexists. split; [reflexivity|]. repeat split.
    + rewrite bind_writeReg. rewrite (u8_small t) by lia.
      eexists. split; [reflexivity|]. repeat split.
  - rewrite bind_writeReg. rewrite (u8_small i) by lia.
    set (sc := transmitted _ _ _ sb).
    change (bind (get saved_vhv_timeout) ?k sc)
      with (k (saved_vhv_timeout s1) sc).
    cbv beta. rewrite Ht.
    destruct (t =? 0); cbn [negb].
    + change (bind (ret tt) ?k sc) with (k tt sc). cbv beta.
      eexists. split; [reflexivity|]. repeat split.
    + rewrite bind_writeReg. rewrite (u8_small t) by lia.
      eexists. split; [reflexivity|]. repeat split.
Qed.

(** X13.  On a sensor whose registers read back what was written,
    [setupManualCalibration] saves the two VHV registers, clears the top
    bit of [VHV_CONFIG__INIT], sets the loop bound to 3 (keeping the two
    low bits of the timeout field) and overrides the phase calibration.  A
    following [stopContinuous] aborts ranging, clears [calibrated] and
    removes the override; it writes each saved value back only when it is
    not 0.  [VHV_CONFIG__INIT] ends with its old value in every case (an
    old value of 0 was not changed by the set-up), but an old
    [VHV_CONFIG__TIMEOUT_MACROP_LOOP_BOUND] of 0 is not restored: the
    register is left at 12. *)
Theorem stopContinuous_after_setupManualCalibration :
  forall (reset : regAddr -> list Z) (s : VL53L1X) (vhv_init vhv_timeout : Z),
    nth 0 (reg_content reset VHV_CONFIG__INIT (bus s)) (-1) = vhv_init ->
    nth 0 (reg_content reset VHV_CONFIG__TIMEOUT_MACROP_LOOP_BOUND (bus s))
      (-1) = vhv_timeout ->
    0 <= vhv_init < 2 ^ 8 -> 0 <= vhv_timeout < 2 ^ 8 ->
    exists s1 s2,
      setupManualCalibration (register_file reset) s = Ok tt s1 /\
      saved_vhv_init s1 = vhv_init /\
      saved_vhv_timeout s1 = vhv_timeout /\
      reg_content reset VHV_CONFIG__INIT (bus s1) = [vhv_init mod 128] /\
      reg_content reset VHV_CONFIG__TIMEOUT_MACROP_LOOP_BOUND (bus s1)
      = [vhv_timeout mod 4 + 12] /\
      reg_content reset PHASECAL_CONFIG__OVERRIDE (bus s1) = [1] /\
      stopContinuous (register_file reset) s1 = Ok tt s2 /\
      calibrated s2 = false /\
      reg_content reset SYSTEM__MODE_START (bus s2) = [0x80] /\
      reg_content reset PHASECAL_CONFIG__OVERRIDE (bus s2) = [0] /\
      reg_content reset VHV_CONFIG__INIT (bus s2) = [vhv_init] /\
      reg_content reset VHV_CONFIG__TIMEOUT_MACROP_LOOP_BOUND (bus s2)
      = [if vhv_timeout =? 0 then 12 else vhv_timeout].
Proof.
  intros reset s i t Hi Ht Hir Htr.
  destruct (setupManualCalibration_register_file reset s i t Hi Ht Hir Htr)
    as (s1 & Hs1 & Hsi & Hst & Hri & Hrt & Hro).
  destruct (stopContinuous_register_file reset s1 i t Hsi Hst Hir Htr)
    as (s2 & Hs2 & Hcal & Hmode & Hover & Hri2 & Hrt2).
  exists s1, s2.
  repeat (split; [assumption|]).
  split.
  - rewrite Hri2, Hri. destruct (Z.eqb_spec i 0) as [->|]; reflexivity.
  - rewrite Hrt2, Hrt. destruct (Z.eqb_spec t 0) as [->|]; reflexivity.
Qed.

Lemma stopContinuous_after_setupManualCalibration_at_0x8A_0x09 :
  exists s1 s2,
    setupManualCalibration (register_file vhv_sensor) VL53L1X_new
    = Ok tt s1 /\
    saved_vhv_init s1 = 0x8A /\
    saved_vhv_timeout s1 = 0x09 /\
    reg_content vhv_sensor VHV_CONFIG__INIT (bus s1) = [0x8A mod 128] /\
    reg_content vhv_sensor VHV_CONFIG__TIMEOUT_MACROP_LOOP_BOUND (bus s1)
    = [0x09 mod 4 + 12] /\
    reg_content vhv_sensor PHASECAL_CONFIG__OVERRIDE (bus s1) = [1] /\
    stopContinuous (register_file vhv_sensor) s1 = Ok tt s2 /\
    calibrated s2 = false /\
    reg_content vhv_sensor SYSTEM__MODE_START (bus s2) = [0x80] /\
    reg_content vhv_sensor PHASECAL_CONFIG__OVERRIDE (bus s2) = [0] /\
    reg_content vhv_sensor VHV_CONFIG__INIT (bus s2) = [0x8A] /\
    reg_content vhv_sensor VHV_CONFIG__TIMEOUT_MACROP_LOOP_BOUND (bus s2)
    = [0x09].
Proof.
  apply (stopContinuous_after_setupManualCalibration
           vhv_sensor VL53L1X_new 0x8A 0x09);
    [reflexivity | reflexivity | lia | lia].
Defined.

(** ** Initialization of a healthy sensor *)

Lemma readReg_register_file reset r s :
  readReg (register_file reset) r s
  = Ok (u8 (nth 0 (reg_content reset r (bus s)) (-1)))
       (log_op (Request (address s) 1)
          (transmitted (register_file reset) r [] s)).
Proof. reflexivity. Qed.

Lemma readReg16Bit_register_file reset r s :
  readReg16Bit (register_file reset) r s
  = Ok (be16 (nth 0 (reg_content reset r (bus s)) (-1))
             (nth 1 (reg_content reset r (bus s)) (-1)))
       (log_op (Request (address s) 2)
          (transmitted (register_file reset) r [] s)).
Proof. reflexivity. Qed.

Lemma bind_writeReg16Bit {B} (dev : Device) (reg : regAddr) (value : Z)
    (k : unit -> M B) (s : VL53L1X) :
  bind (writeReg16Bit dev reg value) k s
  = k tt (transmitted dev reg
            [u8 (Z.shiftr (u16 value) 8); u8 (u16 value)] s).
Proof. reflexivity. Qed.

Lemma bind_modify {B} (f : VL53L1X -> VL53L1X) (k : unit -> M B)
    (s : VL53L1X) :
  bind (modify f) k s = k tt (f s).
Proof. reflexivity. Qed.

Lemma bind_get {A B} (f : VL53L1X -> A) (k : A -> M B) (s : VL53L1X) :
  bind (get f) k s = k (f s) s.
Proof. reflexivity. Qed.

Lemma bind_ret {A B} (a : A) (k : A -> M B) (s : VL53L1X) :
  bind (ret a) k s = k a s.
Proof. reflexivity. Qed.

Lemma bind_assoc {A B C} (m : M A) (f : A -> M B) (k : B -> M C)
    (s : VL53L1X) :
  bind (bind m f) k s = bind m (fun x => bind (f x) k) s.
Proof. unfold bind. destruct (m s); reflexivity. Qed.

(** The boot poll of [init] ends at its first test when the firmware
    status register has bit 0 set. *)
Lemma poll_for_boot_completion_booted reset fuel s :
  Z.land (u8 (nth 0 (reg_content reset FIRMWARE__SYSTEM_STATUS (bus s)) (-1)))
    0x01 <> 0 ->
  poll_for_boot_completion (register_file reset) (S fuel) s
  = Ok true (log_op (Request (address s) 1)
               (transmitted (register_file reset)
                  FIRMWARE__SYSTEM_STATUS [] s)).
Proof.
  intros Hboot. apply Z.eqb_neq in Hboot.
  change (poll_for_boot_completion (register_file reset) (S fuel))
    with (v <- readReg (register_file reset) FIRMWARE__SYSTEM_STATUS ;;
          st <- get last_status ;;
          if (Z.land v 0x01 =? 0) || negb (st =? 0) then
            expired <- checkTimeoutExpired (register_file reset) ;;
            if expired
            then modify (set_did_timeout true) ;;; ret false
            else poll_for_boot_completion (register_file reset) fuel
          else ret true).
  rewrite (bind_Ok _ _ _ _ _ (readReg_register_file reset _ s)).
  rewrite bind_get. rewrite Hboot. reflexivity.
Qed.

(** [init] up to its call of [setDistanceMode], on a sensor that
    identifies itself and has booted. *)
Lemma init_configures {hdr : Header} (reset : regAddr -> list Z)
    (fuel : nat) (io_2v8 : bool) (s : VL53L1X) :
  nth 0 (reg_content reset IDENTIFICATION__MODEL_ID (bus s)) (-1) = 0xEA ->
  nth 1 (reg_content reset IDENTIFICATION__MODEL_ID (bus s)) (-1) = 0xCC ->
  Z.land (u8 (nth 0 (reg_content reset FIRMWARE__SYSTEM_STATUS (bus s)) (-1)))
    0x01 <> 0 ->
  exists s0,
    init (register_file reset) (S fuel) io_2v8 s
    = (setDistanceMode (register_file reset) Long ;;;
       setMeasurementTimingBudget (register_file reset) 50000 ;;;
       offset <- readReg16Bit (register_file reset)
                   MM_CONFIG__OUTER_OFFSET_MM ;;
       writeReg16Bit (register_file reset)
         ALGO__PART_TO_PART_RANGE_OFFSET_MM (offset * 4) ;;;
       ret 0) s0 /\
    fast_osc_frequency s0
    = be16 (nth 0 (reg_content reset OSC_MEASURED__FAST_OSC__FREQUENCY
                     (bus s)) (-1))
           (nth 1 (reg_content reset OSC_MEASURED__FAST_OSC__FREQUENCY
                     (bus s)) (-1)) /\
    osc_calibrate_val s0
    = be16 (nth 0 (reg_content reset RESULT__OSC_CALIBRATE_VAL (bus s)) (-1))
           (nth 1 (reg_content reset RESULT__OSC_CALIBRATE_VAL (bus s)) (-1))
    /\
    address s0 = address s /\
    did_timeout s0 = did_timeout s /\
    calibrated s0 = calibrated s /\
    reg_content reset RANGE_CONFIG__TIMEOUT_MACROP_A (bus s0)
    = reg_content reset RANGE_CONFIG__TIMEOUT_MACROP_A (bus s) /\
    reg_content reset MM_CONFIG__OUTER_OFFSET_MM (bus s0)
    = reg_content reset MM_CONFIG__OUTER_OFFSET_MM (bus s) /\
    reg_content reset PAD_I2C_HV__EXTSUP_CONFIG (bus s0)
    = (if io_2v8
       then [u8 (Z.lor (u8 (nth 0 (reg_content reset
                                     PAD_I2C_HV__EXTSUP_CONFIG (bus s))
                              (-1))) 0x01)]
       else reg_content reset PAD_I2C_HV__EXTSUP_CONFIG (bus s)).
Proof.
  intros Hid0 Hid1 Hboot.
  unfold init.
  rewrite (bind_Ok _ _ _ _ _ (readReg16Bit_register_file reset _ s)).
  rewrite Hid0, Hid1.
  change (negb (be16 0xEA 0xCC =? 0xEACC)) with false. cbv iota.
  rewrite bind_writeReg.
  unfold delayMicroseconds, delay.
  rewrite bind_modify, bind_writeReg, bind_modify.
  erewrite (bind_Ok (startTimeout _)) by reflexivity.
  match goal with
  | |- context [bind (poll_for_boot_completion _ _) _ ?st] =>
      rewrite (bind_Ok _ _ _ _ _
                 (poll_for_boot_completion_booted reset fuel st Hboot))
  end.
  change (negb true) with false. cbv iota.
  destruct io_2v8; cbv iota.
  - rewrite bind_assoc.
    rewrite (bind_Ok _ _ _ _ _ (readReg_register_file reset _ _)).
    rewrite bind_writeReg.
    rewrite (bind_Ok _ _ _ _ _ (readReg16Bit_register_file reset _ _)).
    rewrite bind_modify.
    rewrite (bind_Ok _ _ _ _ _ (readReg16Bit_register_file reset _ _)).
    rewrite bind_modify.
    repeat first [rewrite bind_writeReg | rewrite bind_writeReg16Bit].
    eexists. split; [reflexivity|].
    repeat split.
  - rewrite bind_ret.
    rewrite (bind_Ok _ _ _ _ _ (readReg16Bit_register_file reset _ _)).
    rewrite bind_modify.
    rewrite (bind_Ok _ _ _ _ _ (readReg16Bit_register_file reset _ _)).
    rewrite bind_modify.
    repeat first [rewrite bind_writeReg | rewrite bind_writeReg16Bit].
    eexists. split; [reflexivity|].
    repeat split.
Qed.

Lemma macroPeriod_defined f v :
  f <> 0 -> exists mp, macroPeriod f v = Some mp.
Proof.
  intros Hf. unfold macroPeriod, udiv.
  destruct (Z.eqb_spec f 0); [contradiction|]. eexists. reflexivity.
Qed.

(** [getMeasurementTimingBudget] is defined on a register file when the
    stored oscillator frequency is not 0 and the exponent byte of the range
    timeout register is below 32. *)
Lemma getMeasurementTimingBudget_defined {hdr : Header}
    (reset : regAddr -> list Z) (s : VL53L1X) :
  fast_osc_frequency s <> 0 ->
  Z.shiftr
    (be16 (nth 0 (reg_content reset RANGE_CONFIG__TIMEOUT_MACROP_A (bus s))
             (-1))
          (nth 1 (reg_content reset RANGE_CONFIG__TIMEOUT_MACROP_A (bus s))
             (-1))) 8 < 32 ->
  exists b s0, getMeasurementTimingBudget (register_file reset) s = Ok b s0.
Proof.
  intros Hf He.
  destruct (macroPeriod_defined (fast_osc_frequency s)
              (u8 (nth 0 (reg_content reset RANGE_CONFIG__VCSEL_PERIOD_A
                            (bus s)) (-1))) Hf) as (mp & Hmp).
  unfold getMeasurementTimingBudget, calcMacroPeriod.
  rewrite (bind_Ok _ _ _ _ _ (readReg_register_file reset _ s)).
  rewrite bind_assoc, bind_get.
  change (fast_osc_frequency (log_op _ (transmitted _ _ _ s)))
    with (fast_osc_frequency s).
  rewrite Hmp.
  erewrite (bind_Ok (defined (Some mp))) by reflexivity.
  rewrite (bind_Ok _ _ _ _ _ (readReg16Bit_register_file reset _ _)).
  change (reg_content reset RANGE_CONFIG__TIMEOUT_MACROP_A
            (bus (log_op _ (transmitted _ _ _ s))))
    with (reg_content reset RANGE_CONFIG__TIMEOUT_MACROP_A (bus s)).
  unfold decodeTimeout.
  apply Z.ltb_lt in He. rewrite He.
  eexists. eexists. reflexivity.
Qed.

(** What the two budget functions leave alone. *)
Lemma getMeasurementTimingBudget_unchanged {hdr : Header} (dev : Device)
    (s s0 : VL53L1X) (b : Z) :
  getMeasurementTimingBudget dev s = Ok b s0 ->
  did_timeout s0 = did_timeout s /\
  calibrated s0 = calibrated s /\
  osc_calibrate_val s0 = osc_calibrate_val s.
Proof.
  unfold getMeasurementTimingBudget, calcMacroPeriod, bind. cbn.
  repeat match goal with
         | |- context [defined ?o _] => destruct o; cbn; [|discriminate]
         end.
  intros [= <- <-]. repeat split.
Qed.

Lemma setMeasurementTimingBudget_unchanged {hdr : Header}
    (reset : regAddr -> list Z) (s s' : VL53L1X) (b : Z) (r : bool) :
  setMeasurementTimingBudget (register_file reset) b s = Ok r s' ->
  address s' = address s /\
  did_timeout s' = did_timeout s /\
  calibrated s' = calibrated s /\
  osc_calibrate_val s' = osc_calibrate_val s /\
  distance_mode s' = distance_mode s /\
  reg_content reset MM_CONFIG__OUTER_OFFSET_MM (bus s')
  = reg_content reset MM_CONFIG__OUTER_OFFSET_MM (bus s) /\
  reg_content reset PAD_I2C_HV__EXTSUP_CONFIG (bus s')
  = reg_content reset PAD_I2C_HV__EXTSUP_CONFIG (bus s).
Proof.
  unfold setMeasurementTimingBudget.
  destruct (b <=? TimingGuard);
    [intros [= <- <-]; repeat split|].
  destruct (1100000 <? u32 (b - TimingGuard));
    [intros [= <- <-]; repeat split|].
  unfold calcMacroPeriod, bind. cbn.
  repeat match goal with
         | |- context [defined ?o _] => destruct o; cbn; [|discriminate]
         end.
  intros [= <- <-]. repeat split.
Qed.

(** With both VCSEL period registers holding values up to 31 and an
    oscillator frequency of at least 576, [setMeasurementTimingBudget] is
    defined for every 32-bit budget. *)
Lemma setMeasurementTimingBudget_defined {hdr : Header}
    (reset : regAddr -> list Z) (s : VL53L1X) (b va vb : Z) :
  0 <= b < 2 ^ 32 ->
  reg_content reset RANGE_CONFIG__VCSEL_PERIOD_A (bus s) = [va] ->
  reg_content reset RANGE_CONFIG__VCSEL_PERIOD_B (bus s) = [vb] ->
  0 <= va <= 31 -> 0 <= vb <= 31 ->
  576 <= fast_osc_frequency s < 2 ^ 16 ->
  exists r s2,
    setMeasurementTimingBudget (register_file reset) b s = Ok r s2.
Proof.
  intros Hb Hva Hvb Ha31 Hb31 Hf.
  destruct (macroPeriod_no_wrap _ _ Hf Ha31) as (HmA & HA & _).
  destruct (macroPeriod_no_wrap _ _ Hf Hb31) as (HmB & HB & _).
  destruct (Z.leb_spec b TimingGuard) as [Hle|Hgt].
  - exists false, s.
    apply setMeasurementTimingBudget_rejects; [exact Hb | left; exact Hle].
  - destruct (Z.ltb_spec 1100000 (b - TimingGuard)) as [Hbig|Hok].
    + exists false, s.
      apply setMeasurementTimingBudget_rejects;
        [exact Hb | right; exact Hbig].
    + destruct (setMeasurementTimingBudget_register_file reset s b va vb
                  (9 * (2 ^ 30 / fast_osc_frequency s) * (va + 1) / 8)
                  (9 * (2 ^ 30 / fast_osc_frequency s) * (vb + 1) / 8)
                  Hb Hgt Hok Hva Hvb)
        as (s2 & _ & Hrun & _).
      * rewrite u8_small by lia. exact HmA.
      * lia.
      * rewrite u8_small by lia. exact HmB.
      * lia.
      * exists true, s2. exact Hrun.
Qed.

(** On a register file with an oscillator frequency of at least 576 and a
    decodable range timeout, [setDistanceMode] with a recognized mode is
    defined and succeeds. *)
Lemma setDistanceMode_defined {hdr : Header} (reset : regAddr -> list Z)
    (s : VL53L1X) (mode : DistanceMode) :
  mode <> Unknown ->
  576 <= fast_osc_frequency s < 2 ^ 16 ->
  Z.shiftr
    (be16 (nth 0 (reg_content reset RANGE_CONFIG__TIMEOUT_MACROP_A (bus s))
             (-1))
          (nth 1 (reg_content reset RANGE_CONFIG__TIMEOUT_MACROP_A (bus s))
             (-1))) 8 < 32 ->
  exists s1,
    setDistanceMode (register_file reset) mode s = Ok true s1 /\
    address s1 = address s /\
    did_timeout s1 = did_timeout s /\
    calibrated s1 = calibrated s /\
    osc_calibrate_val s1 = osc_calibrate_val s /\
    reg_content reset MM_CONFIG__OUTER_OFFSET_MM (bus s1)
    = reg_content reset MM_CONFIG__OUTER_OFFSET_MM (bus s) /\
    reg_content reset PAD_I2C_HV__EXTSUP_CONFIG (bus s1)
    = reg_content reset PAD_I2C_HV__EXTSUP_CONFIG (bus s).
Proof.
  intros Hmode Hf He.
  destruct (getMeasurementTimingBudget_defined reset s ltac:(lia) He)
    as (b & s0 & Hget).
  destruct (getMeasurementTimingBudget_frame _ _ _ _ Hget)
    as (Haddr0 & Hf0 & Hb).
  destruct (getMeasurementTimingBudget_bus _ _ _ _ Hget) as (Hbus0 & _).
  destruct (getMeasurementTimingBudget_unchanged _ _ _ _ Hget)
    as (Hdid0 & Hcal0 & Hosc0).
  unfold setDistanceMode. rewrite (bind_Ok _ _ _ _ _ Hget).
  destruct mode; [| | |contradiction]; cbv beta iota zeta;
    repeat (rewrite bind_writeReg; cbv beta);
    match type of Hmode with
    | ?m <> Unknown =>
        match goal with
        | |- context [bind (setMeasurementTimingBudget _ b) _ ?st] =>
            destruct (setMeasurementTimingBudget_defined reset st b
                        (vcsel_period_a m) (vcsel_period_b m) Hb)
              as (r & s2 & Hset);
            [ rewrite !bus_transmitted; reflexivity
            | rewrite !bus_transmitted; reflexivity
            | cbn; lia | cbn; lia
            | rewrite !fast_osc_frequency_transmitted, Hf0; exact Hf
            | ];
            destruct (setMeasurementTimingBudget_unchanged _ _ _ _ _ Hset)
              as (Haddr2 & Hdid2 & Hcal2 & Hosc2 & _ & Hoff2 & Hpad2);
            rewrite !bus_transmitted in Hoff2, Hpad2;
            rewrite Hbus0 in Hoff2, Hpad2;
            rewrite (bind_Ok _ _ _ _ _ Hset), bind_modify;
            exists (set_distance_mode m s2)
        end
    end;
    (split; [reflexivity|]);
    (split; [rewrite <- Haddr0; exact Haddr2|]);
    (split; [rewrite <- Hdid0; exact Hdid2|]);
    (split; [rewrite <- Hcal0; exact Hcal2|]);
    (split; [rewrite <- Hosc0; exact Hosc2|]);
    (split; [exact Hoff2 | exact Hpad2]).
Qed.

(** X14.  On a sensor whose registers read back what was written, that
    identifies itself as 0xEACC, whose firmware reports that it has booted,
    whose measured oscillator frequency is at least 576 and whose range
    timeout register holds a decodable value (exponent byte below 32),
    and with a timing guard below 50000, [init] returns 0 at the first
    boot poll.  It leaves the driver in long distance mode with the
    measured frequency and calibration value stored, and the timeout flag,
    the calibration flag and the address as they were; the VCSEL periods
    are those of the long mode, the range timeout is the encoding of the
    50000 microsecond budget, the part-to-part offset is four times the
    outer offset, and bit 0 of the pad configuration is set when 2.8 V
    mode is asked for and the register untouched otherwise. *)
Theorem init_healthy_sensor :
  forall (hdr : Header) (reset : regAddr -> list Z) (fuel : nat)
         (io_2v8 : bool) (s : VL53L1X) (f : Z),
    nth 0 (reg_content reset IDENTIFICATION__MODEL_ID (bus s)) (-1) = 0xEA ->
    nth 1 (reg_content reset IDENTIFICATION__MODEL_ID (bus s)) (-1) = 0xCC ->
    Z.land
      (u8 (nth 0 (reg_content reset FIRMWARE__SYSTEM_STATUS (bus s)) (-1)))
      0x01 <> 0 ->
    be16 (nth 0 (reg_content reset OSC_MEASURED__FAST_OSC__FREQUENCY
                   (bus s)) (-1))
         (nth 1 (reg_content reset OSC_MEASURED__FAST_OSC__FREQUENCY
                   (bus s)) (-1)) = f ->
    576 <= f ->
    Z.shiftr
      (be16 (nth 0 (reg_content reset RANGE_CONFIG__TIMEOUT_MACROP_A (bus s))
               (-1))
            (nth 1 (reg_content reset RANGE_CONFIG__TIMEOUT_MACROP_A (bus s))
               (-1))) 8 < 32 ->
    TimingGuard < 50000 ->
    exists s' mpA mclks,
      init (register_file reset) (S fuel) io_2v8 s = Ok 0 s' /\
      distance_mode s' = Long /\
      fast_osc_frequency s' = f /\
      osc_calibrate_val s'
      = be16 (nth 0 (reg_content reset RESULT__OSC_CALIBRATE_VAL (bus s))
                (-1))
             (nth 1 (reg_content reset RESULT__OSC_CALIBRATE_VAL (bus s))
                (-1)) /\
      address s' = address s /\
      did_timeout s' = did_timeout s /\
      calibrated s' = calibrated s /\
      reg_content reset RANGE_CONFIG__VCSEL_PERIOD_A (bus s') = [0x0F] /\
      reg_content reset RANGE_CONFIG__VCSEL_PERIOD_B (bus s') = [0x0D] /\
      macroPeriod f 0x0F = Some mpA /\
      timeoutMicrosecondsToMclks ((50000 - TimingGuard) / 2) mpA
      = Some mclks /\
      reg_content reset RANGE_CONFIG__TIMEOUT_MACROP_A (bus s')
      = [u8 (Z.shiftr (encodeTimeout mclks) 8); u8 (encodeTimeout mclks)] /\
      (let offset :=
         be16 (nth 0 (reg_content reset MM_CONFIG__OUTER_OFFSET_MM (bus s))
                 (-1))
              (nth 1 (reg_content reset MM_CONFIG__OUTER_OFFSET_MM (bus s))
                 (-1)) in
       reg_content reset ALGO__PART_TO_PART_RANGE_OFFSET_MM (bus s')
       = [u8 (Z.shiftr (u16 (offset * 4)) 8); u8 (u16 (offset * 4))]) /\
      reg_content reset PAD_I2C_HV__EXTSUP_CONFIG (bus s')
      = (if io_2v8
         then [u8 (Z.lor (u8 (nth 0 (reg_content reset
                                       PAD_I2C_HV__EXTSUP_CONFIG (bus s))
                                (-1))) 0x01)]
         else reg_content reset PAD_I2C_HV__EXTSUP_CONFIG (bus s)).
Proof.
  intros hdr reset fuel io_2v8 s f Hid0 Hid1 Hboot Hfreq Hf He Hguard.
  pose proof TimingGuard_u32 as Hg.
  assert (Hf16 : 576 <= f < 2 ^ 16).
  { split; [exact Hf|]. rewrite <- Hfreq. apply be16_range. }
  destruct (init_configures reset fuel io_2v8 s Hid0 Hid1 Hboot)
    as (s0 & Hinit & Hf0 & Hosc0 & Haddr0 & Hdid0 & Hcal0 & Hta0 & Hoff0
        & Hpad0).
  rewrite Hfreq in Hf0.
  rewrite Hinit.
  destruct (setDistanceMode_defined reset s0 Long)
    as (s1 & Hmode & Haddr1 & Hdid1 & Hcal1 & Hosc1 & Hoff1 & Hpad1);
    [discriminate | rewrite Hf0; exact Hf16 | rewrite Hta0; exact He |].
  destruct (setDistanceMode_leaves _ _ _ _ Hmode)
    as (_ & Hva1 & Hvb1 & Hf1 & Hdm1).
  rewrite Hf0 in Hf1.
  rewrite (bind_Ok _ _ _ _ _ Hmode).
  destruct (macroPeriod_no_wrap f 15 Hf16 ltac:(lia)) as (HmA & HA & _).
  destruct (macroPeriod_no_wrap f 13 Hf16 ltac:(lia)) as (HmB & HB & _).
  destruct (setMeasurementTimingBudget_register_file reset s1 50000
              0x0F 0x0D
              (9 * (2 ^ 30 / f) * (15 + 1) / 8)
              (9 * (2 ^ 30 / f) * (13 + 1) / 8))
    as (s2 & mclks & Hset & Hmclks & _ & Haddr2 & Hf2 & Hva2 & Hta2);
    [ lia | exact Hguard | lia | exact Hva1 | exact Hvb1
    | rewrite Hf1; exact HmA | lia | rewrite Hf1; exact HmB | lia | ].
  destruct (setMeasurementTimingBudget_keeps_vcsel _ _ _ _ _ Hset)
    as (_ & Hvb2 & _).
  destruct (setMeasurementTimingBudget_unchanged _ _ _ _ _ Hset)
    as (_ & Hdid2 & Hcal2 & Hosc2 & Hdm2 & Hoff2 & Hpad2).
  rewrite (bind_Ok _ _ _ _ _ Hset).
  rewrite (bind_Ok _ _ _ _ _ (readReg16Bit_register_file reset _ s2)).
  rewrite bind_writeReg16Bit.
  rewrite Hoff2, Hoff1, Hoff0.
  eexists. exists (9 * (2 ^ 30 / f) * (15 + 1) / 8), mclks.
  split; [reflexivity|].
  split; [exact (eq_trans Hdm2 Hdm1)|].
  split; [exact (eq_trans Hf2 Hf1)|].
  split; [exact (eq_trans Hosc2 (eq_trans Hosc1 Hosc0))|].
  split; [exact (eq_trans Haddr2 (eq_trans Haddr1 Haddr0))|].
  split; [exact (eq_trans Hdid2 (eq_trans Hdid1 Hdid0))|].
  split; [exact (eq_trans Hcal2 (eq_trans Hcal1 Hcal0))|].
  split; [exact Hva2|].
  split; [exact (eq_trans Hvb2 Hvb1)|].
  split; [exact HmA|].
  split; [exact Hmclks|].
  split; [exact Hta2|].
  split; [reflexivity|].
  exact (eq_trans Hpad2 (eq_trans Hpad1 Hpad0)).
Qed.

Lemma init_healthy_sensor_booted_2v8 :
  576 <= 0xBCCC /\ TimingGuard < 50000 /\
  exists s' mclks,
    init (register_file booted_sensor) 1 true VL53L1X_new = Ok 0 s' /\
    distance_mode s' = Long /\
    fast_osc_frequency s' = 0xBCCC /\
    osc_calibrate_val s' = 0x64 /\
    timeoutMicrosecondsToMclks ((50000 - TimingGuard) / 2) 399870
    = Some mclks /\
    reg_content booted_sensor RANGE_CONFIG__TIMEOUT_MACROP_A (bus s')
    = [u8 (Z.shiftr (encodeTimeout mclks) 8); u8 (encodeTimeout mclks)] /\
    reg_content booted_sensor PAD_I2C_HV__EXTSUP_CONFIG (bus s') = [1].
Proof.
  split; [lia|]. split; [cbn; lia|].
  destruct (init_healthy_sensor vendor_header booted_sensor 0 true
              VL53L1X_new 0xBCCC)
    as (s' & mpA & mclks & Hrun & Hdm & Hf & Hosc & _ & _ & _ & _ & _
        & HmA & Hmclks & Hta & _ & Hpad);
    [ reflexivity | reflexivity | vm_compute; discriminate
    | reflexivity | lia | vm_compute; reflexivity | cbn; lia | ].
  assert (HmpA : mpA = 399870).
  { assert (Hc : macroPeriod 0xBCCC 0x0F = Some 399870)
      by (vm_compute; reflexivity).
    rewrite Hc in HmA. injection HmA as <-. reflexivity. }
  subst mpA.
  exists s', mclks.
  repeat (split; [assumption|]). exact Hpad.
Defined.

(** ** Initialization where the arithmetic is undefined *)

Lemma getMeasurementTimingBudget_undefined {hdr : Header}
    (reset : regAddr -> list Z) (s : VL53L1X) :
  fast_osc_frequency s = 0 \/
  32 <= Z.shiftr
          (be16 (nth 0 (reg_content reset RANGE_CONFIG__TIMEOUT_MACROP_A
                          (bus s)) (-1))
                (nth 1 (reg_content reset RANGE_CONFIG__TIMEOUT_MACROP_A
                          (bus s)) (-1))) 8 ->
  getMeasurementTimingBudget (register_file reset) s = Undefined.
Proof.
  intros Hbad.
  unfold getMeasurementTimingBudget, calcMacroPeriod.
  rewrite (bind_Ok _ _ _ _ _ (readReg_register_file reset _ s)).
  rewrite bind_assoc, bind_get.
  change (fast_osc_frequency (log_op _ (transmitted _ _ _ s)))
    with (fast_osc_frequency s).
  destruct (Z.eq_dec (fast_osc_frequency s) 0) as [Hz|Hnz].
  - rewrite Hz. reflexivity.
  - destruct Hbad as [Hz|He]; [contradiction|].
    destruct (macroPeriod_defined (fast_osc_frequency s)
                (u8 (nth 0 (reg_content reset RANGE_CONFIG__VCSEL_PERIOD_A
                              (bus s)) (-1))) Hnz) as (mp & Hmp).
    rewrite Hmp.
    erewrite (bind_Ok (defined (Some mp))) by reflexivity.
    rewrite (bind_Ok _ _ _ _ _ (readReg16Bit_register_file reset _ _)).
    change (reg_content reset RANGE_CONFIG__TIMEOUT_MACROP_A
              (bus (log_op _ (transmitted _ _ _ s))))
      with (reg_content reset RANGE_CONFIG__TIMEOUT_MACROP_A (bus s)).
    unfold decodeTimeout.
    apply Z.ltb_ge in He. rewrite He. reflexivity.
Qed.

(** X15.  [init] has no protection against a sensor that identifies
    itself and has booted but reports a measured oscillator frequency of 0,
    or holds an exponent byte of 32 or more in its range timeout register:
    the budget read at the start of [setDistanceMode] then divides by zero
    in [calcMacroPeriod], or shifts a 32-bit value by 32 or more in
    [decodeTimeout], and the behaviour of [init] is undefined. *)
Theorem init_undefined_arithmetic :
  forall (hdr : Header) (reset : regAddr -> list Z) (fuel : nat)
         (io_2v8 : bool) (s : VL53L1X),
    nth 0 (reg_content reset IDENTIFICATION__MODEL_ID (bus s)) (-1) = 0xEA ->
    nth 1 (reg_content reset IDENTIFICATION__MODEL_ID (bus s)) (-1) = 0xCC ->
    Z.land
      (u8 (nth 0 (reg_content reset FIRMWARE__SYSTEM_STATUS (bus s)) (-1)))
      0x01 <> 0 ->
    be16 (nth 0 (reg_content reset OSC_MEASURED__FAST_OSC__FREQUENCY
                   (bus s)) (-1))
         (nth 1 (reg_content reset OSC_MEASURED__FAST_OSC__FREQUENCY
                   (bus s)) (-1)) = 0
    \/
    32 <= Z.shiftr
            (be16 (nth 0 (reg_content reset RANGE_CONFIG__TIMEOUT_MACROP_A
                            (bus s)) (-1))
                  (nth 1 (reg_content reset RANGE_CONFIG__TIMEOUT_MACROP_A
                            (bus s)) (-1))) 8 ->
    init (register_file reset) (S fuel) io_2v8 s = Undefined.
Proof.
  intros hdr reset fuel io_2v8 s Hid0 Hid1 Hboot Hbad.
  destruct (init_configures reset fuel io_2v8 s Hid0 Hid1 Hboot)
    as (s0 & Hinit & Hf0 & _ & _ & _ & _ & Hta0 & _).
  rewrite Hinit.
  apply bind_Undefined. unfold setDistanceMode.
  apply bind_Undefined.
  apply getMeasurementTimingBudget_undefined.
  rewrite Hf0, Hta0. exact Hbad.
Qed.

Lemma init_undefined_arithmetic_no_clock :
  be16 (nth 0 (reg_content no_clock_sensor OSC_MEASURED__FAST_OSC__FREQUENCY
                 []) (-1))
       (nth 1 (reg_content no_clock_sensor OSC_MEASURED__FAST_OSC__FREQUENCY
                 []) (-1)) = 0 /\
  init (register_file no_clock_sensor) 1 true VL53L1X_new = Undefined.
Proof.
  split; [reflexivity|].
  apply (init_undefined_arithmetic vendor_header no_clock_sensor 0 true
           VL53L1X_new);
    [ reflexivity | reflexivity | vm_compute; discriminate
    | left; reflexivity ].
Defined.

(** ** A ranging session: start, reads, stop *)

Lemma readResults_unchanged (dev : Device) (s : VL53L1X) :
  exists s1,
    readResults dev s = Ok tt s1 /\
    bus s1 = Request (address s) 17
             :: Transmit (address s) RESULT__RANGE_STATUS [] :: bus s /\
    calibrated s1 = calibrated s /\
    saved_vhv_init s1 = saved_vhv_init s /\
    saved_vhv_timeout s1 = saved_vhv_timeout s.
Proof. eexists. repeat split. Qed.

Lemma bind_updateDSS {hdr : Header} {B} (dev : Device) (k : unit -> M B)
    (s : VL53L1X) :
  exists hi lo,
    bind (updateDSS dev) k s
    = k tt (transmitted dev DSS_CONFIG__MANUAL_EFFECTIVE_SPADS_SELECT
              [hi; lo] s).
Proof.
  unfold bind at 1. rewrite updateDSS_one_write.
  eexists. eexists. reflexivity.
Qed.

(** The registers and members involved in the VHV calibration, as a
    non-blocking [read] leaves them on a register file: the first read of
    a session saves and overrides, every later one leaves them alone. *)
Lemma read_register_file_calibrates {hdr : Header}
    (reset : regAddr -> list Z) (fuel : nat) (s : VL53L1X) (i t : Z) :
  calibrated s = false ->
  nth 0 (reg_content reset VHV_CONFIG__INIT (bus s)) (-1) = i ->
  nth 0 (reg_content reset VHV_CONFIG__TIMEOUT_MACROP_LOOP_BOUND (bus s)) (-1)
  = t ->
  0 <= i < 2 ^ 8 -> 0 <= t < 2 ^ 8 ->
  exists v s',
    read (register_file reset) fuel false s = Ok v s' /\
    calibrated s' = true /\
    saved_vhv_init s' = i /\
    saved_vhv_timeout s' = t /\
    reg_content reset VHV_CONFIG__INIT (bus s') = [i mod 128] /\
    reg_content reset VHV_CONFIG__TIMEOUT_MACROP_LOOP_BOUND (bus s')
    = [t mod 4 + 12] /\
    reg_content reset PHASECAL_CONFIG__OVERRIDE (bus s') = [1].
Proof.
  intros Hcal Hi Ht Hir Htr.
  destruct (readResults_unchanged (register_file reset) s)
    as (s1 & Hrr & Hbus1 & Hcal1 & _).
  rewrite Hcal in Hcal1.
  destruct (setupManualCalibration_register_file reset s1 i t)
    as (s2 & Hsetup & Hsi & Hst & Hri & Hrt & Hro);
    [ rewrite Hbus1; exact Hi | rewrite Hbus1; exact Ht
    | exact Hir | exact Htr | ].
  unfold read. cbv iota. rewrite bind_ret.
  change (negb true) with false. cbv iota.
  rewrite (bind_Ok _ _ _ _ _ Hrr).
  rewrite bind_get, Hcal1.
  change (negb false) with true. cbv iota.
  rewrite bind_assoc, (bind_Ok _ _ _ _ _ Hsetup), bind_modify.
  destruct (bind_updateDSS (register_file reset)
              (fun _ =>
                 modify getRangingData ;;;
                 writeReg (register_file reset) SYSTEM__INTERRUPT_CLEAR 1 ;;;
                 d <- get ranging_data ;; ret (RangingData.range_mm d))
              (set_calibrated true s2)) as (hi & lo & Hdss).
  rewrite Hdss.
  rewrite bind_modify, bind_writeReg, bind_get.
  eexists. eexists. split; [reflexivity|].
  split; [reflexivity|].
  split; [exact Hsi|]. split; [exact Hst|].
  split; [exact Hri|]. split; [exact Hrt | exact Hro].
Qed.

Lemma read_register_file_calibrated {hdr : Header}
    (reset : regAddr -> list Z) (fuel : nat) (s : VL53L1X) :
  calibrated s = true ->
  exists v s',
    read (register_file reset) fuel false s = Ok v s' /\
    calibrated s' = true /\
    saved_vhv_init s' = saved_vhv_init s /\
    saved_vhv_timeout s' = saved_vhv_timeout s /\
    reg_content reset VHV_CONFIG__INIT (bus s')
    = reg_content reset VHV_CONFIG__INIT (bus s) /\
    reg_content reset VHV_CONFIG__TIMEOUT_MACROP_LOOP_BOUND (bus s')
    = reg_content reset VHV_CONFIG__TIMEOUT_MACROP_LOOP_BOUND (bus s) /\
    reg_content reset PHASECAL_CONFIG__OVERRIDE (bus s')
    = reg_content reset PHASECAL_CONFIG__OVERRIDE (bus s).
Proof.
  intros Hcal.
  destruct (readResults_unchanged (register_file reset) s)
    as (s1 & Hrr & Hbus1 & Hcal1 & Hsi1 & Hst1).
  rewrite Hcal in Hcal1.
  unfold read. cbv iota. rewrite bind_ret.
  change (negb true) with false. cbv iota.
  rewrite (bind_Ok _ _ _ _ _ Hrr).
  rewrite bind_get, Hcal1.
  change (negb true) with false. cbv iota.
  rewrite bind_ret.
  destruct (bind_updateDSS (register_file reset)
              (fun _ =>
                 modify getRangingData ;;;
                 writeReg (register_file reset) SYSTEM__INTERRUPT_CLEAR 1 ;;;
                 d <- get ranging_data ;; ret (RangingData.range_mm d))
              s1) as (hi & lo & Hdss).
  rewrite Hdss.
  rewrite bind_modify, bind_writeReg, bind_get.
  eexists. eexists. split; [reflexivity|].
  split; [exact Hcal1|].
  split; [exact Hsi1|]. split; [exact Hst1|].
  cbn [bus]. rewrite !bus_transmitted.
  change (bus (getRangingData ?x)) with (bus x).
  rewrite !bus_transmitted, Hbus1.
  repeat split.
Qed.

Lemma reads_register_file_calibrated {hdr : Header}
    (reset : regAddr -> list Z) (n : nat) :
  forall s,
    calibrated s = true ->
    exists s',
      reads (register_file reset) n s = Ok tt s' /\
      calibrated s' = true /\
      saved_vhv_init s' = saved_vhv_init s /\
      saved_vhv_timeout s' = saved_vhv_timeout s /\
      reg_content reset VHV_CONFIG__INIT (bus s')
      = reg_content reset VHV_CONFIG__INIT (bus s) /\
      reg_content reset VHV_CONFIG__TIMEOUT_MACROP_LOOP_BOUND (bus s')
      = reg_content reset VHV_CONFIG__TIMEOUT_MACROP_LOOP_BOUND (bus s) /\
      reg_content reset PHASECAL_CONFIG__OVERRIDE (bus s')
      = reg_content reset PHASECAL_CONFIG__OVERRIDE (bus s).
Proof.
  induction n as [|n IH]; intros s Hcal.
  - exists s. repeat split. exact Hcal.
  - destruct (read_register_file_calibrated reset 0 s Hcal)
      as (v & s1 & Hread & Hcal1 & Hsi1 & Hst1 & Hri1 & Hrt1 & Hro1).
    destruct (IH s1 Hcal1)
      as (s' & Hreads & Hcal' & Hsi' & Hst' & Hri' & Hrt' & Hro').
    exists s'.
    change (reads (register_file reset) (S n))
      with (read (register_file reset) 0 false ;;;
            reads (register_file reset) n).
    rewrite (bind_Ok _ _ _ _ _ Hread).
    split; [exact Hreads|]. split; [exact Hcal'|].
    split; [exact (eq_trans Hsi' Hsi1)|].
    split; [exact (eq_trans Hst' Hst1)|].
    split; [exact (eq_trans Hri' Hri1)|].
    split; [exact (eq_trans Hrt' Hrt1) | exact (eq_trans Hro' Hro1)].
Qed.

Lemma startContinuous_register_file (reset : regAddr -> list Z)
    (s : VL53L1X) (period_ms : Z) :
  exists s0,
    startContinuous (register_file reset) period_ms s = Ok tt s0 /\
    calibrated s0 = calibrated s /\
    reg_content reset VHV_CONFIG__INIT (bus s0)
    = reg_content reset VHV_CONFIG__INIT (bus s) /\
    reg_content reset VHV_CONFIG__TIMEOUT_MACROP_LOOP_BOUND (bus s0)
    = reg_content reset VHV_CONFIG__TIMEOUT_MACROP_LOOP_BOUND (bus s).
Proof. eexists. repeat split. Qed.

(** X16.  A ranging session on a sensor whose registers read back what
    was written: [startContinuous], then one or more non-blocking reads,
    then [stopContinuous].  The first read saves the two VHV registers and
    overrides them, the later reads leave them alone, and
    [stopContinuous] puts back the value [VHV_CONFIG__INIT] had before the
    session, however many reads were made; the loop bound register gets
    its old value back unless that was 0, in which case it is left at 12.
    The driver ends uncalibrated, so that the next session calibrates
    again. *)
Theorem stopContinuous_restores_after_reads :
  forall (hdr : Header) (reset : regAddr -> list Z) (s : VL53L1X)
         (period_ms : Z) (n : nat) (vhv_init vhv_timeout : Z),
    calibrated s = false ->
    nth 0 (reg_content reset VHV_CONFIG__INIT (bus s)) (-1) = vhv_init ->
    nth 0 (reg_content reset VHV_CONFIG__TIMEOUT_MACROP_LOOP_BOUND (bus s))
      (-1) = vhv_timeout ->
    0 <= vhv_init < 2 ^ 8 -> 0 <= vhv_timeout < 2 ^ 8 ->
    exists s1 s2,
      (startContinuous (register_file reset) period_ms ;;;
       reads (register_file reset) (S n)) s = Ok tt s1 /\
      calibrated s1 = true /\
      saved_vhv_init s1 = vhv_init /\
      saved_vhv_timeout s1 = vhv_timeout /\
      reg_content reset VHV_CONFIG__INIT (bus s1) = [vhv_init mod 128] /\
      reg_content reset VHV_CONFIG__TIMEOUT_MACROP_LOOP_BOUND (bus s1)
      = [vhv_timeout mod 4 + 12] /\
      reg_content reset PHASECAL_CONFIG__OVERRIDE (bus s1) = [1] /\
      stopContinuous (register_file reset) s1 = Ok tt s2 /\
      calibrated s2 = false /\
      reg_content reset SYSTEM__MODE_START (bus s2) = [0x80] /\
      reg_content reset PHASECAL_CONFIG__OVERRIDE (bus s2) = [0] /\
      reg_content reset VHV_CONFIG__INIT (bus s2) = [vhv_init] /\
      reg_content reset VHV_CONFIG__TIMEOUT_MACROP_LOOP_BOUND (bus s2)
      = [if vhv_timeout =? 0 then 12 else vhv_timeout].
Proof.
  intros hdr reset s period_ms n i t Hcal Hi Ht Hir Htr.
  destruct (startContinuous_register_file reset s period_ms)
    as (s0 & Hstart & Hcal0 & Hri0 & Hrt0).
  destruct (read_register_file_calibrates reset 0 s0 i t)
    as (v & sa & Hread & Hcala & Hsia & Hsta & Hria & Hrta & Hroa);
    [ rewrite Hcal0; exact Hcal | rewrite Hri0; exact Hi
    | rewrite Hrt0; exact Ht | exact Hir | exact Htr | ].
  destruct (reads_register_file_calibrated reset n sa Hcala)
    as (s1 & Hreads & Hcal1 & Hsi1 & Hst1 & Hri1 & Hrt1 & Hro1).
  rewrite Hsia in Hsi1. rewrite Hsta in Hst1.
  rewrite Hria in Hri1. rewrite Hrta in Hrt1. rewrite Hroa in Hro1.
  destruct (stopContinuous_register_file reset s1 i t Hsi1 Hst1 Hir Htr)
    as (s2 & Hstop & Hcal2 & Hmode & Hover & Hri2 & Hrt2).
  exists s1, s2.
  split.
  { rewrite (bind_Ok _ _ _ _ _ Hstart).
    change (reads (register_file reset) (S n))
      with (read (register_file reset) 0 false ;;;
            reads (register_file reset) n).
    rewrite (bind_Ok _ _ _ _ _ Hread). exact Hreads. }
  repeat (split; [assumption|]).
  split.
  - rewrite Hri2, Hri1. destruct (Z.eqb_spec i 0) as [->|]; reflexivity.
  - rewrite Hrt2, Hrt1. destruct (Z.eqb_spec t 0) as [->|]; reflexivity.
Qed.

Lemma stopContinuous_restores_after_reads_3 :
  exists s1 s2,
    (startContinuous (register_file vhv_sensor) 50 ;;;
     reads (register_file vhv_sensor) 3) VL53L1X_new = Ok tt s1 /\
    calibrated s1 = true /\
    saved_vhv_init s1 = 0x8A /\
    saved_vhv_timeout s1 = 0x09 /\
    reg_content vhv_sensor VHV_CONFIG__INIT (bus s1) = [0x8A mod 128] /\
    reg_content vhv_sensor VHV_CONFIG__TIMEOUT_MACROP_LOOP_BOUND (bus s1)
    = [0x09 mod 4 + 12] /\
    reg_content vhv_sensor PHASECAL_CONFIG__OVERRIDE (bus s1) = [1] /\
    stopContinuous (register_file vhv_sensor) s1 = Ok tt s2 /\
    calibrated s2 = false /\
    reg_content vhv_sensor SYSTEM__MODE_START (bus s2) = [0x80] /\
    reg_content vhv_sensor PHASECAL_CONFIG__OVERRIDE (bus s2) = [0] /\
    reg_content vhv_sensor VHV_CONFIG__INIT (bus s2) = [0x8A] /\
    reg_content vhv_sensor VHV_CONFIG__TIMEOUT_MACROP_LOOP_BOUND (bus s2)
    = [0x09].
Proof.
  apply (stopContinuous_restores_after_reads vendor_header vhv_sensor
           VL53L1X_new 50 2 0x8A 0x09);
    [reflexivity | reflexivity | reflexivity | lia | lia].
Defined.

(** ** A region of interest with a zero dimension *)

Lemma lor_m16 k : 0 <= k < 16 -> u8 (Z.lor (Z.shiftl (0 - 1) 4) k) = 240 + k.
Proof.
  intros Hk.
  assert (Hcases : k = 0 \/ k = 1 \/ k = 2 \/ k = 3 \/ k = 4 \/ k = 5 \/
                   k = 6 \/ k = 7 \/ k = 8 \/ k = 9 \/ k = 10 \/ k = 11 \/
                   k = 12 \/ k = 13 \/ k = 14 \/ k = 15) by lia.
  repeat (destruct Hcases as [->|Hcases]; [reflexivity|]).
  subst k. reflexivity.
Qed.

(** X17.  [setROISize] caps a dimension at 16 but does not raise a
    dimension of 0 (the arguments are unsigned bytes, and [0 - 1] is
    computed as an [int]).  On a sensor whose registers read back what was
    written, a height of 0 reads back as 16 and a width of 0 makes both
    dimensions read back as 16, whatever the height; yet the center is
    forced to SPAD 199 only if the other argument is above 10, so a zero
    width selects the full array without recentring. *)
Theorem setROISize_zero_dimension :
  forall (reset : regAddr -> list Z) (s : VL53L1X) (width height : Z),
    0 <= width < 2 ^ 8 -> 0 <= height < 2 ^ 8 ->
    width = 0 \/ height = 0 ->
    exists s1 s2,
      setROISize (register_file reset) width height s = Ok tt s1 /\
      getROISize (register_file reset) s1
      = Ok (if width =? 0 then 16 else Z.min width 16, 16) s2 /\
      reg_content reset ROI_CONFIG__USER_ROI_CENTRE_SPAD (bus s1)
      = (if (10 <? width) || (10 <? height)
         then [199]
         else reg_content reset ROI_CONFIG__USER_ROI_CENTRE_SPAD (bus s)).
Proof.
  intros reset s w h Hw Hh Hzero.
  assert (Hcw : (10 <? (if 16 <? w then 16 else w)) = (10 <? w)).
  { destruct (Z.ltb_spec 16 w); [|reflexivity].
    symmetry. apply Z.ltb_lt. lia. }
  assert (Hch : (10 <? (if 16 <? h then 16 else h)) = (10 <? h)).
  { destruct (Z.ltb_spec 16 h); [|reflexivity].
    symmetry. apply Z.ltb_lt. lia. }
  assert (Hpay : u8 (Z.lor (Z.shiftl ((if 16 <? h then 16 else h) - 1) 4)
                       ((if 16 <? w then 16 else w) - 1))
                 = if w =? 0 then 255 else 240 + (Z.min w 16 - 1)).
  { destruct (Z.eqb_spec w 0) as [->|Hw0].
    - change ((if 16 <? 0 then 16 else 0) - 1) with (-1).
      rewrite Z.lor_m1_r. reflexivity.
    - assert (h = 0) by lia. subst h.
      change ((if 16 <? 0 then 16 else 0) - 1) with (0 - 1).
      replace (if 16 <? w then 16 else w) with (Z.min w 16)
        by (destruct (Z.ltb_spec 16 w); lia).
      apply lor_m16. lia. }
  assert (Hread : forall v,
             0 <= v < 16 ->
             u8 (Z.land (240 + v) 15 + 1) = v + 1 /\
             u8 (Z.shiftr (240 + v) 4 + 1) = 16).
  { intros v Hv.
    destruct (roi_size_unpack (v + 1) 16 ltac:(lia) ltac:(lia))
      as [Huw Huh].
    cbv zeta in Huw, Huh.
    change ((16 - 1) * 16) with 240 in Huw, Huh.
    replace (v + 1 - 1) with v in Huw, Huh by lia.
    rewrite (u8_small (240 + v)) in Huw, Huh by lia.
    split; assumption. }
  assert (Hget : forall s0 v,
             getROISize (register_file reset)
               (transmitted (register_file reset)
                  ROI_CONFIG__USER_ROI_REQUESTED_GLOBAL_XY_SIZE [u8 v] s0)
             = Ok (u8 (Z.land (u8 v) 0xF + 1), u8 (Z.shiftr (u8 v) 4 + 1))
                  (log_op (Request (address s0) 1)
                     (transmitted (register_file reset)
                        ROI_CONFIG__USER_ROI_REQUESTED_GLOBAL_XY_SIZE []
                        (transmitted (register_file reset)
                           ROI_CONFIG__USER_ROI_REQUESTED_GLOBAL_XY_SIZE
                           [u8 v] s0)))).
  { intros s0 v. unfold getROISize.
    rewrite (bind_Ok _ _ _ _ _ (readReg_register_file reset _ _)).
    rewrite bus_transmitted.
    change (nth 0 (reg_content reset
                     ROI_CONFIG__USER_ROI_REQUESTED_GLOBAL_XY_SIZE
                     (Transmit _ ROI_CONFIG__USER_ROI_REQUESTED_GLOBAL_XY_SIZE
                        [u8 v] :: bus s0)) (-1)) with (u8 v).
    rewrite u8_idem. reflexivity. }
  assert (Hdims : (u8 (Z.land (u8 (Z.lor
                      (Z.shiftl ((if 16 <? h then 16 else h) - 1) 4)
                      ((if 16 <? w then 16 else w) - 1))) 0xF + 1),
                   u8 (Z.shiftr (u8 (Z.lor
                      (Z.shiftl ((if 16 <? h then 16 else h) - 1) 4)
                      ((if 16 <? w then 16 else w) - 1))) 4 + 1))
                  = (if w =? 0 then 16 else Z.min w 16, 16)).
  { rewrite Hpay. destruct (Z.eqb_spec w 0) as [->|Hw0]; [reflexivity|].
    destruct (Hread (Z.min w 16 - 1) ltac:(lia)) as [Huw Huh].
    rewrite Huw, Huh. f_equal. lia. }
  unfold setROISize. rewrite Hcw, Hch.
  destruct ((10 <? w) || (10 <? h)); cbv iota.
  - rewrite bind_writeReg.
    match goal with
    | |- exists s1 s2, writeReg ?d ?r ?v ?st = _ /\ _ =>
        exists (transmitted d r [u8 v] st)
    end.
    eexists. split; [reflexivity|].
    split; [rewrite Hget, Hdims; reflexivity | reflexivity].
  - rewrite bind_ret.
    match goal with
    | |- exists s1 s2, writeReg ?d ?r ?v ?st = _ /\ _ =>
        exists (transmitted d r [u8 v] st)
    end.
    eexists. split; [reflexivity|].
    split; [rewrite Hget, Hdims; reflexivity | reflexivity].
Qed.

Lemma setROISize_zero_dimension_0_5 :
  exists s1 s2,
    setROISize (register_file booted_sensor) 0 5 VL53L1X_new = Ok tt s1 /\
    getROISize (register_file booted_sensor) s1 = Ok (16, 16) s2 /\
    reg_content booted_sensor ROI_CONFIG__USER_ROI_CENTRE_SPAD (bus s1)
    = [0; 0].
Proof.
  apply (setROISize_zero_dimension booted_sensor VL53L1X_new 0 5);
    [lia | lia | left; reflexivity].
Defined.

(** ** The range correction as a function of the raw range *)

(** X18.  The gain correction of [getRangingData] preserves the order of
    raw ranges and never increases a range: the corrected range is at most
    the raw one, equal to it exactly up to 27 mm, and below it by at most
    1184 mm (at the largest 16-bit raw range). *)
Theorem getRangingData_range_monotone :
  forall (s1 s2 : VL53L1X) (raw1 raw2 : Z),
    ResultBuffer.final_crosstalk_corrected_range_mm_sd0 (results s1) = raw1 ->
    ResultBuffer.final_crosstalk_corrected_range_mm_sd0 (results s2) = raw2 ->
    0 <= raw1 <= raw2 -> raw2 < 2 ^ 16 ->
    let range1 := RangingData.range_mm (ranging_data (getRangingData s1)) in
    let range2 := RangingData.range_mm (ranging_data (getRangingData s2)) in
    range1 <= range2 /\
    raw2 - 1184 <= range2 <= raw2 /\
    (range2 = raw2 <-> raw2 <= 27).
Proof.
  intros s1 s2 raw1 raw2 H1 H2 Hle Hlt range1 range2.
  assert (E1 : range1 = (raw1 * 2011 + 1024) / 2048).
  { subst range1. unfold getRangingData. cbn. rewrite H1.
    apply range_gain_no_overflow. lia. }
  assert (E2 : range2 = (raw2 * 2011 + 1024) / 2048).
  { subst range2. unfold getRangingData. cbn. rewrite H2.
    apply range_gain_no_overflow. lia. }
  clearbody range1 range2. subst range1 range2.
  pose proof (Z.div_mod (raw2 * 2011 + 1024) 2048 ltac:(lia)) as Hd.
  pose proof (Z.mod_pos_bound (raw2 * 2011 + 1024) 2048 ltac:(lia)) as Hm.
  split; [apply Z.div_le_mono; lia|].
  split; [lia|]. split; intros; lia.
Qed.

Lemma getRangingData_range_monotone_27_2000 :
  0 <= 27 <= 2000 /\ 2000 < 2 ^ 16 /\
  RangingData.range_mm
    (ranging_data
       (getRangingData
          (set_results (ResultBuffer.mk 9 1 0 0 27 0) VL53L1X_new)))
  <= RangingData.range_mm (ranging_data (getRangingData sample_2000)) /\
  2000 - 1184
  <= RangingData.range_mm (ranging_data (getRangingData sample_2000))
  <= 2000 /\
  (RangingData.range_mm (ranging_data (getRangingData sample_2000)) = 2000
   <-> 2000 <= 27).
Proof.
  split; [lia|]. split; [lia|].
  apply (getRangingData_range_monotone
           (set_results (ResultBuffer.mk 9 1 0 0 27 0) VL53L1X_new)
           sample_2000 27 2000);
    [reflexivity | reflexivity | lia | lia].
Defined.

(** ** The inter-measurement period *)

(** X19.  On a sensor whose registers read back what was written,
    [startContinuous] leaves the timed ranging mode (0x40) in
    [SYSTEM__MODE_START] and the interrupt cleared, and the
    inter-measurement period register reads back as the product of the
    period and the stored calibration value, reduced to 32 bits; with a
    16-bit calibration value the product is exact for every period up to
    65537 ms.  The stored calibration value, the calibration flag and the
    address are not changed. *)
Theorem startContinuous_period :
  forall (reset : regAddr -> list Z) (s : VL53L1X) (period_ms : Z),
    0 <= period_ms < 2 ^ 32 ->
    0 <= osc_calibrate_val s < 2 ^ 16 ->
    exists s1 s2,
      startContinuous (register_file reset) period_ms s = Ok tt s1 /\
      osc_calibrate_val s1 = osc_calibrate_val s /\
      calibrated s1 = calibrated s /\
      address s1 = address s /\
      reg_content reset SYSTEM__MODE_START (bus s1) = [0x40] /\
      reg_content reset SYSTEM__INTERRUPT_CLEAR (bus s1) = [0x01] /\
      readReg32Bit (register_file reset) SYSTEM__INTERMEASUREMENT_PERIOD s1
      = Ok (u32 (period_ms * osc_calibrate_val s)) s2 /\
      (period_ms <= 65537 ->
       u32 (period_ms * osc_calibrate_val s)
       = period_ms * osc_calibrate_val s).
Proof.
  intros reset s p Hp Hc.
  eexists. eexists.
  split; [reflexivity|].
  split; [reflexivity|]. split; [reflexivity|]. split; [reflexivity|].
  split; [reflexivity|]. split; [reflexivity|].
  split.
  - unfold readReg32Bit, bind. cbn.
    rewrite be32_bytes by apply u32_range. reflexivity.
  - intros Hsmall. apply u32_small. nia.
Qed.

Lemma startContinuous_period_after_init_50 :
  0 <= 50 < 2 ^ 32 /\
  0 <= osc_calibrate_val after_init < 2 ^ 16 /\
  exists s1 s2,
    startContinuous (register_file booted_sensor) 50 after_init = Ok tt s1 /\
    reg_content booted_sensor SYSTEM__MODE_START (bus s1) = [0x40] /\
    readReg32Bit (register_file booted_sensor)
      SYSTEM__INTERMEASUREMENT_PERIOD s1 = Ok 5000 s2.
Proof.
  assert (Hc : osc_calibrate_val after_init = 100)
    by (vm_compute; reflexivity).
  split; [lia|]. split; [rewrite Hc; lia|].
  destruct (startContinuous_period booted_sensor after_init 50)
    as (s1 & s2 & Hrun & _ & _ & _ & Hmode & _ & Hread & Hexact);
    [lia | rewrite Hc; lia |].
  rewrite Hexact, Hc in Hread by lia.
  exists s1, s2. repeat split; assumption.
Defined.
